(** * FuseWire: the reactive synchronisation engine, embedded in Rocq

    A shallow embedding of the client runtime found in
    [reactor.js], [instance.js], [template.js], [config.js] and
    [server.js]: the template cache ([TemplateDao]), the instance registry
    ([InstanceDao]) and the session orchestrator ([Reactor]).

    Conventions of the embedding.
    - JavaScript values are the inductive [value]; a [Component] instance is
      referred to by its [fuseWireComponentId], and its own properties live
      in the registry record, so that every alias of an instance sees the
      same fields.  An object carrying ['fusewire-type': 'component'] is the
      constructor [VEnvelope]; its fields have the types the wire protocol
      gives them.  Numbers are integers.
    - Objects used as dictionaries keyed by component ids or names
      ([instances], [inFlight], [versions], the durable store) are finite
      maps over their own keys.  The table of reactor modes is looked up
      through the prototype chain, as the source does.
    - A JSON text is represented by the value it parses to; two texts
      written by [JSON.stringify] are equal exactly when these are equal.
    - The durable store is split by key family: templates, variable
      snapshots and the version index.
    - External collaborators (transport, class loader, UI tree, clock) and
      the application hooks are fields of [Env]; every oracle receives the
      trace of effects so far, so it may answer differently over time.
    - [async] functions: the orchestrator's own suspension points (every
      [await] of [react] and [_run]) are interleaving points of the task
      semantics; an operation of the registry or of the template cache runs
      to completion at the point where it is called.
    - [config.log] is not modelled. *)

From Stdlib Require Import ZArith List String Ascii Bool Lia.
From stdpp Require Import base option list strings gmap.
Import ListNotations.
Local Open Scope string_scope.
Local Open Scope list_scope.

Set Default Proof Using "Type".
Set Warnings "-register-all".

(** ** JavaScript values *)

Module Js.

Inductive value : Type :=
| VUndef
| VNull
| VBool (b : bool)
| VNum (n : Z)
| VStr (s : string)
| VArr (items : list value)
| VObj (props : list (string * value))
| VEnvelope (mode component id : option string)
            (vars : list (string * value)) (version : option string)
| VComp (fuseWireComponentId : string).

(** A plain object: its own enumerable properties in the order [for in]
    and [Object.keys] enumerate them (insertion order; keys that are array
    indices, which JavaScript enumerates first, are not distinguished). *)
Abbreviation obj := (list (string * value)).

Inductive jstype := TUndefined | TObject | TBoolean | TNumber | TString.

Definition typeof (v : value) : jstype :=
  match v with
  | VUndef => TUndefined
  | VBool _ => TBoolean
  | VNum _ => TNumber
  | VStr _ => TString
  | VNull | VArr _ | VObj _ | VEnvelope _ _ _ _ _ | VComp _ => TObject
  end.

(** [o[key]] : [undefined] when the property is absent. *)
Fixpoint obj_get (o : obj) (key : string) : value :=
  match o with
  | [] => VUndef
  | (k, v) :: o' => if String.eqb k key then v else obj_get o' key
  end.

(** [o[key] = v] : an existing property keeps its place. *)
Fixpoint obj_set (o : obj) (key : string) (v : value) : obj :=
  match o with
  | [] => [(key, v)]
  | (k, x) :: o' =>
      if String.eqb k key then (k, v) :: o' else (k, x) :: obj_set o' key v
  end.

Definition Object_keys (o : obj) : list string := map fst o.

(** [v instanceof Component]: the id of the instance. *)
Definition component_of (v : value) : option string :=
  match v with
  | VComp fuseWireComponentId => Some fuseWireComponentId
  | _ => None
  end.

(** The value is not a component instance. *)
Definition plain (v : value) : bool :=
  match component_of v with
  | Some _ => false
  | None => true
  end.

(** [String(x)] and truthiness for an optional string ([undefined] or a
    string). *)
Definition js_String (o : option string) : string := default "undefined" o.

Definition truthy (o : option string) : bool :=
  match o with
  | Some s => negb (String.eqb s "")
  | None => false
  end.

Definition opt_string_eqb (a b : option string) : bool :=
  match a, b with
  | Some x, Some y => String.eqb x y
  | None, None => true
  | _, _ => false
  end.

Definition includes (l : list string) (k : string) : bool :=
  existsb (String.eqb k) l.

(** Structural equality of values, used to compare JSON texts. *)
Fixpoint value_eqb (a b : value) {struct a} : bool :=
  let fix list_eqb (l1 l2 : list value) {struct l1} : bool :=
    match l1, l2 with
    | [], [] => true
    | x :: l1', y :: l2' => value_eqb x y && list_eqb l1' l2'
    | _, _ => false
    end in
  let fix props_eqb (l1 l2 : obj) {struct l1} : bool :=
    match l1, l2 with
    | [], [] => true
    | (k1, x) :: l1', (k2, y) :: l2' =>
        String.eqb k1 k2 && value_eqb x y && props_eqb l1' l2'
    | _, _ => false
    end in
  match a, b with
  | VUndef, VUndef => true
  | VNull, VNull => true
  | VBool x, VBool y => Bool.eqb x y
  | VNum x, VNum y => Z.eqb x y
  | VStr x, VStr y => String.eqb x y
  | VArr x, VArr y => list_eqb x y
  | VObj x, VObj y => props_eqb x y
  | VEnvelope m1 c1 i1 v1 r1, VEnvelope m2 c2 i2 v2 r2 =>
      opt_string_eqb m1 m2 && opt_string_eqb c1 c2 && opt_string_eqb i1 i2
      && props_eqb v1 v2 && opt_string_eqb r1 r2
  | VComp x, VComp y => String.eqb x y
  | _, _ => false
  end.

(** The errors the runtime raises. *)
Inductive error :=
| FuseWireError (message : string)
| FuseWireComponentNotFound (id : string)
| FuseWireTemplateNotFound (name : string)
| FuseWireServerError (message : string)
| TypeError (message : string)
| HookError (message : string).

(** The outcome of running a piece of code: a value, an exception, or the
    recursion bound of the embedding was reached ([OutOfFuel] is not a
    JavaScript outcome). *)
Inductive outcome (A : Type) :=
| Ok (a : A)
| Throw (e : error)
| OutOfFuel.
Arguments Ok {A} a.
Arguments Throw {A} e.
Arguments OutOfFuel {A}.

(** [JSON.stringify]: [None] stands for the result [undefined]; an
    instance reaches its reactor, which reaches the registry and the
    instance again, so serialising it raises a circular-structure error. *)
Fixpoint JSON_stringify (v : value) : outcome (option value) :=
  let fix items_json (l : list value) : outcome (list value) :=
    match l with
    | [] => Ok []
    | x :: l' =>
        match JSON_stringify x, items_json l' with
        | Ok (Some j), Ok js => Ok (j :: js)
        | Ok None, Ok js => Ok (VNull :: js)
        | Throw e, _ => Throw e
        | OutOfFuel, _ => OutOfFuel
        | _, Throw e => Throw e
        | _, OutOfFuel => OutOfFuel
        end
    end in
  let fix props_json (l : obj) : outcome obj :=
    match l with
    | [] => Ok []
    | (k, x) :: l' =>
        match JSON_stringify x, props_json l' with
        | Ok (Some j), Ok js => Ok ((k, j) :: js)
        | Ok None, Ok js => Ok js
        | Throw e, _ => Throw e
        | OutOfFuel, _ => OutOfFuel
        | _, Throw e => Throw e
        | _, OutOfFuel => OutOfFuel
        end
    end in
  match v with
  | VUndef => Ok None
  | VNull | VBool _ | VNum _ | VStr _ => Ok (Some v)
  | VArr items =>
      match items_json items with
      | Ok js => Ok (Some (VArr js))
      | Throw e => Throw e
      | OutOfFuel => OutOfFuel
      end
  | VObj props =>
      match props_json props with
      | Ok js => Ok (Some (VObj js))
      | Throw e => Throw e
      | OutOfFuel => OutOfFuel
      end
  | VEnvelope mode component id vars version =>
      match props_json vars with
      | Ok js => Ok (Some (VEnvelope mode component id js version))
      | Throw e => Throw e
      | OutOfFuel => OutOfFuel
      end
  | VComp _ => Throw (TypeError "Converting circular structure to JSON")
  end.

Arguments JSON_stringify : simpl never.

End Js.
Export Js.

(** ** Strings and the two regular expressions of the source *)

Module Text.

(** [\s] and [\w] on the ASCII range. *)
Definition is_space (c : ascii) : bool :=
  let n := nat_of_ascii c in
  Nat.eqb n 32 || (Nat.leb 9 n && Nat.leb n 13).

Definition is_word (c : ascii) : bool :=
  let n := nat_of_ascii c in
  (Nat.leb 48 n && Nat.leb n 57) || (Nat.leb 65 n && Nat.leb n 90)
  || (Nat.leb 97 n && Nat.leb n 122) || Nat.eqb n 95.

(** The one-character string holding a double quote. *)
Definition quote : string := String (ascii_of_nat 34) EmptyString.

Fixpoint strip_prefix (p s : string) : option string :=
  match p, s with
  | EmptyString, _ => Some s
  | String a p', String b s' =>
      if Ascii.eqb a b then strip_prefix p' s' else None
  | String _ _, EmptyString => None
  end.

Fixpoint drop_while (f : ascii -> bool) (s : string) : string :=
  match s with
  | EmptyString => EmptyString
  | String c s' => if f c then drop_while f s' else s
  end.

Fixpoint take_while (f : ascii -> bool) (s : string) : string :=
  match s with
  | EmptyString => EmptyString
  | String c s' => if f c then String c (take_while f s') else EmptyString
  end.

Fixpoint last_char (s : string) (d : ascii) : ascii :=
  match s with
  | EmptyString => d
  | String c s' => last_char s' c
  end.

(** One match of [\(\(\s*\$(\w+)\s*\)\)] anchored at the start of [s]:
    the captured name and the text after the match.  The classes that
    follow one another are disjoint, so the greedy reading is the only
    one. *)
Definition match_simple_rune (s : string) : option (string * string) :=
  s1 ← strip_prefix "((" s;
  s2 ← strip_prefix "$" (drop_while is_space s1);
  let name := take_while is_word s2 in
  if String.eqb name "" then None
  else
    rest ← strip_prefix "))"
             (drop_while is_space (drop_while is_word s2));
    Some (name, rest).

Fixpoint fixRunes_from (fuel : nat) (htmlCode : string) : string :=
  match fuel with
  | O => htmlCode
  | S fuel' =>
      match match_simple_rune htmlCode with
      | Some (name, rest) =>
          "(({$" +:+ name +:+ "}))" +:+ fixRunes_from fuel' rest
      | None =>
          match htmlCode with
          | EmptyString => EmptyString
          | String c s' => String c (fixRunes_from fuel' s')
          end
      end
  end.

(** [fixRunes]: every [(( $name ))] becomes [(({$name}))]. *)
Definition fixRunes (htmlCode : string) : string :=
  fixRunes_from (S (String.length htmlCode)) htmlCode.

(** A match of [escape(openTag + "{") \s* escape("$" + key) \b] anchored
    at the start of [s]. *)
Definition match_rune_at (openTag key s : string) : bool :=
  match strip_prefix (openTag +:+ "{") s with
  | None => false
  | Some s1 =>
      match strip_prefix ("$" +:+ key) (drop_while is_space s1) with
      | None => false
      | Some s2 =>
          let before := is_word (last_char key "$"%char) in
          let after :=
            match s2 with
            | EmptyString => false
            | String c _ => is_word c
            end in
          xorb before after
      end
  end.

(** [htmlCode.match(new RegExp(regex, 'gm'))] is not [null]. *)
Fixpoint matches_rune (openTag key htmlCode : string) : bool :=
  match_rune_at openTag key htmlCode
  || match htmlCode with
     | EmptyString => false
     | String _ s' => matches_rune openTag key s'
     end.

End Text.

(** ** Templates, wire payloads, effects and the environment *)

Module Template.
Record t := mk {
  component : option string;
  jsCode : option string;
  cssCode : option string;
  htmlCode : option string;
  version : option string;
  lastUpdated : option Z }.

(** [Template.fromJSON(JSON.parse('{}'))] *)
Definition empty : t := mk None None None None None None.
End Template.

(** An item of [response.templates]. *)
Record TemplateResponse := {
  tr_component : string;
  tr_jsCode : string;
  tr_cssCode : string;
  tr_htmlCode : string;
  tr_version : option string }.

(** [response.components[0]] *)
Record ComponentResponse := {
  cr_vars : obj;
  cr_version : option string;
  cr_id : option string }.

(** The request sent by [Reactor._fetch]. *)
Record ComponentRequest := {
  rq_mode : string;
  rq_component : option string;
  rq_id : string;
  rq_vars : obj;
  rq_templateVersion : string }.

(** Effects on the outside world, in the order they happen. *)
Inductive event :=
| FetchTemplates (component version : option string)
| FetchComponents (request : ComponentRequest)
| AppendChild (componentId : string)
| ImportModule (name : option string)
| Hydrate (componentId : string)
| UpdateHook (componentId : string) (oldVars : obj)
| Destroy (componentId : string)
| RenderFull (componentId : string) (vars : obj)
| RenderRune (componentId key : string) (v : value)
| AfterRender (componentId : string) (rune : option string).

(** The collaborators the core consumes. *)
Record Env := {
  (** [config.getDefaultReactorMode()], [config.getTags()[0]] and
      [config.getUseShadowElement()]; [reactor.getId()] *)
  reactorId : string;
  defaultReactorMode : string;
  openTag : string;
  useShadowElement : bool;
  (** [Date.now()] *)
  Date_now : list event -> Z;
  (** what [fetchTemplates] resolves to, or the error it rejects with *)
  fetchTemplates : list event -> option string -> option string ->
                   outcome (list TemplateResponse);
  (** what [fetchComponents] resolves to: [components[0]] when there is
      one, and [templates] *)
  fetchComponents : list event -> ComponentRequest ->
                    outcome (option ComponentResponse * list TemplateResponse);
  (** [createInstance]: the own properties of the new instance, or the
      error raised when the class cannot be loaded or instantiated *)
  createInstance : list event -> Template.t -> outcome (gmap string value);
  (** the application's hooks: given the instance's own properties, the
      properties they leave and the error they raise, if any *)
  hydrate : string -> gmap string value -> gmap string value * option error;
  update : string -> obj -> gmap string value ->
           gmap string value * option error;
  destroy : string -> gmap string value -> gmap string value * option error;
  (** the UI tree: is the container of a component in the document (or the
      shadow root), is it below another container, does a component have a
      rune for a key *)
  getElementById : list event -> string -> bool;
  getSubComponent : list event -> string -> string -> bool;
  getRunes : list event -> string -> string -> bool }.

(** One entry of [InstanceDao.instances]. *)
Module Record.
Record t := mk {
  lastUpdated : Z;
  instance : gmap string value;
  component : option string;
  id : option string;
  serverVarKeys : list string;
  runesKeys : list string;
  version : option string }.
End Record.

(** The registry, the template cache and the durable store. *)
Record dstate := {
  instances : gmap string Record.t;
  versions : gmap string (option string);
  flushScheduled : bool;
  storedTemplates : gmap string Template.t;
  storedVersions : gmap string (option string);
  storedVars : gmap string value;
  trace : list event }.

Definition set_instances (f : gmap string Record.t -> gmap string Record.t)
    (s : dstate) : dstate :=
  {| instances := f (instances s); versions := versions s;
     flushScheduled := flushScheduled s;
     storedTemplates := storedTemplates s;
     storedVersions := storedVersions s; storedVars := storedVars s;
     trace := trace s |}.

Definition set_versions (f : gmap string (option string) -> gmap string (option string))
    (s : dstate) : dstate :=
  {| instances := instances s; versions := f (versions s);
     flushScheduled := flushScheduled s;
     storedTemplates := storedTemplates s;
     storedVersions := storedVersions s; storedVars := storedVars s;
     trace := trace s |}.

Definition set_flushScheduled (b : bool) (s : dstate) : dstate :=
  {| instances := instances s; versions := versions s;
     flushScheduled := b;
     storedTemplates := storedTemplates s;
     storedVersions := storedVersions s; storedVars := storedVars s;
     trace := trace s |}.

Definition set_storedTemplates (f : gmap string Template.t -> gmap string Template.t)
    (s : dstate) : dstate :=
  {| instances := instances s; versions := versions s;
     flushScheduled := flushScheduled s;
     storedTemplates := f (storedTemplates s);
     storedVersions := storedVersions s; storedVars := storedVars s;
     trace := trace s |}.

Definition set_storedVersions (m : gmap string (option string))
    (s : dstate) : dstate :=
  {| instances := instances s; versions := versions s;
     flushScheduled := flushScheduled s;
     storedTemplates := storedTemplates s;
     storedVersions := m; storedVars := storedVars s;
     trace := trace s |}.

Definition set_storedVars (f : gmap string value -> gmap string value)
    (s : dstate) : dstate :=
  {| instances := instances s; versions := versions s;
     flushScheduled := flushScheduled s;
     storedTemplates := storedTemplates s;
     storedVersions := storedVersions s; storedVars := f (storedVars s);
     trace := trace s |}.

Definition set_trace (f : list event -> list event) (s : dstate) : dstate :=
  {| instances := instances s; versions := versions s;
     flushScheduled := flushScheduled s;
     storedTemplates := storedTemplates s;
     storedVersions := storedVersions s; storedVars := storedVars s;
     trace := f (trace s) |}.

(** ** A state and exception monad for the code of the two stores *)

Definition M (A : Type) : Type := dstate -> outcome A * dstate.

Definition ret {A} (a : A) : M A := fun s => (Ok a, s).
Definition throw {A} (e : error) : M A := fun s => (Throw e, s).
Definition out_of_fuel {A} : M A := fun s => (OutOfFuel, s).
Definition bind {A B} (m : M A) (k : A -> M B) : M B :=
  fun s =>
    match m s with
    | (Ok a, s') => k a s'
    | (Throw e, s') => (Throw e, s')
    | (OutOfFuel, s') => (OutOfFuel, s')
    end.
Definition gets {A} (f : dstate -> A) : M A := fun s => (Ok (f s), s).
Definition modify (f : dstate -> dstate) : M unit := fun s => (Ok tt, f s).
Definition emit (e : event) : M unit := modify (set_trace (fun t => t ++ [e])).
Definition lift {A} (o : outcome A) : M A := fun s => (o, s).

(** A promise nobody awaits: its rejection is lost, its effects stay. *)
Definition detached {A} (m : M A) : M unit :=
  fun s =>
    match m s with
    | (Ok _, s') => (Ok tt, s')
    | (Throw _, s') => (Ok tt, s')
    | (OutOfFuel, s') => (OutOfFuel, s')
    end.

(** [try { m } finally { f }] *)
Definition try_finally {A} (m : M A) (f : M unit) : M A :=
  fun s =>
    match m s with
    | (r, s') =>
        match f s' with
        | (Ok _, s'') => (r, s'')
        | (Throw e, s'') => (Throw e, s'')
        | (OutOfFuel, s'') => (OutOfFuel, s'')
        end
    end.

Declare Scope m_scope.
Delimit Scope m_scope with M.
Notation "x <- m ;; k" := (bind m (fun x => k))
  (at level 100, m at next level, right associativity) : m_scope.
Notation "m ;; k" := (bind m (fun _ => k))
  (at level 100, right associativity) : m_scope.
Local Open Scope m_scope.

(** [for (const x of l) body(x)] *)
Fixpoint for_each {A} (l : list A) (body : A -> M unit) : M unit :=
  match l with
  | [] => ret tt
  | x :: l' => body x ;; for_each l' body
  end.

(** [config.getComponentId] *)
Definition getComponentId (componentName componentId : option string) : string :=
  js_String componentName
  +:+ (if truthy componentId then "_" +:+ js_String componentId else "").

(** ** template.js: the template cache *)

Module TemplateDao.
Section WithEnv.
Context (env : Env).

Definition storedTemplate (name : option string) : M Template.t :=
  gets (fun s => default Template.empty (storedTemplates s !! js_String name)).

(** [getVersion(name)] *)
Definition getVersion (name : option string) : M string :=
  template <- storedTemplate name ;;
  ret (if truthy (Template.version template)
       then js_String (Template.version template) else "").

(** [exists(name)] *)
Definition exists_ (name : option string) : M bool :=
  gets (fun s => bool_decide (is_Some (storedTemplates s !! js_String name))).

(** [setFromTemplateResponse(templateResponse)] *)
Definition setFromTemplateResponse (templateResponse : TemplateResponse)
    : M Template.t :=
  now <- gets (fun s => Date_now env (trace s)) ;;
  let template :=
    Template.mk (Some (tr_component templateResponse))
                (Some (tr_jsCode templateResponse))
                (Some (tr_cssCode templateResponse))
                (Some (Text.fixRunes (tr_htmlCode templateResponse)))
                (tr_version templateResponse)
                (Some now) in
  modify (set_storedTemplates
            (fun db => <[tr_component templateResponse := template]> db)) ;;
  modify (set_versions
            (fun v => <[tr_component templateResponse := Template.version template]> v)) ;;
  modify (set_flushScheduled true) ;;
  ret template.

(** The callback handed to [setTimeout] by [setFromTemplateResponse]. *)
Definition flush : M unit :=
  modify (fun s => set_flushScheduled false (set_storedVersions (versions s) s)).

(** The end of [getOrFetch]: the fetch, and what is done with its
    answer. *)
Definition fetch_and_install (name version : option string)
    (storedTemplate : Template.t) : M Template.t :=
  emit (FetchTemplates name version) ;;
  answer <- gets (fun s => fetchTemplates env (trace s) name version) ;;
  templateResponses <- lift answer ;;
  match templateResponses with
  | [] => ret storedTemplate
  | first :: _ => setFromTemplateResponse first
  end.

(** [getOrFetch(name, version, mode)]; [version = None] is [undefined].
    [mode] is received and not used: the fetch is made with [''] . *)
Definition getOrFetch (name version : option string) (mode : option string)
    : M Template.t :=
  storedTemplate <- storedTemplate name ;;
  index <- gets (fun s => versions s !! js_String name) ;;
  let agrees :=
    match version, index with
    | Some v, Some indexed => opt_string_eqb (Some v) indexed
    | _, _ => false
    end in
  if agrees then
    if truthy (Template.version storedTemplate)
       && opt_string_eqb (Template.version storedTemplate) version
    then ret storedTemplate
    else fetch_and_install name (Some EmptyString) storedTemplate
  else fetch_and_install name version storedTemplate.

(** [get(name)] *)
Definition get (name : option string) : M Template.t :=
  found <- gets (fun s => storedTemplates s !! js_String name) ;;
  match found with
  | None => throw (FuseWireTemplateNotFound (js_String name))
  | Some template => ret template
  end.

End WithEnv.
End TemplateDao.

(** ** instance.js: the instance registry *)

(** [calculateChangedVars(jsonParser, oldVars, newVars)] *)
Definition changed (oldValue newValue : value) : outcome bool :=
  match typeof oldValue with
  | TUndefined => Ok true
  | _ =>
      match typeof newValue with
      | TBoolean | TNumber | TString => Ok (negb (value_eqb newValue oldValue))
      | _ =>
          match JSON_stringify newValue, JSON_stringify oldValue with
          | Ok (Some a), Ok (Some b) => Ok (negb (value_eqb a b))
          | Ok None, Ok None => Ok false
          | Ok _, Ok _ => Ok true
          | Throw e, _ => Throw e
          | OutOfFuel, _ => OutOfFuel
          | _, Throw e => Throw e
          | _, OutOfFuel => OutOfFuel
          end
      end
  end.

Fixpoint changed_keys (oldVars newVars : obj) (keys : list string)
    : outcome (list string) :=
  match keys with
  | [] => Ok []
  | key :: keys' =>
      match changed (obj_get oldVars key) (obj_get newVars key) with
      | Ok c =>
          match changed_keys oldVars newVars keys' with
          | Ok changedVars => Ok (if c then key :: changedVars else changedVars)
          | other => other
          end
      | Throw e => Throw e
      | OutOfFuel => OutOfFuel
      end
  end.

Definition calculateChangedVars (oldVars newVars : obj) : outcome (list string) :=
  changed_keys oldVars newVars (Object_keys newVars).

Module InstanceDao.
Section WithEnv.
Context (env : Env).

Definition record (id : string) : M Record.t :=
  found <- gets (fun s => instances s !! id) ;;
  match found with
  | None => throw (FuseWireComponentNotFound id)
  | Some r => ret r
  end.

(** [instance[key]] *)
Definition field (instance : gmap string value) (key : string) : value :=
  default VUndef (instance !! key).

(** [getInstance(id)]: the instance's own properties *)
Definition getInstance (id : string) : M (gmap string value) :=
  r <- record id ;; ret (Record.instance r).

(** [getComponentNameAndId(id)] *)
Definition getComponentNameAndId (id : string)
    : M (option string * option string) :=
  r <- record id ;; ret (Record.component r, Record.id r).

(** [exists(id)] *)
Definition exists_ (id : string) : M bool :=
  gets (fun s => bool_decide (is_Some (instances s !! id))).

(** [getServerVarsKeys(id)] and [getRuneKeys(id)] *)
Definition getServerVarsKeys (id : string) : M (list string) :=
  r <- record id ;; ret (Record.serverVarKeys r).

Definition getRuneKeys (id : string) : M (list string) :=
  r <- record id ;; ret (Record.runesKeys r).

(** [extractVars(id)] *)
Definition extractVars (id : string) : M obj :=
  instance <- getInstance id ;;
  keys <- getServerVarsKeys id ;;
  ret (fold_left (fun vars key => obj_set vars key (field instance key))
                 keys []).

(** The server-owned variables of a record, as [extractVars] reads
    them. *)
Definition record_vars (r : Record.t) : obj :=
  fold_left (fun vars key => obj_set vars key (field (Record.instance r) key))
            (Record.serverVarKeys r) [].

(** The loop of [encodeVars], given the encoder of an instance. *)
Fixpoint encode_each (encode : string -> M value) (rest encodedVars : obj)
    : M obj :=
  match rest with
  | [] => ret encodedVars
  | (key, v) :: rest' =>
      match component_of v with
      | Some componentId =>
          envelope <- encode componentId ;;
          encode_each encode rest' (obj_set encodedVars key envelope)
      | None => encode_each encode rest' (obj_set encodedVars key v)
      end
  end.

(** The envelope [encodeVars] builds for an instance, given the encoder
    of its own variables ([None] when the bound of the embedding is
    reached). *)
Definition encode_component (encodeInner : option (obj -> M obj))
    (mode : option string) (componentId : string) : M value :=
  match encodeInner with
  | None => out_of_fuel
  | Some encodeInner =>
      nameAndId <- getComponentNameAndId componentId ;;
      inner <- extractVars componentId ;;
      encoded <- encodeInner inner ;;
      ret (VEnvelope mode (fst nameAndId) (snd nameAndId) encoded None)
  end.

(** [encodeVars(vars, mode)]: the inner call passes no mode.  [fuel]
    bounds the nesting of instances that is followed. *)
Fixpoint encodeVars (fuel : nat) (vars : obj) (mode : option string)
    : M obj :=
  encode_each
    (encode_component
       match fuel with
       | O => None
       | S fuel' => Some (fun inner => encodeVars fuel' inner None)
       end
       mode)
    vars [].

(** [getVersion(component, id)]: the registry is indexed with
    [component], and [componentId] is computed and left unused. *)
Definition getVersion (component id : option string) : M (option string) :=
  let componentId := getComponentId component id in
  found <- gets (fun s => instances s !! js_String component) ;;
  match found with
  | Some r => ret (Record.version r)
  | None => v <- TemplateDao.getVersion component ;; ret (Some v)
  end.

Definition set_fields (id : string) (fields : gmap string value) : M unit :=
  modify (set_instances (alter (fun r =>
    Record.mk (Record.lastUpdated r) fields (Record.component r)
              (Record.id r) (Record.serverVarKeys r) (Record.runesKeys r)
              (Record.version r)) id)).

Definition set_version (id : string) (newVersion : option string) : M unit :=
  modify (set_instances (alter (fun r =>
    Record.mk (Record.lastUpdated r) (Record.instance r) (Record.component r)
              (Record.id r) (Record.serverVarKeys r) (Record.runesKeys r)
              newVersion) id)).

(** Running a hook of the instance registered under [id]. *)
Definition run_hook (id : string)
    (hook : gmap string value -> gmap string value * option error) : M unit :=
  instance <- getInstance id ;;
  let after := hook instance in
  set_fields id (fst after) ;;
  match snd after with
  | Some e => throw e
  | None => ret tt
  end.

(** [remove(id)] *)
Definition remove (id : string) : M unit :=
  found <- gets (fun s => instances s !! id) ;;
  match found with
  | None => ret tt
  | Some _ =>
      try_finally
        (emit (Destroy id) ;; run_hook id (destroy env id))
        (modify (set_instances (delete id)))
  end.

(** The loop of [create] that assigns the variables. *)
Fixpoint hydrating (convert : value -> M value) (component : option string)
    (vars : obj) (keys : list string) (instance : gmap string value)
    : M (gmap string value) :=
  match keys with
  | [] => ret instance
  | key :: keys' =>
      match typeof (obj_get vars key) with
      | TUndefined =>
          throw (FuseWireError
            ("missingComponentKeyInServerResponse: "
             +:+ js_String component +:+ "." +:+ key))
      | _ =>
          v <- convert (obj_get vars key) ;;
          hydrating convert component vars keys' (<[key := v]> instance)
      end
  end.

(** The body of [create(template, vars, id, version)], given the decoder
    of variable values.  [vars = None] is [undefined]. *)
Definition create_with (convert : value -> M value)
    (template : Template.t) (vars : option obj) (id version : option string)
    : M value :=
  let componentId := getComponentId (Template.component template) id in
  vars <- match vars with
          | None => throw (TypeError "Cannot convert undefined or null to object")
          | Some o => ret o
          end ;;
  let serverVarKeys := Object_keys vars in
  emit (ImportModule (Template.component template)) ;;
  loaded <- gets (fun s => createInstance env (trace s) template) ;;
  instance <- lift loaded ;;
  runesKeys <-
    match serverVarKeys, Template.htmlCode template with
    | [], _ => ret []
    | _ :: _, None =>
        throw (TypeError "Cannot read properties of undefined (reading 'match')")
    | _ :: _, Some htmlCode =>
        ret (filter (fun key => Text.matches_rune (openTag env) key htmlCode = true)
                    serverVarKeys)
    end ;;
  instance <- hydrating convert (Template.component template) vars
                serverVarKeys instance ;;
  now <- gets (fun s => Date_now env (trace s)) ;;
  modify (set_instances (fun m =>
    <[componentId := Record.mk now instance (Template.component template) id
                       serverVarKeys runesKeys version]> m)) ;;
  emit (Hydrate componentId) ;;
  run_hook componentId (hydrate env componentId) ;;
  ret (VComp componentId).

(** The loop of [update] over the server-owned keys. *)
Fixpoint update_each (convert : value -> M value) (componentId : string)
    (newVars : obj) (keys : list string) (oldVars : obj) : M obj :=
  match keys with
  | [] => ret oldVars
  | key :: keys' =>
      instance <- getInstance componentId ;;
      let oldVars := obj_set oldVars key (field instance key) in
      let newValue :=
        match typeof (obj_get newVars key) with
        | TUndefined => VNull
        | _ => obj_get newVars key
        end in
      v <- convert newValue ;;
      instance <- getInstance componentId ;;
      set_fields componentId (<[key := v]> instance) ;;
      update_each convert componentId newVars keys' oldVars
  end.

(** The body of [update(componentId, newVars, newVersion)]. *)
Definition update_with (convert : value -> M value)
    (componentId : string) (newVars : obj) (newVersion : option string)
    : M unit :=
  getInstance componentId ;;
  set_version componentId newVersion ;;
  keys <- getServerVarsKeys componentId ;;
  oldVars <- update_each convert componentId newVars keys [] ;;
  emit (UpdateHook componentId oldVars) ;;
  run_hook componentId (update env componentId oldVars).

(** [convertToComponentIfNeeded(dao, renderer, componentResponse)]:
    [typeof null] is ['object'], so reading the tag of [null] raises.
    [fuel] bounds the nesting of envelopes that is decoded. *)
Fixpoint convertToComponentIfNeeded (fuel : nat) (componentResponse : value)
    : M value :=
  match componentResponse with
  | VNull =>
      throw (TypeError "Cannot read properties of null (reading 'fusewire-type')")
  | VEnvelope _ component id vars version =>
      match fuel with
      | O => out_of_fuel
      | S fuel' =>
          let componentId := getComponentId component id in
          found <- exists_ componentId ;;
          if (found : bool) then
            getInstance componentId ;;
            detached (update_with (convertToComponentIfNeeded fuel')
                        componentId vars version) ;;
            ret (VComp componentId)
          else
            template <- TemplateDao.getOrFetch env component None None ;;
            create_with (convertToComponentIfNeeded fuel')
                        template (Some vars) id version
      end
  | _ => ret componentResponse
  end.

Definition create (fuel : nat) := create_with (convertToComponentIfNeeded fuel).
Definition update (fuel : nat) := update_with (convertToComponentIfNeeded fuel).

(** [addClientVars(componentId, vars, reactorId)] *)
Definition addClientVars (componentId : string) (vars : obj) : obj :=
  obj_set
    (obj_set vars "this"
       (VStr ("FuseWire.instances." +:+ reactorId env +:+ ".getInstance("
              +:+ Text.quote +:+ componentId +:+ Text.quote +:+ ")")))
    "fuseWireComponentId" (VStr componentId).


(** The snapshot read back by [render]:
    [parse(getItem(key)) || { vars: {} }], then [.vars]. *)
Definition oldState_vars (stored : option value) : obj :=
  match stored with
  | Some (VObj state) =>
      match obj_get state "vars" with
      | VObj vars => vars
      | _ => []
      end
  | _ => []
  end.

(** One turn of the patch loop of [render]: the first rune bound to
    [key] is rewritten, unless the variable holds a placeholder. *)
Definition patch (componentId : string) (vars : obj) (key : string) : M unit :=
  if plain (obj_get vars key) then
    rune <- gets (fun s => getRunes env (trace s) componentId key) ;;
    if (rune : bool) then
      emit (RenderRune componentId key (obj_get vars key)) ;;
      emit (AfterRender componentId (Some key))
    else
      throw (TypeError
        "Cannot read properties of null (reading 'replaceHtmlContent')")
  else ret tt.

(** [render(container, componentId, isNew, template)].  [container] is
    the element found for the component, if any.  A component-valued
    variable stays [VComp] where the source puts a [ContainerPlaceHolder].
    [fuel] bounds the nesting of instances that is followed. *)
Fixpoint render (fuel : nat) (container : option string)
    (componentId : string) (isNew : bool) (template : Template.t)
    : M unit :=
  match fuel with
  | O => out_of_fuel
  | S fuel' =>
      match container with
      | None =>
          throw (FuseWireError
            ("containerNotInDom: trying to render " +:+ componentId))
      | Some _ =>
          vars <- extractVars componentId ;;
          stored <- gets (fun s => storedVars s !! componentId) ;;
          let oldVars := oldState_vars stored in
          now <- gets (fun s => Date_now env (trace s)) ;;
          newVars <- encodeVars fuel' vars None ;;
          text <- lift (JSON_stringify
                          (VObj [("lastUpdated", VNum now);
                                 ("vars", VObj newVars)])) ;;
          modify (set_storedVars
                    (fun db => <[componentId := default VUndef text]> db)) ;;
          changedVarsKeys <- lift (calculateChangedVars oldVars newVars) ;;
          runeKeys <- getRuneKeys componentId ;;
          getInstance componentId ;;
          let fullRender :=
            isNew || negb (forallb (includes runeKeys) changedVarsKeys) in
          (if fullRender then
             emit (RenderFull componentId (addClientVars componentId vars))
           else
             for_each changedVarsKeys (patch componentId vars)) ;;
          for_each vars (fun entry =>
            match component_of (snd entry) with
            | Some subComponentId =>
                found <- gets (fun s =>
                  getSubComponent env (trace s) componentId subComponentId) ;;
                nameAndId <- getComponentNameAndId subComponentId ;;
                subTemplate <- TemplateDao.get (fst nameAndId) ;;
                render fuel'
                  (if (found : bool) then Some subComponentId else None)
                  subComponentId isNew subTemplate
            | None => ret tt
            end) ;;
          if fullRender then emit (AfterRender componentId None) else ret tt
      end
  end.

End WithEnv.
End InstanceDao.

(** ** reactor.js: the session orchestrator *)

Module ReactorModes.
Definition CSR := "CSR".
Definition CSR_ONLY := "CSR_ONLY".
Definition SERVER := "SERVER".
Definition SERVER_WAIT := "SERVER_WAIT".
Definition SSR := "SSR".

(** The keys of the object literal. *)
Definition own : list string := [CSR; CSR_ONLY; SERVER; SERVER_WAIT; SSR].

(** The properties every object literal inherits from
    [Object.prototype]. *)
Definition inherited : list string :=
  ["constructor"; "hasOwnProperty"; "isPrototypeOf"; "propertyIsEnumerable";
   "toLocaleString"; "toString"; "valueOf"; "__proto__";
   "__defineGetter__"; "__defineSetter__"; "__lookupGetter__";
   "__lookupSetter__"].

(** [typeof(ReactorModes[mode]) !== 'undefined'] *)
Definition defined (mode : string) : bool :=
  includes own mode || includes inherited mode.
End ReactorModes.

(** [userMode ? userMode : config.getDefaultReactorMode()] *)
Definition requested_mode (env : Env) (userMode : option string) : string :=
  if truthy userMode then js_String userMode else defaultReactorMode env.

(** [getReactorMode(userMode, config)] *)
Definition getReactorMode (env : Env) (userMode : option string) : outcome string :=
  let mode := requested_mode env userMode in
  if ReactorModes.defined mode then Ok mode
  else Throw (FuseWireError "Invalid ReactorMode").

Module Reactor.

(** The arguments and locals of [_run] that outlive a suspension. *)
Record run_locals := {
run_componentId : string;
run_component : option string;
run_mode : string;
run_isNew : bool }.

(** Where a suspended [_run] resumes: after [_fetch], after [getOrFetch],
  after [create] or [update]; [Settled] once its promise is settled. *)
Inductive run_point :=
| AwaitFetch (l : run_locals) (request : ComponentRequest)
| AwaitTemplate (l : run_locals) (answer : outcome Template.t)
              (vars : option obj) (version id : option string)
| AwaitApply (l : run_locals) (answer : outcome unit) (template : Template.t)
| Settled (answer : outcome unit).

(** The activations of [start] and [react] that are waiting. *)
Inductive frame :=
| InStart (point : run_point)
| InPrepass (componentId : string) (name id mode : option string)
          (reactorMode : string)
| InRun (componentId : string) (mode : option string) (reactorMode : string)
      (requestSerial : Z) (point : run_point)
| InRespawn (pending : outcome unit).

(** A call from outside and the chain of calls it awaits, innermost
  first.  [Returning r stack]: the innermost call has settled with [r]
  and its caller, the head of [stack], has not yet resumed;
  [Returning r []] is a settled call. *)
Inductive task :=
| Running (stack : list frame)
| Returning (answer : outcome unit) (stack : list frame).

(** The call chain [t], awaited by the frames [below]. *)
Definition awaited_by (t : task) (below : list frame) : task :=
match t with
| Running stack => Running (stack ++ below)
| Returning answer stack => Returning answer (stack ++ below)
end.

Record world := {
dao : dstate;
hasInstanceDao : bool;
reactorRoot : option string;
inFlight : gmap string Z;
tasks : list task }.

Definition set_dao (d : dstate) (w : world) : world :=
{| dao := d; hasInstanceDao := hasInstanceDao w;
   reactorRoot := reactorRoot w; inFlight := inFlight w; tasks := tasks w |}.

Definition set_inFlight (m : gmap string Z) (w : world) : world :=
{| dao := dao w; hasInstanceDao := hasInstanceDao w;
   reactorRoot := reactorRoot w; inFlight := m; tasks := tasks w |}.

Definition set_tasks (l : list task) (w : world) : world :=
{| dao := dao w; hasInstanceDao := hasInstanceDao w;
   reactorRoot := reactorRoot w; inFlight := inFlight w; tasks := l |}.

(** What the application and the event loop do. *)
Inductive action :=
| CallStart (component : string) (id : option string) (vars : option obj)
          (mode : option string)
| CallReact (componentId : string) (mode : option string)
| CallRemove (componentId : string)
| Assign (componentId key : string) (v : value)
| Timeout
| Resume (i : nat).

Section WithEnv.
Context (env : Env) (fuel : nat).
Local Open Scope m_scope.

Definition remote (mode : string) : bool :=
  negb (String.eqb mode ReactorModes.CSR)
  && negb (String.eqb mode ReactorModes.CSR_ONLY).

(** An exception inside [_run] settles its promise. *)
Definition settle (m : M run_point) (d : dstate) : run_point * dstate :=
  match m d with
  | (Ok point, d') => (point, d')
  | (Throw e, d') => (Settled (Throw e), d')
  | (OutOfFuel, d') => (Settled OutOfFuel, d')
  end.

(** [const template = await this.instanceDao.templateDao.getOrFetch(...)] *)
Definition run_getOrFetch (l : run_locals) (vars : option obj)
    (version id : option string) : M run_point :=
  fun d =>
    let called := TemplateDao.getOrFetch env (run_component l) version
                    (Some (run_mode l)) d in
    (Ok (AwaitTemplate l (fst called) vars version id), snd called).

(** [_run(componentId, component, id, mode, initVars)] up to its first
    [await]. *)
Definition run_begin (componentId : string) (component id : option string)
    (mode : string) (initVars : option obj) : M run_point :=
  found <- InstanceDao.exists_ componentId ;;
  let isNew := negb found in
  let l := {| run_componentId := componentId; run_component := component;
              run_mode := mode; run_isNew := isNew |} in
  vars <- (if isNew then ret initVars
           else (o <- InstanceDao.extractVars componentId ;; ret (Some o))) ;;
  version <- InstanceDao.getVersion component id ;;
  if remote mode then
    encoded <- InstanceDao.encodeVars fuel (default [] vars) (Some mode) ;;
    templateVersion <- TemplateDao.getVersion component ;;
    let request :=
      {| rq_mode := mode; rq_component := component;
         rq_id := if truthy id then js_String id else EmptyString;
         rq_vars := encoded; rq_templateVersion := templateVersion |} in
    emit (FetchComponents request) ;;
    ret (AwaitFetch l request)
  else run_getOrFetch l vars version id.

(** [this.instanceDao.render(container, componentId, isNew, template)]
    and the end of [_run]. *)
Definition run_render (l : run_locals) (template : Template.t) : M run_point :=
  found <- gets (fun d => getElementById env (trace d) (run_componentId l)) ;;
  InstanceDao.render env fuel
    (if (found : bool) then Some (run_componentId l) else None)
    (run_componentId l) (run_isNew l) template ;;
  ret (Settled (Ok tt)).

(** [_run] from one suspension point to the next; [counters] is
    [this.inFlight] at that time. *)
Definition run_resume (point : run_point) (counters : gmap string Z)
    : M run_point :=
  match point with
  | AwaitFetch l request =>
      answer <- gets (fun d => fetchComponents env (trace d) request) ;;
      response <- lift answer ;;
      for_each (snd response) (fun templateResponse =>
        TemplateDao.setFromTemplateResponse env templateResponse ;; ret tt) ;;
      first <- match fst response with
               | None => throw (TypeError
                   "Cannot read properties of undefined (reading 'vars')")
               | Some r => ret r
               end ;;
      found <- InstanceDao.exists_ (run_componentId l) ;;
      if run_isNew l && found then ret (Settled (Ok tt))
      else run_getOrFetch l (Some (cr_vars first)) (cr_version first)
                          (cr_id first)
  | AwaitTemplate l answer vars version id =>
      template <- lift answer ;;
      if run_isNew l then
        fun d =>
          let called := InstanceDao.create env fuel template vars id version d in
          (Ok (AwaitApply l (match fst called with
                             | Ok _ => Ok tt
                             | Throw e => Throw e
                             | OutOfFuel => OutOfFuel
                             end) template), snd called)
      else if bool_decide (counters !! run_componentId l = Some 1%Z) then
        fun d =>
          let called := InstanceDao.update env fuel (run_componentId l)
                          (default [] vars) version d in
          (Ok (AwaitApply l (fst called) template), snd called)
      else run_render l template
  | AwaitApply l answer template =>
      lift answer ;;
      run_render l template
  | Settled answer => ret (Settled answer)
  end.

(** [react] from the counter increment to [await this._run(...)]. *)
Definition react_enter (componentId : string) (name id mode : option string)
    (reactorMode : string) (w : world) : frame * world :=
  let requestSerial := (default 0 (inFlight w !! componentId) + 1)%Z in
  let w := set_inFlight (<[componentId := requestSerial]> (inFlight w)) w in
  let reactorMode :=
    if (1 <? requestSerial)%Z && negb (String.eqb reactorMode ReactorModes.CSR)
    then ReactorModes.CSR else reactorMode in
  let begun := settle (run_begin componentId name id reactorMode None) (dao w) in
  (InRun componentId mode reactorMode requestSerial (fst begun),
   set_dao (snd begun) w).

(** [react(component, mode)] up to its first [await]; [componentId] is
    [component.fuseWireComponentId].  The call made for the quick CSR
    pass is one level deeper. *)
Fixpoint react (depth : nat) (componentId : string) (mode : option string)
    (w : world) : task * world :=
  match depth with
  | O => (Returning OutOfFuel [], w)
  | S depth' =>
      if negb (hasInstanceDao w) then
        (Returning (Throw (TypeError
           "Cannot read properties of undefined (reading 'getComponentNameAndId')")) [],
         w)
      else
      match InstanceDao.getComponentNameAndId componentId (dao w) with
      | (Ok (name, id), _) =>
          match getReactorMode env mode with
          | Ok reactorMode =>
              if bool_decide (is_Some (inFlight w !! componentId))
                 && String.eqb reactorMode ReactorModes.SERVER_WAIT
              then
                (Returning (Ok tt) [],
                 set_inFlight
                   (<[componentId := (default 0 (inFlight w !! componentId) + 1)%Z]>
                      (inFlight w)) w)
              else if String.eqb reactorMode ReactorModes.SERVER then
                let pass := react depth' componentId (Some ReactorModes.CSR) w in
                (awaited_by (fst pass)
                   [InPrepass componentId name id mode reactorMode],
                 snd pass)
              else
                let entered := react_enter componentId name id mode reactorMode w in
                (Running [fst entered], snd entered)
          | Throw e => (Returning (Throw e) [], w)
          | OutOfFuel => (Returning OutOfFuel [], w)
          end
      | (Throw e, _) => (Returning (Throw e) [], w)
      | (OutOfFuel, _) => (Returning OutOfFuel [], w)
      end
  end.

(** The [finally] block of [react]: the world it leaves and the call it
    makes, if any. *)
Definition react_finally (componentId : string) (mode : option string)
    (reactorMode : string) (requestSerial : Z) (w : world)
    : option (string * option string) * world :=
  let respawn :=
    negb (String.eqb reactorMode ReactorModes.CSR)
    && match inFlight w !! componentId with
       | Some n => (1 <? n)%Z
       | None => false
       end in
  if (requestSerial =? 1)%Z then
    (if respawn then Some (componentId, mode) else None,
     set_inFlight (delete componentId (inFlight w)) w)
  else (None, w).

(** [start(container, component, id, vars, mode)] up to its first
    [await].  [_run] is called with [false] where it expects [initVars]
    and with [vars] as a sixth argument, which it does not read; the
    keys of [false] are none. *)
Definition start (component : string) (id : option string)
    (vars : option obj) (mode : option string) (w : world) : task * world :=
  let componentId := getComponentId (Some component) id in
  let w :=
    {| dao := set_trace (fun t => t ++ [AppendChild componentId]) (dao w);
       hasInstanceDao := hasInstanceDao w;
       reactorRoot := Some componentId;
       inFlight := inFlight w; tasks := tasks w |} in
  let w :=
    if hasInstanceDao w then w
    else
      {| dao := set_instances (fun _ => ∅)
                  (set_versions (fun _ => storedVersions (dao w))
                     (set_flushScheduled false (dao w)));
         hasInstanceDao := true;
         reactorRoot := reactorRoot w;
         inFlight := inFlight w; tasks := tasks w |} in
  match getReactorMode env mode with
  | Ok reactorMode =>
      let begun :=
        settle (run_begin componentId (Some component) id reactorMode (Some []))
               (dao w) in
      (Running [InStart (fst begun)], set_dao (snd begun) w)
  | Throw e => (Returning (Throw e) [], w)
  | OutOfFuel => (Returning OutOfFuel [], w)
  end.

(** One task runs from where it is suspended to its next suspension
    point. *)
Definition resume (t : task) (w : world) : task * world :=
  match t with
  | Running (InStart (Settled answer) :: below) =>
      (Returning answer below, w)
  | Running (InStart point :: below) =>
      let resumed := settle (run_resume point (inFlight w)) (dao w) in
      (Running (InStart (fst resumed) :: below), set_dao (snd resumed) w)
  | Running (InRun componentId mode reactorMode requestSerial (Settled answer)
             :: below) =>
      let left := react_finally componentId mode reactorMode requestSerial w in
      match fst left with
      | Some (again, mode) =>
          let respawned := react 2 again mode (snd left) in
          (awaited_by (fst respawned) (InRespawn answer :: below),
           snd respawned)
      | None => (Returning answer below, snd left)
      end
  | Running (InRun componentId mode reactorMode requestSerial point :: below) =>
      let resumed :=
        settle (run_resume point (inFlight w)) (dao w) in
      (Running (InRun componentId mode reactorMode requestSerial (fst resumed)
                :: below),
       set_dao (snd resumed) w)
  | Returning (Ok _) (InPrepass componentId name id mode reactorMode :: below) =>
      let entered := react_enter componentId name id mode reactorMode w in
      (Running (fst entered :: below), snd entered)
  | Returning answer (InPrepass _ _ _ _ _ :: below) =>
      (Returning answer below, w)
  | Returning (Ok _) (InRespawn pending :: below) =>
      (Returning pending below, w)
  | Returning answer (InRespawn _ :: below) =>
      (Returning answer below, w)
  | _ => (t, w)
  end.

(** One action of the application or of the event loop. *)
Definition exec (a : action) (w : world) : world :=
  match a with
  | CallStart component id vars mode =>
      let called := start component id vars mode w in
      set_tasks (tasks (snd called) ++ [fst called]) (snd called)
  | CallReact componentId mode =>
      let called := react 2 componentId mode w in
      set_tasks (tasks (snd called) ++ [fst called]) (snd called)
  | CallRemove componentId =>
      set_dao (snd (InstanceDao.remove env componentId (dao w))) w
  | Assign componentId key v =>
      set_dao (snd (InstanceDao.set_fields componentId
                 (<[key := v]> (default ∅ (Record.instance <$> instances (dao w) !! componentId)))
                 (dao w))) w
  | Timeout =>
      if flushScheduled (dao w)
      then set_dao (snd (TemplateDao.flush (dao w))) w
      else w
  | Resume i =>
      match tasks w !! i with
      | Some t =>
          let resumed := resume t w in
          set_tasks (<[i := fst resumed]> (tasks (snd resumed))) (snd resumed)
      | None => w
      end
  end.

Definition run (schedule : list action) (w : world) : world :=
  fold_left (fun w a => exec a w) schedule w.

End WithEnv.
End Reactor.

(** ** Vocabulary of the statements *)

(** The component a rendering effect belongs to. *)
Definition rendered (e : event) : option string :=
  match e with
  | RenderFull c _ | RenderRune c _ _ | AfterRender c _ => Some c
  | _ => None
  end.

(** [nested_in table c x]: [x] is [c] or an instance reached from [c]
    through component-valued server variables. *)
Inductive nested_in (table : gmap string Record.t) : string -> string -> Prop :=
| nested_here c : nested_in table c c
| nested_below c r key sub x :
    table !! c = Some r ->
    In (key, VComp sub) (InstanceDao.record_vars r) ->
    nested_in table sub x ->
    nested_in table c x.





(** An activation of [react] for [c] that captured serial number 1. *)
Definition first_serial (c : string) (f : Reactor.frame) : bool :=
  match f with
  | Reactor.InRun c' _ _ requestSerial _ =>
      String.eqb c' c && (requestSerial =? 1)%Z
  | _ => false
  end.

(** The reactor before any call: a registry and stores, no counter, no
    task. *)
Definition quiet (d : dstate) (hasInstanceDao : bool) : Reactor.world :=
  {| Reactor.dao := d; Reactor.hasInstanceDao := hasInstanceDao;
     Reactor.reactorRoot := None; Reactor.inFlight := ∅; Reactor.tasks := [] |}.

(** The value is a boolean, a number or a string. *)
Definition scalar (v : value) : bool :=
  match v with
  | VBool _ | VNum _ | VStr _ => true
  | _ => false
  end.

(** *** Decoding and encoding variable envelopes *)

(** How deep component references nest in a variable value. *)
Fixpoint depth (x : value) : nat :=
  match x with
  | VEnvelope _ _ _ vars _ =>
      S ((fix deepest (l : obj) : nat :=
            match l with
            | [] => 0
            | (_, v) :: l' => Nat.max (depth v) (deepest l')
            end) vars)
  | _ => 0
  end.


(** What decoding leaves in the variable: the instance of a component
    reference, the value itself otherwise. *)
Definition decoded (x : value) : value :=
  match x with
  | VEnvelope _ component id _ _ => VComp (getComponentId component id)
  | _ => x
  end.





(** *** Invariants and relations the proofs go through *)

(** From [d] to [d'] the registry is the same and the trace grew by
    [delta]. *)
Definition emits (d d' : dstate) (delta : list event) : Prop :=
  instances d' = instances d /\ trace d' = trace d ++ delta.

(** Every effect of a completed [render] is a rendering effect of the
    component or of an instance nested in it. *)
Definition render_inv (env : Env) (n : nat) : Prop :=
  forall container c isNew template d d',
    InstanceDao.render env n container c isNew template d = (Ok tt, d') ->
    exists delta,
      emits d d' delta
      /\ Forall (fun e => exists x, rendered e = Some x
                                    /\ nested_in (instances d) c x) delta.






(** The encoder at the bound [n], for one instance. *)
Definition encode_at (n : nat) (mode : option string) (c : string) : M value :=
  InstanceDao.encode_component
    match n with
    | O => None
    | S n' => Some (fun inner => InstanceDao.encodeVars n' inner None)
    end
    mode c.


(** ** Concrete scenarios *)

Module Scenario.

(** A template whose markup binds [$count] to one slot, in the short
    syntax the server may send. *)
Definition counter_template (v : string) : TemplateResponse :=
  {| tr_component := "counter"; tr_jsCode := "export class counter {}";
     tr_cssCode := EmptyString; tr_htmlCode := "<b>(($count))</b>";
     tr_version := Some v |}.

(** A server that answers every template probe with [counter] at the
    version [served], and every component request with the variables it
    receives, or with [{count: 0}] when it receives none; hooks that do
    nothing. *)
Definition env (served : string) : Env :=
  {| reactorId := "a1"; defaultReactorMode := "SSR"; openTag := "((";
     useShadowElement := false;
     Date_now := fun t => Z.of_nat (length t);
     fetchTemplates := fun _ _ _ => Ok [counter_template served];
     fetchComponents := fun _ request =>
       Ok (Some {| cr_vars := match rq_vars request with
                              | [] => [("count", VNum 0)]
                              | vars => vars
                              end;
                   cr_version := Some served; cr_id := None |}, []);
     createInstance := fun _ _ => Ok ∅;
     hydrate := fun _ fields => (fields, None);
     update := fun _ _ fields => (fields, None);
     destroy := fun _ fields => (fields, None);
     getElementById := fun _ _ => true;
     getSubComponent := fun _ _ _ => true;
     getRunes := fun _ _ _ => true |}.

Definition empty : dstate :=
  {| instances := ∅; versions := ∅; flushScheduled := false;
     storedTemplates := ∅; storedVersions := ∅; storedVars := ∅;
     trace := [] |}.

(** One tracked instance with the given properties, all server-owned. *)
Definition instance_of (component : string) (id : option string)
    (version : string) (vars : obj) : Record.t :=
  Record.mk 0 (list_to_map vars) (Some component) id (Object_keys vars) []
            (Some version).



(** The template [setFromTemplateResponse] stores for
    [counter_template v] at time [0]. *)
Definition counter_stored (v : string) : Template.t :=
  Template.mk (Some "counter") (Some "export class counter {}")
              (Some EmptyString) (Some "<b>(({$count}))</b>") (Some v)
              (Some 0%Z).


(** [counter] is created with [{count: 0}], rendered, and updated to
    [{count: 1}]. *)
Definition counter_flow : M unit :=
  (template <- TemplateDao.setFromTemplateResponse (env "v1")
                 (counter_template "v1") ;;
   InstanceDao.create (env "v1") 1 template (Some [("count", VNum 0)])
                      None (Some "v1") ;;
   InstanceDao.render (env "v1") 1 (Some "counter") "counter" true template ;;
   InstanceDao.update (env "v1") 1 "counter" [("count", VNum 1)] (Some "v1"))%M.

Definition counter_updated : dstate := snd (counter_flow empty).

(** A reactor that has not started anything. *)
Definition fresh : Reactor.world :=
  {| Reactor.dao := empty; Reactor.hasInstanceDao := false;
     Reactor.reactorRoot := None; Reactor.inFlight := ∅;
     Reactor.tasks := [] |}.

(** [counter] has been started in SERVER mode and its call has
    settled. *)
Definition started : Reactor.world :=
  Reactor.run (env "v1") 2
    [Reactor.CallStart "counter" None None (Some "SERVER");
     Reactor.Resume 0; Reactor.Resume 0; Reactor.Resume 0; Reactor.Resume 0]
    fresh.

(** Then [react(SERVER_WAIT)] is called, and its remote exchange is
    outstanding. *)
Definition waiting : Reactor.world :=
  Reactor.exec (env "v1") 2 (Reactor.CallReact "counter" (Some "SERVER_WAIT"))
    started.



(** Two overlapping [react(SERVER)] calls.  The application sets
    [count] to 1 and calls [react(SERVER)] (task 1), whose quick CSR pass
    runs and whose exchange is then outstanding; the application sets
    [count] to 2 and calls [react(SERVER)] again (task 2), which runs to
    its end; then the answer to the first exchange arrives and the unit
    of work of the first call runs to its end. *)
Definition overlap : list Reactor.action :=
  [Reactor.Assign "counter" "count" (VNum 1);
   Reactor.CallReact "counter" (Some "SERVER");
   Reactor.Resume 1; Reactor.Resume 1; Reactor.Resume 1; Reactor.Resume 1;
   Reactor.Assign "counter" "count" (VNum 2);
   Reactor.CallReact "counter" (Some "SERVER");
   Reactor.Resume 2; Reactor.Resume 2; Reactor.Resume 2; Reactor.Resume 2;
   Reactor.Resume 2; Reactor.Resume 2;
   Reactor.Resume 1; Reactor.Resume 1].

Definition overlapped : Reactor.world :=
  Reactor.run (env "v1") 2 overlap started.

(** The first call goes through its [finally] block, and the call it
    makes runs up to its own remote exchange. *)
Definition respawned : Reactor.world :=
  Reactor.run (env "v1") 2
    [Reactor.Resume 1; Reactor.Resume 1; Reactor.Resume 1; Reactor.Resume 1;
     Reactor.Resume 1]
    overlapped.




(** The remote component exchanges of a trace. *)
Definition exchanges (t : list event) : list ComponentRequest :=
  flat_map (fun e => match e with FetchComponents r => [r] | _ => [] end) t.

End Scenario.


(** *** Values and objects of the further properties *)

(** A value [JSON.parse] can return: no [undefined] and no instance, at
    any depth. *)
Fixpoint json (v : value) : bool :=
  match v with
  | VUndef | VComp _ => false
  | VNull | VBool _ | VNum _ | VStr _ => true
  | VArr items => forallb json items
  | VObj props => forallb (fun kv : string * value => json (snd kv)) props
  | VEnvelope _ _ _ vars _ =>
      forallb (fun kv : string * value => json (snd kv)) vars
  end.

(** The record [r] with other properties of the instance, or another
    version. *)
Definition with_fields (r : Record.t) (fields : gmap string value) : Record.t :=
  Record.mk (Record.lastUpdated r) fields (Record.component r) (Record.id r)
            (Record.serverVarKeys r) (Record.runesKeys r) (Record.version r).

Definition with_version (r : Record.t) (version : option string) : Record.t :=
  Record.mk (Record.lastUpdated r) (Record.instance r) (Record.component r)
            (Record.id r) (Record.serverVarKeys r) (Record.runesKeys r) version.

(** *** Scenarios of the further properties *)

(** A registry that tracks [counter], with the server-owned variables
    [count = 0] and [name = "a"], at version [v1]. *)
Definition counter_named : dstate :=
  set_instances
    (fun _ => {[ "counter" :=
       Scenario.instance_of "counter" None "v1"
         [("count", VNum 0); ("name", VStr "a")] ]})
    Scenario.empty.

(** *** template.js: a template as JSON *)

(** A property that holds a string, a number, or [undefined]. *)
Definition of_string (o : option string) : value :=
  match o with
  | Some s => VStr s
  | None => VUndef
  end.

Definition of_number (o : option Z) : value :=
  match o with
  | Some n => VNum n
  | None => VUndef
  end.

(** What a property holds, when it holds a string or [undefined] (a number
    or [undefined]): the fields of [Template.t] hold nothing else. *)
Definition as_string (v : value) : option (option string) :=
  match v with
  | VStr s => Some (Some s)
  | VUndef => Some None
  | _ => None
  end.

Definition as_number (v : value) : option (option Z) :=
  match v with
  | VNum n => Some (Some n)
  | VUndef => Some None
  | _ => None
  end.

(** [Template.toJSON()] *)
Definition toJSON (t : Template.t) : value :=
  VObj [("fusewire-type", VStr "template");
        ("component", of_string (Template.component t));
        ("lastUpdated", of_number (Template.lastUpdated t));
        ("jsCode", of_string (Template.jsCode t));
        ("cssCode", of_string (Template.cssCode t));
        ("htmlCode", of_string (Template.htmlCode t));
        ("version", of_string (Template.version t))].

(** [Template.fromJSON(json)] for an object [json] with the own properties
    [props]: the constructor's own [lastUpdated] is replaced by the one of
    [json].  The result is [None] when a property holds a value that a
    field of [Template.t] does not represent. *)
Definition fromJSON (props : obj) : option Template.t :=
  component ← as_string (obj_get props "component");
  jsCode ← as_string (obj_get props "jsCode");
  cssCode ← as_string (obj_get props "cssCode");
  htmlCode ← as_string (obj_get props "htmlCode");
  version ← as_string (obj_get props "version");
  lastUpdated ← as_number (obj_get props "lastUpdated");
  Some (Template.mk component jsCode cssCode htmlCode version lastUpdated).

(** *** Component exchanges *)

(** The code [m] issues no component exchange, whatever its outcome. *)
Definition no_exchange {A} (m : M A) : Prop :=
  forall d,
    Scenario.exchanges (trace (snd (m d))) = Scenario.exchanges (trace d).

(** From [d] to [d'] the requests sent to the server for components are
    [new] more, each in a mode that is neither CSR nor CSR_ONLY. *)
Definition exchanged (d d' : dstate) (new : list ComponentRequest) : Prop :=
  Scenario.exchanges (trace d') = Scenario.exchanges (trace d) ++ new
  /\ Forall (fun request => Reactor.remote (rq_mode request) = true) new.

(** The code [m] issues component exchanges in remote modes only. *)
Definition remote_only {A} (m : M A) : Prop :=
  forall d, exists new, exchanged d (snd (m d)) new.

(** The same for a step of the orchestrator. *)
Definition remote_only_step (w w' : Reactor.world) : Prop :=
  exists new, exchanged (Reactor.dao w) (Reactor.dao w') new.

(** *** Runes *)

(** Every character of the text is in the class. *)
Fixpoint every (f : ascii -> bool) (s : string) : bool :=
  match s with
  | EmptyString => true
  | String c s' => f c && every f s'
  end.

(** A short rune as a template's author writes it: [(( $name ))], with
    any white space around the variable. *)
Definition short_rune (before name after : string) : string :=
  "((" +:+ before +:+ "$" +:+ name +:+ after +:+ "))".

(** ** server.js: the transport *)

Module Server.

(** What the transport rejects with: a [FuseWireServerError], with the
    [statusCode] it was built with, or a plain [Error]. *)
Inductive status_code := NoStatus | NullStatus | Status (code : Z).

Inductive failure :=
| FuseWireServerError (message : string) (statusCode : status_code)
| Error (message : string).

Inductive result (A : Type) :=
| Resolved (a : A)
| Rejected (f : failure).
Arguments Resolved {A} a.
Arguments Rejected {A} f.

(** A response of [fetch]: [json] is what [response.json()] resolves to,
    or the message of the error it rejects with. *)
Record response := {
  ok : bool;
  status : Z;
  statusText : string;
  json : value + string }.

(** The messages of the errors the engine itself raises here. *)
Record engine := {
  not_a_constructor : string;
  cannot_read_null : string }.

(** [data['fusewire-type']] for a [data] that is not [null] or
    [undefined]. *)
Definition tag (data : value) : value :=
  match data with
  | VObj props => obj_get props "fusewire-type"
  | VEnvelope _ _ _ _ _ => VStr "component"
  | _ => VUndef
  end.

(** The value is the string ['response']. *)
Definition is_marker (v : value) : bool :=
  match v with
  | VStr s => String.eqb s "response"
  | _ => false
  end.

(** [data.components], [data.templates] *)
Definition property (data : value) (name : string) : value :=
  match data with
  | VObj props => obj_get props name
  | _ => VUndef
  end.

(** The [catch] of [fetchJson]: an error that is not a
    [FuseWireServerError] is wrapped into one, with a [null] status. *)
Definition wrapped (message : string) : failure :=
  FuseWireServerError ("FuseWire Server Error: " +:+ message) NullStatus.

(** [fetchJson(config, method, formData)], given what [fetch] resolves
    to, or the message of the error it rejects with. *)
Definition fetchJson (eng : engine) (fetched : response + string)
    : result value :=
  match fetched with
  | inr message => Rejected (wrapped message)
  | inl response =>
      if negb (ok response) then
        Rejected (FuseWireServerError
          ("FuseWire Server Error, fetch() error: " +:+ statusText response)
          (Status (status response)))
      else if (status response <? 200)%Z || (300 <? status response)%Z then
        (* [throw new new FuseWireServerError(...)]: the outer [new] is
           applied to an error object *)
        Rejected (wrapped (not_a_constructor eng))
      else
        match json response with
        | inr message => Rejected (wrapped message)
        | inl data =>
            match data with
            | VUndef | VNull => Rejected (wrapped (cannot_read_null eng))
            | _ =>
                if is_marker (tag data) then Resolved data
                else
                  Rejected (FuseWireServerError
                    "Error detected on the server: invalid response type"
                    (Status (status response)))
            end
        end
  end.

(** [fetchComponents(config, components, templates)], for arrays
    [components] and [templates]: the two fields of the answer, as they
    are. *)
Definition fetchComponents (eng : engine) (fetched : response + string)
    : result (value * value) :=
  match fetchJson eng fetched with
  | Resolved data => Resolved (property data "components", property data "templates")
  | Rejected f => Rejected f
  end.

(** [fetchTemplates(config, templates, mode)], for an array [templates]:
    in CSR_ONLY mode [fetchFiles] is called, which raises; [fetch] is not
    called. *)
Definition fetchTemplates (eng : engine) (fetched : response + string)
    (mode : string) : result (list value) :=
  if String.eqb mode ReactorModes.CSR_ONLY then
    Rejected (Error "CRS_ONLY not implemented yet")
  else
    match fetchJson eng fetched with
    | Rejected f => Rejected f
    | Resolved data =>
        match property data "templates" with
        | VArr templates => Resolved templates
        | _ =>
            Rejected (FuseWireServerError
              "Error detected on the server: no templates data found on response"
              NoStatus)
        end
    end.

End Server.

(** * Properties *)

Ltac run_monad :=
  unfold bind, ret, throw, gets, modify, emit, lift, try_finally, detached in *;
  simpl in *.

(** ** The instance registry *)


(** C7 (the code departs from the claim). With the instance [counter_7]
    tracked at version [v2] and the template of [counter] stored at [v1],
    [getVersion("counter", "7")] answers [v1]: the registry is indexed with
    the component name, so the record of the derived componentId is not
    consulted. *)
Theorem getVersion_indexes_by_name :
  let d :=
    set_storedTemplates
      (fun _ => {[ "counter" :=
         Template.mk (Some "counter") (Some "js") (Some "css") (Some "html")
                     (Some "v1") (Some 0%Z) ]})
      (set_instances
         (fun _ => {[ "counter_7" :=
            Scenario.instance_of "counter" (Some "7") "v2" [] ]})
         Scenario.empty) in
  getComponentId (Some "counter") (Some "7") = "counter_7"
  /\ Record.version <$> instances d !! "counter_7" = Some (Some "v2")
  /\ InstanceDao.getVersion (Some "counter") (Some "7") d = (Ok (Some "v1"), d).
Proof. vm_compute. auto. Qed.

(** C5 (the code departs from the claim). Updating [{count: 0, name: "a"}]
    to [{count: 1, name: "a"}] hands the update hook the old values of both
    keys, although [name] did not change: every server-owned key is
    reported. *)
Theorem update_reports_every_key :
  let d :=
    set_instances
      (fun _ => {[ "counter" :=
         Scenario.instance_of "counter" None "v1"
           [("count", VNum 0); ("name", VStr "a")] ]})
      Scenario.empty in
  let after :=
    InstanceDao.update (Scenario.env "v1") 1 "counter"
      [("count", VNum 1); ("name", VStr "a")] (Some "v1") d in
  fst after = Ok tt
  /\ trace (snd after) =
       [UpdateHook "counter" [("count", VNum 0); ("name", VStr "a")]]
  /\ InstanceDao.extractVars "counter" (snd after)
     = (Ok [("count", VNum 1); ("name", VStr "a")], snd after).
Proof. vm_compute. auto. Qed.

(** *** Reading the registry does not change the state *)

Lemma record_eq id d :
  InstanceDao.record id d =
  match instances d !! id with
  | Some r => (Ok r, d)
  | None => (Throw (FuseWireComponentNotFound id), d)
  end.
Proof.
  unfold InstanceDao.record. run_monad. destruct (instances d !! id); reflexivity.
Qed.

Lemma extractVars_eq id d :
  InstanceDao.extractVars id d =
  match instances d !! id with
  | Some r => (Ok (InstanceDao.record_vars r), d)
  | None => (Throw (FuseWireComponentNotFound id), d)
  end.
Proof.
  unfold InstanceDao.extractVars, InstanceDao.getInstance,
    InstanceDao.getServerVarsKeys, bind. rewrite record_eq.
  destruct (instances d !! id) eqn:E; [|reflexivity].
  unfold ret. rewrite record_eq, E. reflexivity.
Qed.

Lemma getComponentNameAndId_eq id d :
  InstanceDao.getComponentNameAndId id d =
  match instances d !! id with
  | Some r => (Ok (Record.component r, Record.id r), d)
  | None => (Throw (FuseWireComponentNotFound id), d)
  end.
Proof.
  unfold InstanceDao.getComponentNameAndId, bind. rewrite record_eq.
  destruct (instances d !! id); reflexivity.
Qed.

Lemma getRuneKeys_eq id d :
  InstanceDao.getRuneKeys id d =
  match instances d !! id with
  | Some r => (Ok (Record.runesKeys r), d)
  | None => (Throw (FuseWireComponentNotFound id), d)
  end.
Proof.
  unfold InstanceDao.getRuneKeys, bind. rewrite record_eq.
  destruct (instances d !! id); reflexivity.
Qed.

Lemma getInstance_eq id d :
  InstanceDao.getInstance id d =
  match instances d !! id with
  | Some r => (Ok (Record.instance r), d)
  | None => (Throw (FuseWireComponentNotFound id), d)
  end.
Proof.
  unfold InstanceDao.getInstance, bind. rewrite record_eq.
  destruct (instances d !! id); reflexivity.
Qed.

Lemma encode_each_pure encode rest acc d :
  (forall c d0, snd (encode c d0) = d0) ->
  snd (InstanceDao.encode_each encode rest acc d) = d.
Proof.
  intros Hen. revert acc.
  induction rest as [|[key v] rest IH]; intros acc; simpl; [reflexivity|].
  destruct (component_of v) as [c|]; [|apply IH].
  unfold bind. specialize (Hen c d).
  destruct (encode c d) as [[a| |] d1]; simpl in *; subst; auto.
Qed.

Lemma encodeVars_pure fuel vars mode d :
  snd (InstanceDao.encodeVars fuel vars mode d) = d.
Proof.
  revert vars mode d.
  induction fuel as [|fuel IH]; intros vars mode d; simpl;
    apply encode_each_pure; intros c d0; [reflexivity|].
  unfold InstanceDao.encode_component, bind.
  rewrite getComponentNameAndId_eq.
  destruct (instances d0 !! c) as [r|] eqn:Hr; [|reflexivity].
  rewrite extractVars_eq, Hr.
  specialize (IH (InstanceDao.record_vars r) None d0).
  destruct (InstanceDao.encodeVars fuel (InstanceDao.record_vars r) None d0)
    as [[a| |] d1]; simpl in *; subst; reflexivity.
Qed.

Lemma bind_step {A B} (m : M A) (k : A -> M B) d a d1 :
  m d = (Ok a, d1) -> bind m k d = k a d1.
Proof. unfold bind. now intros ->. Qed.

Lemma encodeVars_encode_at n vars mode :
  InstanceDao.encodeVars n vars mode
  = InstanceDao.encode_each (encode_at n mode) vars [].
Proof. destruct n; reflexivity. Qed.

(** *** The effects of [render] *)

Lemma emits_refl d : emits d d [].
Proof. split; [reflexivity | now rewrite app_nil_r]. Qed.

Lemma emits_trans d d1 d2 a b :
  emits d d1 a -> emits d1 d2 b -> emits d d2 (a ++ b).
Proof.
  intros [Hi Ht] [Hi' Ht']. split; [congruence|].
  rewrite Ht', Ht, app_assoc. reflexivity.
Qed.

Lemma emits_emit d e : emits d (snd (emit e d)) [e].
Proof. split; reflexivity. Qed.

(** The patch loop of [render]. *)
Lemma patch_loop_emits env c vars keys d d' :
  for_each keys (InstanceDao.patch env c vars) d = (Ok tt, d') ->
  emits d d'
    (flat_map (fun key => [RenderRune c key (obj_get vars key);
                           AfterRender c (Some key)])
              (List.filter (fun key => plain (obj_get vars key)) keys)).
Proof.
  revert d. induction keys as [|key keys IH]; intros d H; simpl in *.
  - inversion H; subst. apply emits_refl.
  - unfold bind in H at 1. unfold InstanceDao.patch in H at 1.
    destruct (plain (obj_get vars key)) eqn:Ev; simpl.
    + unfold bind at 1 in H. unfold gets at 1 in H.
      destruct (getRunes env (trace d) c key); [|discriminate].
      unfold bind at 1 in H. unfold emit at 1 2 in H.
      unfold modify at 1 2 in H. simpl in H.
      apply IH in H.
      eapply (emits_trans _ _ _ [_; _]); [|exact H].
      split; simpl; [reflexivity | now rewrite <- app_assoc].
    + unfold ret in H at 1. apply IH in H. exact H.
Qed.

Lemma for_each_emits {A} (table : gmap string Record.t) (l : list A)
    (body : A -> M unit) (P : A -> event -> Prop) d d' :
  (forall x d0 d1, In x l -> instances d0 = table ->
     body x d0 = (Ok tt, d1) ->
     exists delta, emits d0 d1 delta /\ Forall (P x) delta) ->
  instances d = table ->
  for_each l body d = (Ok tt, d') ->
  exists delta,
    emits d d' delta /\ Forall (fun e => exists x, In x l /\ P x e) delta.
Proof.
  revert d. induction l as [|x l IH]; intros d Hbody Hd H; simpl in H.
  - inversion H; subst. exists []. split; [apply emits_refl | constructor].
  - unfold bind at 1 in H.
    destruct (body x d) as [[[]| |] d1] eqn:Hx; try discriminate.
    destruct (Hbody x d d1 (or_introl eq_refl) Hd Hx) as (a & Ha & HPa).
    destruct (IH d1) as (b & Hb & HPb); auto.
    + intros y d0 d2 Hy. apply Hbody. now right.
    + destruct Ha as [Hi _]. congruence.
    + exists (a ++ b). split; [eapply emits_trans; eauto|].
      apply Forall_app. split.
      * eapply Forall_impl; [exact HPa|]. intros e He. exists x. split; auto.
        now left.
      * eapply Forall_impl; [exact HPb|]. intros e (y & Hy & He).
        exists y. split; auto. now right.
Qed.

Lemma TemplateDao_get_eq name d :
  TemplateDao.get name d =
  match storedTemplates d !! js_String name with
  | Some template => (Ok template, d)
  | None => (Throw (FuseWireTemplateNotFound (js_String name)), d)
  end.
Proof.
  unfold TemplateDao.get. run_monad.
  destruct (storedTemplates d !! js_String name); reflexivity.
Qed.

Lemma not_every_is_some (f : string -> bool) l :
  negb (forallb f l) = existsb (fun key => negb (f key)) l.
Proof.
  induction l as [|x l IH]; simpl; [reflexivity|].
  rewrite negb_andb, IH. reflexivity.
Qed.

Lemma component_of_Some v c : component_of v = Some c -> v = VComp c.
Proof. destruct v; simpl; intros H; try discriminate. now inversion H. Qed.

Lemma render_shape env n container c isNew template d d' :
  render_inv env n ->
  InstanceDao.render env (S n) container c isNew template d = (Ok tt, d') ->
  exists r newVars changedVarsKeys rest,
    instances d !! c = Some r
    /\ InstanceDao.encodeVars n (InstanceDao.record_vars r) None d = (Ok newVars, d)
    /\ calculateChangedVars
         (InstanceDao.oldState_vars (storedVars d !! c)) newVars
       = Ok changedVarsKeys
    /\ let fullRender :=
         isNew || existsb (fun key => negb (includes (Record.runesKeys r) key))
                          changedVarsKeys in
       emits d d'
         ((if fullRender
           then [RenderFull c (InstanceDao.addClientVars env c
                                 (InstanceDao.record_vars r))]
           else flat_map
                  (fun key => [RenderRune c key
                                 (obj_get (InstanceDao.record_vars r) key);
                               AfterRender c (Some key)])
                  (List.filter
                     (fun key => plain (obj_get (InstanceDao.record_vars r) key))
                     changedVarsKeys))
          ++ rest
          ++ (if fullRender then [AfterRender c None] else []))
       /\ Forall (fun e => exists key sub x,
                    In (key, VComp sub) (InstanceDao.record_vars r)
                    /\ nested_in (instances d) sub x
                    /\ rendered e = Some x) rest.
Proof.
  intros IH H. simpl in H.
  destruct container as [el|]; [|discriminate].
  unfold bind at 1 in H. rewrite extractVars_eq in H.
  destruct (instances d !! c) as [r|] eqn:Hr; [|discriminate].
  unfold bind at 1 in H. unfold gets at 1 in H.
  unfold bind at 1 in H. unfold gets at 1 in H.
  unfold bind at 1 in H.
  pose proof (encodeVars_pure n (InstanceDao.record_vars r) None d) as Hpure.
  destruct (InstanceDao.encodeVars n (InstanceDao.record_vars r) None d)
    as [[newVars| |] d1] eqn:Henc; try discriminate.
  simpl in Hpure. subst d1.
  unfold bind at 1 in H. unfold lift at 1 in H.
  destruct (JSON_stringify _) as [text| |]; try discriminate.
  unfold bind at 1 in H. unfold modify at 1 in H.
  unfold bind at 1 in H. unfold lift at 1 in H.
  destruct (calculateChangedVars _ newVars) as [changedVarsKeys| |] eqn:Hch;
    try discriminate.
  unfold bind at 1 in H. rewrite getRuneKeys_eq in H. simpl in H.
  rewrite Hr in H.
  unfold bind at 1 in H. rewrite getInstance_eq in H. simpl in H.
  rewrite Hr in H.
  rewrite not_every_is_some in H.
  set (fullRender := isNew || existsb _ changedVarsKeys) in *.
  set (d0 := set_storedVars _ d) in H.
  assert (Hd0 : emits d d0 []) by (split; [reflexivity | now rewrite app_nil_r]).
  unfold bind at 1 in H.
  match type of H with
  | match ?own d0 with _ => _ end = _ =>
      destruct (own d0) as [[[]| |] d1] eqn:Hown; try discriminate
  end.
  unfold bind at 1 in H.
  match type of H with
  | match for_each ?l ?body d1 with _ => _ end = _ =>
      destruct (for_each l body d1) as [[[]| |] d2] eqn:Hsub; try discriminate
  end.
  assert (Hown' : emits d0 d1
            (if fullRender
             then [RenderFull c (InstanceDao.addClientVars env c
                                   (InstanceDao.record_vars r))]
             else flat_map
                    (fun key => [RenderRune c key
                                   (obj_get (InstanceDao.record_vars r) key);
                                 AfterRender c (Some key)])
                    (List.filter
                       (fun key => plain (obj_get (InstanceDao.record_vars r) key))
                       changedVarsKeys))).
  { destruct fullRender.
    - inversion Hown; subst. split; reflexivity.
    - eapply patch_loop_emits. exact Hown. }
  assert (Hi1 : instances d1 = instances d).
  { destruct Hown' as [-> _]. reflexivity. }
  apply (for_each_emits (instances d) _ _
           (fun entry e => exists sub x,
              component_of (snd entry) = Some sub
              /\ nested_in (instances d) sub x /\ rendered e = Some x))
    in Hsub; [| |exact Hi1].
  2:{ intros [key v] da db Hin Hda Hbody. simpl in Hbody.
      destruct (component_of v) as [sub|] eqn:Hv.
      - unfold bind at 1 in Hbody. unfold gets at 1 in Hbody.
        unfold bind at 1 in Hbody. rewrite getComponentNameAndId_eq in Hbody.
        destruct (instances da !! sub) as [rs|]; [|discriminate].
        unfold bind at 1 in Hbody. rewrite TemplateDao_get_eq in Hbody.
        simpl in Hbody.
        destruct (storedTemplates da !! js_String (Record.component rs));
          [|discriminate].
        apply IH in Hbody. destruct Hbody as (delta & He & HP).
        exists delta. split; [exact He|].
        eapply Forall_impl; [exact HP|]. intros e (x & Hx & Hn).
        exists sub, x. simpl. rewrite Hda in Hn. auto.
      - inversion Hbody; subst. exists []. split; [apply emits_refl|constructor]. }
  destruct Hsub as (rest & Hrest & HP).
  assert (Hfin : emits d2 d' (if fullRender then [AfterRender c None] else [])).
  { destruct fullRender; inversion H; subst;
      [split; reflexivity | apply emits_refl]. }
  exists r, newVars, changedVarsKeys, rest.
  split; [reflexivity|]. split; [exact Henc|]. split; [exact Hch|].
  split.
  - pose proof (emits_trans _ _ _ _ _ Hd0
                  (emits_trans _ _ _ _ _ Hown' (emits_trans _ _ _ _ _ Hrest Hfin)))
      as Hall.
    exact Hall.
  - eapply Forall_impl; [exact HP|].
    intros e ([key v] & Hin & sub & x & Hv & Hn & Hx). simpl in Hv.
    apply component_of_Some in Hv. subst v. exists key, sub, x. auto.
Qed.

Lemma render_inv_all env n : render_inv env n.
Proof.
  induction n as [|n IH]; intros container c isNew template d d' H.
  - discriminate.
  - destruct (render_shape _ _ _ _ _ _ _ _ IH H)
      as (r & newVars & changed & rest & Hr & _ & _ & Hem & HP).
    eexists. split; [exact Hem|].
    apply Forall_app. split; [|apply Forall_app; split].
    + destruct (isNew || _).
      * repeat constructor. exists c. split; [reflexivity|constructor].
      * apply Forall_flat_map, Forall_forall. intros key _.
        repeat constructor; exists c; (split; [reflexivity|constructor]).
    + eapply Forall_impl; [exact HP|]. intros e (key & sub & x & Hin & Hn & Hx).
      exists x. split; [exact Hx|]. econstructor; eauto.
    + destruct (isNew || _); repeat constructor.
      exists c. split; [reflexivity|constructor].
Qed.

(** *** A render over scalar variables completes *)

Lemma JSON_stringify_obj (o : obj) :
  Forall (fun kv : string * value =>
            JSON_stringify (snd kv) = Ok (Some (snd kv))) o ->
  JSON_stringify (VObj o) = Ok (Some (VObj o)).
Proof.
  intros H.
  pose (props_json :=
    fix props_json (l : obj) : outcome obj :=
      match l with
      | [] => Ok []
      | (k, x) :: l' =>
          match JSON_stringify x, props_json l' with
          | Ok (Some j), Ok js => Ok ((k, j) :: js)
          | Ok None, Ok js => Ok js
          | Throw e, _ => Throw e
          | OutOfFuel, _ => OutOfFuel
          | _, Throw e => Throw e
          | _, OutOfFuel => OutOfFuel
          end
      end).
  assert (Hprops : props_json o = Ok o).
  { induction H as [|[k v] o Hv Ho IH]; [reflexivity|].
    simpl in *. rewrite IH, Hv. reflexivity. }
  change (JSON_stringify (VObj o))
    with (match props_json o with
          | Ok js => Ok (Some (VObj js))
          | Throw e => Throw e
          | OutOfFuel => OutOfFuel
          end).
  rewrite Hprops. reflexivity.
Qed.

Lemma JSON_stringify_scalar v :
  scalar v = true -> JSON_stringify v = Ok (Some v).
Proof. destruct v; intros H; try discriminate H; reflexivity. Qed.

Lemma scalar_plain v : scalar v = true -> plain v = true.
Proof. destruct v; intros H; try discriminate H; reflexivity. Qed.

Lemma changed_scalar oldValue newValue :
  scalar newValue = true -> exists b, changed oldValue newValue = Ok b.
Proof.
  intros H. unfold changed.
  destruct (typeof oldValue); [eauto|..];
    destruct newValue; try discriminate H; simpl; eauto.
Qed.

Lemma changed_keys_scalars oldVars newVars keys :
  (forall key, In key keys -> scalar (obj_get newVars key) = true) ->
  exists changedVars, changed_keys oldVars newVars keys = Ok changedVars.
Proof.
  induction keys as [|key keys IH]; intros H; simpl; [eauto|].
  destruct (changed_scalar (obj_get oldVars key) (obj_get newVars key))
    as [b ->]; [apply H; now left|].
  destruct IH as [l ->]; [intros; apply H; now right|]. eauto.
Qed.

Lemma obj_get_Forall (P : value -> Prop) (o : obj) key :
  Forall (fun kv : string * value => P (snd kv)) o ->
  In key (map fst o) -> P (obj_get o key).
Proof.
  induction 1 as [|[k v] o Hv Ho IH]; simpl; [contradiction|].
  intros Hin. destruct (String.eqb_spec k key) as [->|Hne]; [exact Hv|].
  apply IH. destruct Hin; [contradiction | assumption].
Qed.

Lemma obj_set_Forall (P : value -> Prop) (o : obj) key v :
  Forall (fun kv : string * value => P (snd kv)) o -> P v ->
  Forall (fun kv : string * value => P (snd kv)) (obj_set o key v).
Proof.
  induction 1 as [|[k x] o Hx Ho IH]; simpl; intros Hv.
  - constructor; [exact Hv | constructor].
  - destruct (String.eqb k key); constructor; auto.
Qed.

Lemma record_vars_Forall (P : value -> Prop) r :
  (forall key, In key (Record.serverVarKeys r) ->
     P (InstanceDao.field (Record.instance r) key)) ->
  Forall (fun kv : string * value => P (snd kv)) (InstanceDao.record_vars r).
Proof.
  unfold InstanceDao.record_vars.
  assert (H : forall keys (acc : obj),
    Forall (fun kv : string * value => P (snd kv)) acc ->
    (forall key, In key keys -> P (InstanceDao.field (Record.instance r) key)) ->
    Forall (fun kv : string * value => P (snd kv))
      (fold_left (fun vars key =>
                    obj_set vars key (InstanceDao.field (Record.instance r) key))
                 keys acc)).
  { induction keys as [|key keys IH]; intros acc Hacc Hkeys; simpl; [exact Hacc|].
    apply IH; [|intros; apply Hkeys; now right].
    apply obj_set_Forall; [exact Hacc | apply Hkeys; now left]. }
  intros Hkeys. apply H; [constructor | exact Hkeys].
Qed.

Lemma encode_each_plain encode (rest acc : obj) d :
  Forall (fun kv : string * value => plain (snd kv) = true) rest ->
  InstanceDao.encode_each encode rest acc d
  = (Ok (fold_left (fun a (kv : string * value) => obj_set a (fst kv) (snd kv))
                   rest acc), d).
Proof.
  intros H. revert acc.
  induction H as [|[k v] rest Hv Hrest IH]; intros acc; simpl; [reflexivity|].
  unfold plain in Hv. simpl in Hv.
  destruct (component_of v); [discriminate|]. apply IH.
Qed.

Lemma fold_obj_set_Forall (P : value -> Prop) (rest acc : obj) :
  Forall (fun kv : string * value => P (snd kv)) rest ->
  Forall (fun kv : string * value => P (snd kv)) acc ->
  Forall (fun kv : string * value => P (snd kv))
    (fold_left (fun a (kv : string * value) => obj_set a (fst kv) (snd kv))
               rest acc).
Proof.
  intros H. revert acc.
  induction H as [|[k v] rest Hv Hrest IH]; intros acc Hacc; simpl; [exact Hacc|].
  apply IH. apply obj_set_Forall; assumption.
Qed.

Lemma patch_loop_completes env c (vars : obj) keys d :
  (forall t key, getRunes env t c key = true) ->
  exists d', for_each keys (InstanceDao.patch env c vars) d = (Ok tt, d')
             /\ instances d' = instances d.
Proof.
  intros Hrunes. revert d.
  induction keys as [|key keys IH]; intros d; simpl; [eauto|].
  unfold InstanceDao.patch at 1.
  destruct (plain (obj_get vars key)).
  - erewrite bind_step
      by (erewrite bind_step by reflexivity; rewrite Hrunes; reflexivity).
    destruct (IH (set_trace (fun t => t ++ [AfterRender c (Some key)])
                    (set_trace (fun t => t ++ [RenderRune c key (obj_get vars key)]) d)))
      as (d' & H & Hi).
    exists d'. split; [exact H | exact Hi].
  - erewrite bind_step by reflexivity. apply IH.
Qed.

Lemma nested_none_completes env n c isNew (vars : obj) d :
  Forall (fun kv : string * value => plain (snd kv) = true) vars ->
  for_each vars (fun entry =>
    match component_of (snd entry) with
    | Some subComponentId =>
        found <- gets (fun s =>
          getSubComponent env (trace s) c subComponentId) ;;
        nameAndId <- InstanceDao.getComponentNameAndId subComponentId ;;
        subTemplate <- TemplateDao.get (fst nameAndId) ;;
        InstanceDao.render env n
          (if (found : bool) then Some subComponentId else None)
          subComponentId isNew subTemplate
    | None => ret tt
    end) d = (Ok tt, d).
Proof.
  induction 1 as [|[k v] vars Hv Hvars IH]; simpl; [reflexivity|].
  unfold plain in Hv. simpl in Hv. destruct (component_of v); [discriminate|].
  erewrite bind_step by reflexivity. exact IH.
Qed.

Lemma render_scalars_completes env n container c isNew template d r :
  instances d !! c = Some r ->
  (forall key, In key (Record.serverVarKeys r) ->
     scalar (InstanceDao.field (Record.instance r) key) = true) ->
  (forall t key, getRunes env t c key = true) ->
  exists d',
    InstanceDao.render env (S n) (Some container) c isNew template d = (Ok tt, d').
Proof.
  intros Hr Hscalar Hrunes.
  pose proof (record_vars_Forall (fun v => scalar v = true) r Hscalar) as Hvars.
  assert (Hplain : Forall (fun kv : string * value => plain (snd kv) = true)
                          (InstanceDao.record_vars r)).
  { eapply Forall_impl; [exact Hvars|]. intros kv. apply scalar_plain. }
  cbn [InstanceDao.render].
  erewrite bind_step by (rewrite extractVars_eq, Hr; reflexivity).
  erewrite bind_step by reflexivity.
  erewrite bind_step by reflexivity.
  erewrite bind_step
    by (rewrite encodeVars_encode_at; apply encode_each_plain, Hplain).
  set (newVars := fold_left _ (InstanceDao.record_vars r) []).
  assert (Hnew : Forall (fun kv : string * value => scalar (snd kv) = true) newVars).
  { apply (fold_obj_set_Forall (fun v => scalar v = true));
      [exact Hvars | constructor]. }
assert (Htext :
    JSON_stringify (VObj [("lastUpdated", VNum (Date_now env (trace d)));
                          ("vars", VObj newVars)])
    = Ok (Some (VObj [("lastUpdated", VNum (Date_now env (trace d)));
                      ("vars", VObj newVars)]))).
  { apply JSON_stringify_obj.
    constructor; [reflexivity|]. constructor; [|constructor].
    apply JSON_stringify_obj. eapply Forall_impl; [exact Hnew|].
    intros kv. apply JSON_stringify_scalar. }
  rewrite Htext.
  erewrite bind_step by reflexivity.
  erewrite bind_step by reflexivity.
  destruct (changed_keys_scalars
              (InstanceDao.oldState_vars (storedVars d !! c)) newVars
              (Object_keys newVars)) as [changedVarsKeys Hchanged].
  { intros key Hkey.
    apply (obj_get_Forall (fun v => scalar v = true)); assumption. }
  unfold calculateChangedVars. rewrite Hchanged.
  erewrite bind_step by reflexivity.
  erewrite bind_step by (rewrite getRuneKeys_eq; simpl; rewrite Hr; reflexivity).
  erewrite bind_step by (rewrite getInstance_eq; simpl; rewrite Hr; reflexivity).
  match goal with
  | |- context [bind _ _ ?s] => set (d1 := s)
  end.
  assert (Hstrategy : exists d2,
    (if isNew || negb (forallb (includes (Record.runesKeys r)) changedVarsKeys)
     then emit (RenderFull c (InstanceDao.addClientVars env c
                                (InstanceDao.record_vars r)))
     else for_each changedVarsKeys
            (InstanceDao.patch env c (InstanceDao.record_vars r))) d1
    = (Ok tt, d2)).
  { destruct (isNew || _); [eexists; reflexivity|].
    destruct (patch_loop_completes env c (InstanceDao.record_vars r)
                changedVarsKeys d1 Hrunes) as (d2 & H2 & _).
    eauto. }
  destruct Hstrategy as [d2 Hstrategy].
  erewrite bind_step by exact Hstrategy.
  erewrite bind_step by (apply nested_none_completes, Hplain).
  destruct (isNew || _); eexists; reflexivity.
Qed.

(** C6. A call of [render] that completes performs a full render exactly
    when [isNew] holds or a key the diff reports is not among the record's
    rune keys; otherwise it rewrites the rune of each changed key that is not
    a placeholder, and nothing else of this component: what follows belongs
    to the instances nested in it, closed by the post-render notification of
    a full render.  And the call does complete, at every bound of the
    embedding, when the container is found, the instance is tracked, its
    server-owned variables are booleans, numbers or strings, and the runes
    of the component are in the UI tree. *)
Theorem render_full_or_patch (env : Env) (n : nat) (container : option string)
    (c : string) (isNew : bool) (template : Template.t) (d : dstate) :
  (forall d',
     InstanceDao.render env (S n) container c isNew template d = (Ok tt, d') ->
     exists r newVars changedVarsKeys rest,
       instances d !! c = Some r
       /\ InstanceDao.encodeVars n (InstanceDao.record_vars r) None d
          = (Ok newVars, d)
       /\ calculateChangedVars
            (InstanceDao.oldState_vars (storedVars d !! c)) newVars
          = Ok changedVarsKeys
       /\ let fullRender :=
            isNew || existsb (fun key => negb (includes (Record.runesKeys r) key))
                             changedVarsKeys in
          trace d' =
            trace d
            ++ (if fullRender
                then [RenderFull c (InstanceDao.addClientVars env c
                                      (InstanceDao.record_vars r))]
                else flat_map
                       (fun key => [RenderRune c key
                                      (obj_get (InstanceDao.record_vars r) key);
                                    AfterRender c (Some key)])
                       (List.filter
                          (fun key => plain (obj_get (InstanceDao.record_vars r) key))
                          changedVarsKeys))
            ++ rest
            ++ (if fullRender then [AfterRender c None] else [])
          /\ Forall (fun e => exists key sub x,
                       In (key, VComp sub) (InstanceDao.record_vars r)
                       /\ nested_in (instances d) sub x
                       /\ rendered e = Some x) rest)
  /\ (forall r,
        is_Some container ->
        instances d !! c = Some r ->
        (forall key, In key (Record.serverVarKeys r) ->
           scalar (InstanceDao.field (Record.instance r) key) = true) ->
        (forall t key, getRunes env t c key = true) ->
        exists d',
          InstanceDao.render env (S n) container c isNew template d = (Ok tt, d')).
Proof.
  split.
  - intros d' H.
    destruct (render_shape _ _ _ _ _ _ _ _ (render_inv_all env n) H)
      as (r & newVars & changed & rest & Hr & Henc & Hch & [_ Ht] & HP).
    exists r, newVars, changed, rest. auto.
  - intros r [element ->]. apply render_scalars_completes.
Qed.

(** The scenario of C6: [counter] is created with [{count: 0}] from a
    template that binds [$count] to one slot, then updated to [{count: 1}];
    the render that follows is a patch that rewrites the slot of [count]
    and nothing else. *)
Lemma render_full_or_patch_witness :
  let run :=
    InstanceDao.render (Scenario.env "v1") 1 (Some "counter") "counter" false
      (Scenario.counter_stored "v1") Scenario.counter_updated in
  run = (Ok tt, snd run)
  /\ trace (snd run) =
       trace Scenario.counter_updated
       ++ [RenderRune "counter" "count" (VNum 1);
           AfterRender "counter" (Some "count")]
  /\ exists r newVars changedVarsKeys rest,
       instances Scenario.counter_updated !! "counter" = Some r
       /\ InstanceDao.encodeVars 0 (InstanceDao.record_vars r) None
            Scenario.counter_updated = (Ok newVars, Scenario.counter_updated)
       /\ calculateChangedVars
            (InstanceDao.oldState_vars
               (storedVars Scenario.counter_updated !! "counter")) newVars
          = Ok changedVarsKeys
       /\ let fullRender :=
            false || existsb (fun key => negb (includes (Record.runesKeys r) key))
                             changedVarsKeys in
          trace (snd run) =
            trace Scenario.counter_updated
            ++ (if fullRender
                then [RenderFull "counter"
                        (InstanceDao.addClientVars (Scenario.env "v1") "counter"
                           (InstanceDao.record_vars r))]
                else flat_map
                       (fun key => [RenderRune "counter" key
                                      (obj_get (InstanceDao.record_vars r) key);
                                    AfterRender "counter" (Some key)])
                       (List.filter
                          (fun key => plain (obj_get (InstanceDao.record_vars r) key))
                          changedVarsKeys))
            ++ rest
            ++ (if fullRender then [AfterRender "counter" None] else [])
          /\ Forall (fun e => exists key sub x,
                       In (key, VComp sub) (InstanceDao.record_vars r)
                       /\ nested_in (instances Scenario.counter_updated) sub x
                       /\ rendered e = Some x) rest.
Proof.
  intros run.
  split; [vm_compute; reflexivity|].
  split; [vm_compute; reflexivity|].
  apply (proj1 (render_full_or_patch (Scenario.env "v1") 0 (Some "counter")
                  "counter" false (Scenario.counter_stored "v1")
                  Scenario.counter_updated) (snd run)).
  vm_compute. reflexivity.
Defined.

(** ** The template cache *)



(** ** The session orchestrator *)

(** C9 (as stated, refuted). [start] with the mode ["BOGUS"] fails with
    the invalid-mode error, but only after the root container was created
    and appended to the caller's container. *)
Lemma start_appends_before_validating :
  let called :=
    Reactor.start (Scenario.env "v1") 2 "counter" None
      (Some [("count", VNum 0)]) (Some "BOGUS") Scenario.fresh in
  fst called = Reactor.Returning (Throw (FuseWireError "Invalid ReactorMode")) []
  /\ trace (Reactor.dao (snd called)) = [AppendChild "counter"]
  /\ Reactor.reactorRoot (snd called) = Some "counter"
  /\ Reactor.reactorRoot Scenario.fresh = None.
Proof. vm_compute. auto. Qed.

(** C9 (amended). A call whose requested mode (the explicit one, or the
    configured default when none is given) is neither a key of
    [ReactorModes] nor a property it inherits fails with the invalid-mode
    error.  [react] on a tracked instance then leaves the whole world as it
    was.  [start] has already appended the root container (and built the
    registry when the reactor had none): nothing else happened, so no remote
    exchange, no instance creation and no render; with a registry in place
    its records are untouched. *)
Theorem invalid_mode_fails_early (env : Env) (fuel : nat)
    (mode : option string) (w : Reactor.world) :
  ~ In (requested_mode env mode) ReactorModes.own ->
  ~ In (requested_mode env mode) ReactorModes.inherited ->
  (forall depth componentId,
     Reactor.hasInstanceDao w = true ->
     is_Some (instances (Reactor.dao w) !! componentId) ->
     Reactor.react env fuel (S depth) componentId mode w
     = (Reactor.Returning (Throw (FuseWireError "Invalid ReactorMode")) [], w))
  /\ (forall component id vars,
        let called := Reactor.start env fuel component id vars mode w in
        fst called
        = Reactor.Returning (Throw (FuseWireError "Invalid ReactorMode")) []
        /\ trace (Reactor.dao (snd called))
           = trace (Reactor.dao w)
             ++ [AppendChild (getComponentId (Some component) id)]
        /\ Reactor.inFlight (snd called) = Reactor.inFlight w
        /\ Reactor.tasks (snd called) = Reactor.tasks w
        /\ storedTemplates (Reactor.dao (snd called))
           = storedTemplates (Reactor.dao w)
        /\ storedVars (Reactor.dao (snd called)) = storedVars (Reactor.dao w)
        /\ (Reactor.hasInstanceDao w = true ->
            instances (Reactor.dao (snd called)) = instances (Reactor.dao w))).
Proof.
  intros Hown Hinh.
  assert (Hmode : getReactorMode env mode
                  = Throw (FuseWireError "Invalid ReactorMode")).
  { unfold getReactorMode, ReactorModes.defined, includes.
    destruct (existsb _ ReactorModes.own) eqn:E1.
    - apply existsb_exists in E1. destruct E1 as (x & Hx & Heq).
      apply String.eqb_eq in Heq. subst x. contradiction.
    - destruct (existsb _ ReactorModes.inherited) eqn:E2; [|reflexivity].
      apply existsb_exists in E2. destruct E2 as (x & Hx & Heq).
      apply String.eqb_eq in Heq. subst x. contradiction. }
  split.
  - intros depth componentId Hdao [r Hr]. simpl. rewrite Hdao. simpl.
    rewrite getComponentNameAndId_eq, Hr, Hmode. reflexivity.
  - intros component id vars called. subst called. unfold Reactor.start.
    rewrite Hmode. simpl.
    destruct (Reactor.hasInstanceDao w) eqn:Hdao; simpl; repeat split; auto.
    intros; discriminate.
Qed.

(** A witness for C9: the mode ["BOGUS"] against the reactor that has
    started [counter]. *)
Lemma invalid_mode_fails_early_witness :
  ~ In (requested_mode (Scenario.env "v1") (Some "BOGUS")) ReactorModes.own
  /\ ~ In (requested_mode (Scenario.env "v1") (Some "BOGUS")) ReactorModes.inherited
  /\ Reactor.react (Scenario.env "v1") 2 2 "counter" (Some "BOGUS") Scenario.started
     = (Reactor.Returning (Throw (FuseWireError "Invalid ReactorMode")) [],
        Scenario.started).
Proof.
  assert (H1 : ~ In (requested_mode (Scenario.env "v1") (Some "BOGUS"))
                    ReactorModes.own).
  { vm_compute. intros H. repeat (destruct H as [H|H]; [discriminate|]). exact H. }
  assert (H2 : ~ In (requested_mode (Scenario.env "v1") (Some "BOGUS"))
                    ReactorModes.inherited).
  { vm_compute. intros H. repeat (destruct H as [H|H]; [discriminate|]). exact H. }
  split; [exact H1|]. split; [exact H2|].
  apply (proj1 (invalid_mode_fails_early (Scenario.env "v1") 2 (Some "BOGUS")
                  Scenario.started H1 H2)).
  - vm_compute. reflexivity.
  - vm_compute. eauto.
Defined.

(** C3. When a counter is present for the component and the call resolves
    to SERVER_WAIT, [react] increments the counter and returns at once: the
    call is settled with no activation left, and the registry, the stores
    and the trace of effects are the ones it found, so no unit of work
    started and no remote exchange was made. *)
Theorem server_wait_is_dropped (env : Env) (fuel depth : nat)
    (componentId : string) (mode : option string) (w : Reactor.world) (n : Z) :
  Reactor.hasInstanceDao w = true ->
  is_Some (instances (Reactor.dao w) !! componentId) ->
  getReactorMode env mode = Ok ReactorModes.SERVER_WAIT ->
  Reactor.inFlight w !! componentId = Some n ->
  Reactor.react env fuel (S depth) componentId mode w
  = (Reactor.Returning (Ok tt) [],
     Reactor.set_inFlight (<[componentId := (n + 1)%Z]> (Reactor.inFlight w)) w)
  /\ Reactor.exec env fuel (Reactor.CallReact componentId mode) w
     = Reactor.set_tasks (Reactor.tasks w ++ [Reactor.Returning (Ok tt) []])
         (Reactor.set_inFlight
            (<[componentId := (n + 1)%Z]> (Reactor.inFlight w)) w).
Proof.
  intros Hdao [r Hr] Hmode Hn.
  assert (Hreact : forall k,
    Reactor.react env fuel (S k) componentId mode w
    = (Reactor.Returning (Ok tt) [],
       Reactor.set_inFlight (<[componentId := (n + 1)%Z]> (Reactor.inFlight w)) w)).
  { intros k. simpl. rewrite Hdao. simpl.
    rewrite getComponentNameAndId_eq, Hr, Hmode, Hn. simpl. reflexivity. }
  split; [apply Hreact|].
  unfold Reactor.exec. rewrite Hreact. reflexivity.
Qed.

(** A witness for C3: a second [react(SERVER_WAIT)] on [counter] while the
    exchange of the first is outstanding. *)
Lemma server_wait_is_dropped_witness :
  Reactor.inFlight Scenario.waiting !! "counter" = Some 1%Z
  /\ Reactor.exec (Scenario.env "v1") 2
       (Reactor.CallReact "counter" (Some "SERVER_WAIT")) Scenario.waiting
     = Reactor.set_tasks
         (Reactor.tasks Scenario.waiting ++ [Reactor.Returning (Ok tt) []])
         (Reactor.set_inFlight
            (<["counter" := (1 + 1)%Z]> (Reactor.inFlight Scenario.waiting))
            Scenario.waiting).
Proof.
  split; [vm_compute; reflexivity|].
  apply (server_wait_is_dropped (Scenario.env "v1") 2 1 "counter"
           (Some "SERVER_WAIT") Scenario.waiting 1%Z).
  - vm_compute. reflexivity.
  - vm_compute. eauto.
  - vm_compute. reflexivity.
  - vm_compute. reflexivity.
Defined.

(** *** The in-flight counter and the activations of [react] *)

Lemma bind_Ok {A B} (m : M A) (k : A -> M B) d b d' :
  bind m k d = (Ok b, d') ->
  exists a d1, m d = (Ok a, d1) /\ k a d1 = (Ok b, d').
Proof.
  unfold bind. destruct (m d) as [[a| |] d1]; try discriminate. eauto.
Qed.







Lemma first_serial_other c c' mode rm serial point :
  c <> c' -> first_serial c' (Reactor.InRun c mode rm serial point) = false.
Proof.
  intros Hne. simpl. destruct (String.eqb_spec c c'); [contradiction|reflexivity].
Qed.






















(** ** Decoding and encoding *)







(** *** Plain objects *)

Lemma obj_get_in (o : obj) k v :
  NoDup (map fst o) -> In (k, v) o -> obj_get o k = v.
Proof.
  induction o as [|[k' v'] o IH]; simpl; intros Hnd Hin; [contradiction|].
  apply NoDup_cons in Hnd. destruct Hnd as [Hk Hnd].
  destruct Hin as [Heq|Hin].
  - inversion Heq; subst. now rewrite String.eqb_refl.
  - destruct (String.eqb_spec k' k) as [->|Hne]; [|auto].
    exfalso. apply Hk. apply list_elem_of_In. apply in_map_iff.
    exists (k, v). auto.
Qed.

Lemma obj_set_fresh (o : obj) k v :
  ~ In k (map fst o) -> obj_set o k v = o ++ [(k, v)].
Proof.
  induction o as [|[k' v'] o IH]; simpl; intros Hk; [reflexivity|].
  destruct (String.eqb_spec k' k) as [->|Hne]; [exfalso; auto|].
  rewrite IH; auto.
Qed.

Lemma fold_obj_set (g : string -> value) keys (o : obj) :
  NoDup (map fst o ++ keys) ->
  fold_left (fun vars key => obj_set vars key (g key)) keys o
  = o ++ map (fun key => (key, g key)) keys.
Proof.
  revert o. induction keys as [|k keys IH]; intros o Hnd; simpl.
  - now rewrite app_nil_r.
  - rewrite obj_set_fresh.
    + rewrite IH.
      * rewrite <- app_assoc. reflexivity.
      * rewrite map_app. simpl. rewrite <- app_assoc. exact Hnd.
    + intros Hin. apply NoDup_app in Hnd. destruct Hnd as (_ & Hd & _).
      apply (Hd k); [apply list_elem_of_In, Hin | left].
Qed.

Lemma field_fold_other (vars : obj) fields k :
  ~ In k (map fst vars) ->
  InstanceDao.field
    (fold_left (fun f (kv : string * value) => <[fst kv := decoded (snd kv)]> f)
               vars fields) k
  = InstanceDao.field fields k.
Proof.
  revert fields. induction vars as [|[k' v'] vars IH]; intros fields Hk; simpl;
    [reflexivity|].
  rewrite IH by (intros Hin; apply Hk; now right).
  unfold InstanceDao.field. rewrite lookup_insert_ne; [reflexivity|].
  intros ->. apply Hk. now left.
Qed.

Lemma field_after (vars : obj) fields k v :
  NoDup (map fst vars) -> In (k, v) vars ->
  InstanceDao.field
    (fold_left (fun f (kv : string * value) => <[fst kv := decoded (snd kv)]> f)
               vars fields) k
  = decoded v.
Proof.
  revert fields. induction vars as [|[k' v'] vars IH]; intros fields Hnd Hin;
    simpl in *; [contradiction|].
  apply NoDup_cons in Hnd. destruct Hnd as [Hk Hnd].
  destruct Hin as [Heq|Hin].
  - inversion Heq; subst.
    rewrite field_fold_other
      by (intros Hin; apply Hk, list_elem_of_In, Hin).
    unfold InstanceDao.field. now rewrite lookup_insert_eq.
  - apply IH; assumption.
Qed.

(** The variables of a record that [create] has just filled from [vars]. *)
Lemma record_vars_created now fields (vars : obj) component id runes version :
  NoDup (map fst vars) ->
  InstanceDao.record_vars
    (Record.mk now
       (fold_left (fun f (kv : string * value) => <[fst kv := decoded (snd kv)]> f)
                  vars fields)
       component id (Object_keys vars) runes version)
  = map (fun kv : string * value => (fst kv, decoded (snd kv))) vars.
Proof.
  intros Hnd. unfold InstanceDao.record_vars, Object_keys. simpl.
  rewrite fold_obj_set by (simpl; exact Hnd). simpl.
  rewrite map_map. apply map_ext_in. intros [k v] Hin. simpl.
  f_equal. apply field_after; assumption.
Qed.


(** *** Decoding creates what the envelope names *)











(** * Further properties of the code *)

(** ** Values *)

(** Induction on values, through the lists they nest. *)
Lemma value_nested_ind (P : value -> Prop) :
  P VUndef -> P VNull ->
  (forall b, P (VBool b)) -> (forall n, P (VNum n)) -> (forall s, P (VStr s)) ->
  (forall items, Forall P items -> P (VArr items)) ->
  (forall props, Forall (fun kv : string * value => P (snd kv)) props ->
     P (VObj props)) ->
  (forall mode component id vars version,
     Forall (fun kv : string * value => P (snd kv)) vars ->
     P (VEnvelope mode component id vars version)) ->
  (forall c, P (VComp c)) ->
  forall v, P v.
Proof.
  intros Hu Hn Hb Hz Hs Ha Ho He Hc.
  exact (fix go (v : value) : P v :=
    match v with
    | VUndef => Hu
    | VNull => Hn
    | VBool b => Hb b
    | VNum n => Hz n
    | VStr s => Hs s
    | VArr items =>
        Ha items
          ((fix all (l : list value) : Forall P l :=
              match l with
              | [] => List.Forall_nil P
              | x :: l' => @List.Forall_cons _ P x l' (go x) (all l')
              end) items)
    | VObj props =>
        Ho props
          ((fix all (l : obj) : Forall (fun kv : string * value => P (snd kv)) l :=
              match l with
              | [] => List.Forall_nil _
              | kv :: l' => @List.Forall_cons _ (fun kv : string * value => P (snd kv)) kv l' (go (snd kv)) (all l')
              end) props)
    | VEnvelope mode component id vars version =>
        He mode component id vars version
          ((fix all (l : obj) : Forall (fun kv : string * value => P (snd kv)) l :=
              match l with
              | [] => List.Forall_nil _
              | kv :: l' => @List.Forall_cons _ (fun kv : string * value => P (snd kv)) kv l' (go (snd kv)) (all l')
              end) vars)
    | VComp c => Hc c
    end).
Qed.

Lemma forallb_Forall_snd (f : value -> bool) (l : obj) :
  forallb (fun kv : string * value => f (snd kv)) l = true ->
  Forall (fun kv : string * value => f (snd kv) = true) l.
Proof.
  induction l as [|kv l IH]; simpl; intros H; [constructor|].
  apply andb_true_iff in H. destruct H. constructor; auto.
Qed.

(** Serialising a value [JSON.parse] can return gives its text back. *)
Lemma JSON_stringify_json v : json v = true -> JSON_stringify v = Ok (Some v).
Proof.
  induction v as [| | | | |items IH|props IH|mode component id vars version IH|c]
    using value_nested_ind; intros Hj; try discriminate Hj; try reflexivity.
  - pose (items_json :=
      fix items_json (l : list value) : outcome (list value) :=
        match l with
        | [] => Ok []
        | x :: l' =>
            match JSON_stringify x, items_json l' with
            | Ok (Some j), Ok js => Ok (j :: js)
            | Ok None, Ok js => Ok (VNull :: js)
            | Throw e, _ => Throw e
            | OutOfFuel, _ => OutOfFuel
            | _, Throw e => Throw e
            | _, OutOfFuel => OutOfFuel
            end
        end).
    assert (Hitems : items_json items = Ok items).
    { simpl in Hj. induction IH as [|x l Hx Hl IHl]; [reflexivity|].
      simpl in Hj. apply andb_true_iff in Hj. destruct Hj as [Hjx Hjl].
      simpl. rewrite (Hx Hjx), (IHl Hjl). reflexivity. }
    change (JSON_stringify (VArr items))
      with (match items_json items with
            | Ok js => Ok (Some (VArr js))
            | Throw e => Throw e
            | OutOfFuel => OutOfFuel
            end).
    rewrite Hitems. reflexivity.
  - apply JSON_stringify_obj. simpl in Hj.
    apply forallb_Forall_snd in Hj.
    rewrite List.Forall_forall in IH, Hj. apply List.Forall_forall.
    intros kv Hkv. apply IH; auto.
  - assert (Hvars : JSON_stringify (VObj vars) = Ok (Some (VObj vars))).
    { apply JSON_stringify_obj. simpl in Hj.
      apply forallb_Forall_snd in Hj.
      rewrite List.Forall_forall in IH, Hj. apply List.Forall_forall.
      intros kv Hkv. apply IH; auto. }
    revert Hvars.
    pose (props_json :=
      fix props_json (l : obj) : outcome obj :=
        match l with
        | [] => Ok []
        | (k, x) :: l' =>
            match JSON_stringify x, props_json l' with
            | Ok (Some j), Ok js => Ok ((k, j) :: js)
            | Ok None, Ok js => Ok js
            | Throw e, _ => Throw e
            | OutOfFuel, _ => OutOfFuel
            | _, Throw e => Throw e
            | _, OutOfFuel => OutOfFuel
            end
        end).
    change (JSON_stringify (VObj vars))
      with (match props_json vars with
            | Ok js => Ok (Some (VObj js))
            | Throw e => Throw e
            | OutOfFuel => OutOfFuel
            end).
    change (JSON_stringify (VEnvelope mode component id vars version))
      with (match props_json vars with
            | Ok js => Ok (Some (VEnvelope mode component id js version))
            | Throw e => Throw e
            | OutOfFuel => OutOfFuel
            end).
    destruct (props_json vars) as [js| |]; intros H; try discriminate H.
    injection H as ->. reflexivity.
Qed.

Lemma opt_string_eqb_refl o : opt_string_eqb o o = true.
Proof. destruct o; simpl; [apply String.eqb_refl | reflexivity]. Qed.

Lemma value_eqb_refl v : value_eqb v v = true.
Proof.
  induction v as [| |b|n|s|items IH|props IH|mode component id vars version IH|c]
    using value_nested_ind; simpl; try reflexivity.
  - destruct b; reflexivity.
  - apply Z.eqb_refl.
  - apply String.eqb_refl.
  - induction IH as [|x l Hx Hl IHl]; [reflexivity|].
    rewrite Hx. exact IHl.
  - induction IH as [|[k x] l Hx Hl IHl]; [reflexivity|].
    simpl in Hx. rewrite String.eqb_refl, Hx. exact IHl.
  - rewrite !opt_string_eqb_refl. simpl.
    assert (H : (fix props_eqb (l1 l2 : obj) {struct l1} : bool :=
                   match l1, l2 with
                   | [], [] => true
                   | (k1, x) :: l1', (k2, y) :: l2' =>
                       String.eqb k1 k2 && value_eqb x y && props_eqb l1' l2'
                   | _, _ => false
                   end) vars vars = true).
    { induction IH as [|[k x] l Hx Hl IHl]; [reflexivity|].
      simpl in Hx. rewrite String.eqb_refl, Hx. exact IHl. }
    rewrite H. reflexivity.
  - apply String.eqb_refl.
Qed.

(** ** instance.js: the diff of two variable maps *)

Lemma changed_true_differs oldValue newValue :
  changed oldValue newValue = Ok true ->
  oldValue = VUndef \/ oldValue <> newValue.
Proof.
  intros H.
  destruct (typeof oldValue) eqn:Hold;
    [left; destruct oldValue; try discriminate Hold; reflexivity|..].
  all: right; intros <-; unfold changed in H; rewrite Hold in H.
  all: try (rewrite value_eqb_refl in H; discriminate H).
  destruct (JSON_stringify oldValue) as [[j|]| |]; try discriminate H.
  rewrite value_eqb_refl in H. discriminate H.
Qed.

Lemma changed_undefined newValue : changed VUndef newValue = Ok true.
Proof. reflexivity. Qed.

Lemma changed_keys_sound oldVars newVars keys changedVars :
  changed_keys oldVars newVars keys = Ok changedVars ->
  sublist changedVars keys
  /\ (forall key, In key changedVars ->
        obj_get oldVars key = VUndef
        \/ obj_get oldVars key <> obj_get newVars key)
  /\ (forall key, In key keys -> obj_get oldVars key = VUndef ->
        In key changedVars).
Proof.
  revert changedVars.
  induction keys as [|key keys IH]; intros changedVars H; simpl in H.
  - injection H as <-. split; [constructor|]. split; intros k []; contradiction.
  - destruct (changed (obj_get oldVars key) (obj_get newVars key))
      as [c| |] eqn:Hc; try discriminate H.
    destruct (changed_keys oldVars newVars keys) as [rest| |];
      try discriminate H.
    destruct (IH rest eq_refl) as (Hsub & Hsound & Hnew).
    injection H as <-. destruct c.
    + split; [now constructor|]. split.
      * intros k [<-|Hk]; [exact (changed_true_differs _ _ Hc) | auto].
      * intros k [<-|Hk] Hu; [now left | right; auto].
    + split; [now constructor|]. split; [exact Hsound|].
      intros k [<-|Hk] Hu; [|auto].
      rewrite Hu in Hc. discriminate Hc.
Qed.

(** X1. the keys [calculateChangedVars] reports are keys of [newVars], in
    their order; a reported key was absent from [oldVars] or its value is
    another one; and every key of [newVars] absent from [oldVars] is
    reported.  So a key that [newVars] has lost is never reported. *)
Theorem calculateChangedVars_sound (oldVars newVars : obj)
    (changedVarsKeys : list string) :
  calculateChangedVars oldVars newVars = Ok changedVarsKeys ->
  sublist changedVarsKeys (Object_keys newVars)
  /\ (forall key, In key changedVarsKeys ->
        obj_get oldVars key = VUndef
        \/ obj_get oldVars key <> obj_get newVars key)
  /\ (forall key, In key (Object_keys newVars) ->
        obj_get oldVars key = VUndef -> In key changedVarsKeys).
Proof. apply changed_keys_sound. Qed.

Lemma calculateChangedVars_sound_witness :
  calculateChangedVars [("a", VNum 1); ("gone", VNum 2)]
                       [("a", VNum 1); ("b", VStr "x")] = Ok ["b"]
  /\ sublist ["b"] (Object_keys [("a", VNum 1); ("b", VStr "x")]).
Proof.
  split; [reflexivity|].
  exact (proj1 (calculateChangedVars_sound
                  [("a", VNum 1); ("gone", VNum 2)]
                  [("a", VNum 1); ("b", VStr "x")] ["b"] eq_refl)).
Defined.

Lemma changed_same v : json v = true -> changed v v = Ok false.
Proof.
  intros Hj. unfold changed.
  destruct (typeof v) eqn:Ht.
  - destruct v; discriminate.
  - rewrite (JSON_stringify_json v Hj), value_eqb_refl. reflexivity.
  - rewrite value_eqb_refl. reflexivity.
  - rewrite value_eqb_refl. reflexivity.
  - rewrite value_eqb_refl. reflexivity.
Qed.

Lemma changed_keys_same oldVars newVars keys :
  (forall key, In key keys ->
     json (obj_get newVars key) = true
     /\ obj_get oldVars key = obj_get newVars key) ->
  changed_keys oldVars newVars keys = Ok [].
Proof.
  induction keys as [|key keys IH]; intros H; simpl; [reflexivity|].
  destruct (H key (or_introl eq_refl)) as [Hj ->].
  rewrite (changed_same _ Hj), IH; [reflexivity|].
  intros k Hk. apply H. now right.
Qed.

(** X2. when every variable of [newVars] is a value [JSON.parse] can return
    and [oldVars] holds the same value under the same key,
    [calculateChangedVars] reports no key, whatever else [oldVars] holds. *)
Theorem calculateChangedVars_unchanged (oldVars newVars : obj) :
  Forall (fun kv : string * value => json (snd kv) = true) newVars ->
  (forall key, In key (Object_keys newVars) ->
     obj_get oldVars key = obj_get newVars key) ->
  calculateChangedVars oldVars newVars = Ok [].
Proof.
  intros Hj Hsame. apply changed_keys_same. intros key Hkey. split; [|auto].
  apply (obj_get_Forall (fun v => json v = true)); assumption.
Qed.

Lemma calculateChangedVars_unchanged_witness :
  calculateChangedVars
    [("n", VNum 1); ("list", VArr [VStr "a"; VNull]); ("old", VBool true)]
    [("n", VNum 1); ("list", VArr [VStr "a"; VNull])]
  = Ok [].
Proof.
  apply calculateChangedVars_unchanged.
  - repeat constructor.
  - intros key Hkey. simpl in Hkey.
    destruct Hkey as [<-|[<-|[]]]; reflexivity.
Defined.

(** ** instance.js: [update] *)

Lemma convert_scalar env fuel v d :
  scalar v = true ->
  InstanceDao.convertToComponentIfNeeded env fuel v d = (Ok v, d).
Proof. destruct fuel, v; intros H; try discriminate H; reflexivity. Qed.

Lemma alter_lookup_insert {A} (f : A -> A) (m : gmap string A) i x :
  m !! i = Some x -> alter f i m = <[i := f x]> m.
Proof.
  intros Hx. apply map_eq. intros j.
  destruct (decide (i = j)) as [<-|Hne].
  - now rewrite lookup_alter_eq, Hx, lookup_insert_eq.
  - now rewrite lookup_alter_ne, lookup_insert_ne.
Qed.

Lemma fold_left_ext_in {A B} (f g : A -> B -> A) (l : list B) (a : A) :
  (forall x b, In b l -> f x b = g x b) -> fold_left f l a = fold_left g l a.
Proof.
  revert a. induction l as [|b l IH]; intros a H; simpl; [reflexivity|].
  rewrite (H a b) by now left. apply IH. intros; apply H; now right.
Qed.

Lemma update_each_scalars env fuel c (newVars : obj) keys (acc : obj) d r :
  instances d !! c = Some r ->
  NoDup keys ->
  (forall key, In key keys -> scalar (obj_get newVars key) = true) ->
  exists d',
    InstanceDao.update_each (InstanceDao.convertToComponentIfNeeded env fuel)
      c newVars keys acc d
    = (Ok (fold_left (fun o key =>
                        obj_set o key (InstanceDao.field (Record.instance r) key))
                     keys acc), d')
    /\ instances d'
       = <[c := with_fields r
                  (fold_left (fun f key => <[key := obj_get newVars key]> f)
                             keys (Record.instance r))]> (instances d)
    /\ trace d' = trace d.
Proof.
  revert acc d r.
  induction keys as [|key keys IH]; intros acc d r Hr Hnd Hscalar.
  - exists d. simpl. split; [reflexivity|]. split; [|reflexivity].
    symmetry. apply insert_id. rewrite Hr. destruct r; reflexivity.
  - apply NoDup_cons in Hnd. destruct Hnd as [Hkey Hnd].
    pose proof (Hscalar key (or_introl eq_refl)) as Hv.
    cbn [InstanceDao.update_each].
    erewrite bind_step by (rewrite getInstance_eq, Hr; reflexivity).
    assert (Hnew : match typeof (obj_get newVars key) with
                   | TUndefined => VNull
                   | _ => obj_get newVars key
                   end = obj_get newVars key)
      by (destruct (obj_get newVars key); try discriminate Hv; reflexivity).
    rewrite Hnew.
    erewrite bind_step by (apply convert_scalar, Hv).
    erewrite bind_step by (rewrite getInstance_eq, Hr; reflexivity).
    unfold InstanceDao.set_fields.
    erewrite bind_step by reflexivity.
    set (r1 := with_fields r (<[key := obj_get newVars key]> (Record.instance r))).
    set (d1 := set_instances _ d).
    assert (Hd1 : instances d1 = <[c := r1]> (instances d)).
    { unfold d1. simpl. erewrite alter_lookup_insert by exact Hr. reflexivity. }
    destruct (IH (obj_set acc key (InstanceDao.field (Record.instance r) key))
                 d1 r1) as (d' & Hrun & Hinst & Htrace);
      [rewrite Hd1; apply lookup_insert_eq | exact Hnd
       | intros; apply Hscalar; now right |].
    exists d'. cbn [fold_left]. split; [|split].
    + rewrite Hrun. f_equal. f_equal. apply fold_left_ext_in.
      intros o k Hk. f_equal. unfold r1, InstanceDao.field. simpl.
      rewrite lookup_insert_ne; [reflexivity|].
      intros <-. apply Hkey, list_elem_of_In, Hk.
    + rewrite Hinst, Hd1, insert_insert_eq. reflexivity.
    + rewrite Htrace. reflexivity.
Qed.

(** X3. [update(componentId, newVars, newVersion)] on a tracked instance
    whose server-owned keys are distinct and all given a boolean, a number
    or a string by [newVars].  The record gets [newVersion]; each
    server-owned key, and no other key of [newVars], is assigned its new
    value; the update hook then runs once, on the old values of all the
    server-owned keys; what the hook leaves is kept, and what it raises is
    the result.  No other record changes. *)
Theorem update_assigns_server_keys (env : Env) (fuel : nat) (c : string)
    (newVars : obj) (newVersion : option string) (d : dstate) (r : Record.t) :
  instances d !! c = Some r ->
  NoDup (Record.serverVarKeys r) ->
  (forall key, In key (Record.serverVarKeys r) ->
     scalar (obj_get newVars key) = true) ->
  let assigned :=
    fold_left (fun f key => <[key := obj_get newVars key]> f)
              (Record.serverVarKeys r) (Record.instance r) in
  let hooked := update env c (InstanceDao.record_vars r) assigned in
  let after := InstanceDao.update env fuel c newVars newVersion d in
  fst after = match snd hooked with Some e => Throw e | None => Ok tt end
  /\ trace (snd after) = trace d ++ [UpdateHook c (InstanceDao.record_vars r)]
  /\ instances (snd after)
     = <[c := with_fields (with_version r newVersion) (fst hooked)]> (instances d).
Proof.
  intros Hr Hnd Hscalar assigned hooked after.
  unfold after, InstanceDao.update, InstanceDao.update_with.
  erewrite bind_step by (rewrite getInstance_eq, Hr; reflexivity).
  unfold InstanceDao.set_version. erewrite bind_step by reflexivity.
  set (d0 := set_instances _ d).
  assert (Hd0 : instances d0 = <[c := with_version r newVersion]> (instances d)).
  { unfold d0. simpl. erewrite alter_lookup_insert by exact Hr. reflexivity. }
  assert (Hr0 : instances d0 !! c = Some (with_version r newVersion))
    by (rewrite Hd0; apply lookup_insert_eq).
  unfold InstanceDao.getServerVarsKeys.
  erewrite bind_step
    by (erewrite bind_step by (rewrite record_eq, Hr0; reflexivity); reflexivity).
  destruct (update_each_scalars env fuel c newVars (Record.serverVarKeys r) []
              d0 (with_version r newVersion) Hr0 Hnd Hscalar)
    as (d1 & Hloop & Hd1 & Ht1).
  cbn [Record.serverVarKeys with_version].
  erewrite bind_step by exact Hloop.
  erewrite bind_step by reflexivity.
  cbn [Record.instance with_version] in *.
  fold (InstanceDao.record_vars r).
  fold assigned in Hd1.
  set (d2 := set_trace _ d1).
  assert (Hr2 : instances d2 !! c
                = Some (with_fields (with_version r newVersion) assigned))
    by (unfold d2; simpl; rewrite Hd1; apply lookup_insert_eq).
  unfold InstanceDao.run_hook.
  erewrite bind_step by (rewrite getInstance_eq, Hr2; reflexivity).
  cbn [Record.instance with_fields]. fold hooked.
  unfold InstanceDao.set_fields. erewrite bind_step by reflexivity.
  assert (Hfinal :
    forall o : outcome unit,
      (o = match snd hooked with Some e => Throw e | None => Ok tt end) ->
      forall d3, instances d3
                 = alter (fun r0 => with_fields r0 (fst hooked)) c (instances d2) ->
      trace d3 = trace d2 ->
      o = match snd hooked with Some e => Throw e | None => Ok tt end
      /\ trace d3 = trace d ++ [UpdateHook c (InstanceDao.record_vars r)]
      /\ instances d3
         = <[c := with_fields (with_version r newVersion) (fst hooked)]>
             (instances d)).
  { intros o Ho d3 Hi3 Ht3. split; [exact Ho|]. split.
    - rewrite Ht3. unfold d2. simpl. rewrite Ht1. reflexivity.
    - rewrite Hi3. erewrite alter_lookup_insert by exact Hr2.
      unfold d2. simpl. rewrite Hd1, Hd0, !insert_insert_eq. reflexivity. }
  destruct (snd hooked) as [e|] eqn:Hhook; apply Hfinal; reflexivity.
Qed.

Lemma update_assigns_server_keys_witness :
  let r := Scenario.instance_of "counter" None "v1"
             [("count", VNum 0); ("name", VStr "a")] in
  let newVars := [("count", VNum 1); ("name", VStr "a"); ("extra", VNum 5)] in
  let after :=
    InstanceDao.update (Scenario.env "v1") 1 "counter" newVars (Some "v2")
      counter_named in
  instances counter_named !! "counter" = Some r
  /\ NoDup (Record.serverVarKeys r)
  /\ trace (snd after)
     = [UpdateHook "counter" [("count", VNum 0); ("name", VStr "a")]]
  /\ InstanceDao.field
       (default ∅ (Record.instance <$> instances (snd after) !! "counter"))
       "extra" = VUndef.
Proof.
  intros r newVars after.
  assert (Hr : instances counter_named !! "counter" = Some r) by reflexivity.
  assert (Hnd : NoDup (Record.serverVarKeys r))
    by (apply (bool_decide_unpack _); vm_compute; exact I).
  assert (Hscalar : forall key, In key (Record.serverVarKeys r) ->
                      scalar (obj_get newVars key) = true).
  { intros key [<-|[<-|[]]]; reflexivity. }
  pose proof (update_assigns_server_keys (Scenario.env "v1") 1 "counter"
                newVars (Some "v2") counter_named r Hr Hnd Hscalar)
    as (_ & Htrace & Hinst).
  split; [exact Hr|]. split; [exact Hnd|]. split; [exact Htrace|].
  unfold after. rewrite Hinst. rewrite lookup_insert_eq. reflexivity.
Defined.

Lemma bind_throw {A B} (m : M A) (k : A -> M B) d e d1 :
  m d = (Throw e, d1) -> bind m k d = (Throw e, d1).
Proof. unfold bind. now intros ->. Qed.

Lemma update_each_missing env fuel c (newVars : obj) before key rest
    (acc : obj) d r :
  instances d !! c = Some r ->
  NoDup before ->
  (forall k, In k before -> scalar (obj_get newVars k) = true) ->
  obj_get newVars key = VUndef ->
  exists d',
    InstanceDao.update_each (InstanceDao.convertToComponentIfNeeded env fuel)
      c newVars (before ++ key :: rest) acc d
    = (Throw (TypeError
         "Cannot read properties of null (reading 'fusewire-type')"), d')
    /\ instances d'
       = <[c := with_fields r
                  (fold_left (fun f k => <[k := obj_get newVars k]> f)
                             before (Record.instance r))]> (instances d)
    /\ trace d' = trace d.
Proof.
  revert acc d r.
  induction before as [|k before IH]; intros acc d r Hr Hnd Hscalar Hmissing.
  - exists d. cbn [app InstanceDao.update_each fold_left].
    erewrite bind_step by (rewrite getInstance_eq, Hr; reflexivity).
    rewrite Hmissing. cbn [typeof].
    split; [destruct fuel; reflexivity|]. split; [|reflexivity].
    symmetry. apply insert_id. rewrite Hr. destruct r; reflexivity.
  - apply NoDup_cons in Hnd. destruct Hnd as [Hk Hnd].
    pose proof (Hscalar k (or_introl eq_refl)) as Hv.
    cbn [app InstanceDao.update_each fold_left].
    erewrite bind_step by (rewrite getInstance_eq, Hr; reflexivity).
    assert (Hnew : match typeof (obj_get newVars k) with
                   | TUndefined => VNull
                   | _ => obj_get newVars k
                   end = obj_get newVars k)
      by (destruct (obj_get newVars k); try discriminate Hv; reflexivity).
    rewrite Hnew.
    erewrite bind_step by (apply convert_scalar, Hv).
    erewrite bind_step by (rewrite getInstance_eq, Hr; reflexivity).
    unfold InstanceDao.set_fields.
    erewrite bind_step by reflexivity.
    set (r1 := with_fields r (<[k := obj_get newVars k]> (Record.instance r))).
    set (d1 := set_instances _ d).
    assert (Hd1 : instances d1 = <[c := r1]> (instances d)).
    { unfold d1. simpl. erewrite alter_lookup_insert by exact Hr. reflexivity. }
    destruct (IH (obj_set acc k (InstanceDao.field (Record.instance r) k))
                 d1 r1) as (d' & Hrun & Hinst & Htrace);
      [rewrite Hd1; apply lookup_insert_eq | exact Hnd
       | intros; apply Hscalar; now right | exact Hmissing |].
    exists d'. split; [exact Hrun|]. split.
    + rewrite Hinst, Hd1, insert_insert_eq. reflexivity.
    + rewrite Htrace. reflexivity.
Qed.

Lemma update_missing_key env fuel c (newVars : obj) newVersion d r before key rest :
  instances d !! c = Some r ->
  Record.serverVarKeys r = before ++ key :: rest ->
  NoDup before ->
  (forall k, In k before -> scalar (obj_get newVars k) = true) ->
  obj_get newVars key = VUndef ->
  let after := InstanceDao.update env fuel c newVars newVersion d in
  fst after
  = Throw (TypeError "Cannot read properties of null (reading 'fusewire-type')")
  /\ trace (snd after) = trace d
  /\ instances (snd after)
     = <[c := with_fields (with_version r newVersion)
                (fold_left (fun f k => <[k := obj_get newVars k]> f)
                           before (Record.instance r))]> (instances d).
Proof.
  intros Hr Hkeys Hnd Hscalar Hmissing after.
  unfold after, InstanceDao.update, InstanceDao.update_with.
  erewrite bind_step by (rewrite getInstance_eq, Hr; reflexivity).
  unfold InstanceDao.set_version. erewrite bind_step by reflexivity.
  set (d0 := set_instances _ d).
  assert (Hd0 : instances d0 = <[c := with_version r newVersion]> (instances d)).
  { unfold d0. simpl. erewrite alter_lookup_insert by exact Hr. reflexivity. }
  assert (Hr0 : instances d0 !! c = Some (with_version r newVersion))
    by (rewrite Hd0; apply lookup_insert_eq).
  unfold InstanceDao.getServerVarsKeys.
  erewrite bind_step
    by (erewrite bind_step by (rewrite record_eq, Hr0; reflexivity); reflexivity).
  cbn [Record.serverVarKeys with_version]. rewrite Hkeys.
  destruct (update_each_missing env fuel c newVars before key rest []
              d0 (with_version r newVersion) Hr0 Hnd Hscalar Hmissing)
    as (d1 & Hloop & Hd1 & Ht1).
  rewrite (bind_throw _ _ _ _ _ Hloop). cbn [fst snd].
  split; [reflexivity|]. split; [exact Ht1|].
  rewrite Hd1, Hd0, insert_insert_eq. reflexivity.
Qed.


(** X4. [update] with a [newVars] that lacks a server-owned key fills the
    blank with [null] and then reads the tag of that [null]: the call
    raises a [TypeError].  By then the version is set and the keys before
    the missing one are assigned; the missing key and those after it keep
    their values, and the update hook is not run. *)
Theorem update_missing_key_raises (env : Env) (fuel : nat) (c : string)
    (newVars : obj) (newVersion : option string) (d : dstate) (r : Record.t)
    (before : list string) (key : string) (rest : list string) :
  instances d !! c = Some r ->
  Record.serverVarKeys r = before ++ key :: rest ->
  NoDup before ->
  (forall k, In k before -> scalar (obj_get newVars k) = true) ->
  obj_get newVars key = VUndef ->
  let after := InstanceDao.update env fuel c newVars newVersion d in
  fst after
  = Throw (TypeError "Cannot read properties of null (reading 'fusewire-type')")
  /\ trace (snd after) = trace d
  /\ instances (snd after)
     = <[c := with_fields (with_version r newVersion)
                (fold_left (fun f k => <[k := obj_get newVars k]> f)
                           before (Record.instance r))]> (instances d).
Proof. apply update_missing_key. Qed.

Lemma update_missing_key_raises_witness :
  let r := Scenario.instance_of "counter" None "v1"
             [("count", VNum 0); ("name", VStr "a")] in
  let after :=
    InstanceDao.update (Scenario.env "v1") 1 "counter" [("count", VNum 1)]
      (Some "v2") counter_named in
  instances counter_named !! "counter" = Some r
  /\ fst after
     = Throw (TypeError "Cannot read properties of null (reading 'fusewire-type')")
  /\ trace (snd after) = [].
Proof.
  intros r after.
  assert (Hr : instances counter_named !! "counter" = Some r) by reflexivity.
  assert (Hnd : NoDup ["count"])
    by (apply (bool_decide_unpack _); vm_compute; exact I).
  assert (Hscalar : forall k, In k ["count"] ->
                      scalar (obj_get [("count", VNum 1)] k) = true).
  { intros k [<-|[]]. reflexivity. }
  pose proof (update_missing_key_raises (Scenario.env "v1") 1 "counter"
                [("count", VNum 1)] (Some "v2") counter_named r
                ["count"] "name" [] Hr eq_refl Hnd Hscalar eq_refl)
    as (Hthrow & Htrace & _).
  split; [exact Hr|]. split; [exact Hthrow | exact Htrace].
Defined.

(** ** instance.js: [create] *)

Lemma decoded_scalar v : scalar v = true -> decoded v = v.
Proof. destruct v; intros H; try discriminate H; reflexivity. Qed.

Lemma scalar_defined v : scalar v = true -> typeof v <> TUndefined.
Proof. destruct v; intros H; try discriminate H; discriminate. Qed.

Lemma hydrating_scalars env fuel component (vars rest : obj) fields d :
  (forall k v, In (k, v) rest -> obj_get vars k = v) ->
  Forall (fun kv : string * value => scalar (snd kv) = true) rest ->
  InstanceDao.hydrating (InstanceDao.convertToComponentIfNeeded env fuel)
    component vars (map fst rest) fields d
  = (Ok (fold_left (fun f (kv : string * value) => <[fst kv := snd kv]> f)
                   rest fields), d).
Proof.
  revert fields.
  induction rest as [|[k v] rest IH]; intros fields Hget Hall; [reflexivity|].
  apply Forall_cons in Hall. destruct Hall as [Hv Hall].
  cbn [map fst InstanceDao.hydrating fold_left snd].
  rewrite (Hget k v) by now left.
  assert (Hstep : forall t, t <> TUndefined ->
    match t with
    | TUndefined =>
        throw (FuseWireError
          ("missingComponentKeyInServerResponse: "
           +:+ js_String component +:+ "." +:+ k))
    | _ =>
        x <- InstanceDao.convertToComponentIfNeeded env fuel v ;;
        InstanceDao.hydrating (InstanceDao.convertToComponentIfNeeded env fuel)
          component vars (map fst rest) (<[k := x]> fields)
    end d
    = (Ok (fold_left (fun f (kv : string * value) => <[fst kv := snd kv]> f)
                     rest (<[k := v]> fields)), d)).
  { intros t Ht. destruct t; try contradiction.
    all: erewrite bind_step by (apply convert_scalar, Hv).
    all: apply IH; [intros; apply Hget; now right | exact Hall]. }
  apply Hstep, scalar_defined, Hv.
Qed.

Lemma fold_insert_scalars (vars : obj) (fields : gmap string value) :
  Forall (fun kv : string * value => scalar (snd kv) = true) vars ->
  fold_left (fun f (kv : string * value) => <[fst kv := decoded (snd kv)]> f)
            vars fields
  = fold_left (fun f (kv : string * value) => <[fst kv := snd kv]> f)
              vars fields.
Proof.
  intros H. apply fold_left_ext_in. intros f kv Hkv.
  rewrite List.Forall_forall in H. now rewrite decoded_scalar by auto.
Qed.

Lemma map_decoded_scalars (vars : obj) :
  Forall (fun kv : string * value => scalar (snd kv) = true) vars ->
  map (fun kv : string * value => (fst kv, decoded (snd kv))) vars = vars.
Proof.
  induction 1 as [|[k v] vars Hv Hvars IH]; simpl; [reflexivity|].
  simpl in Hv. now rewrite IH, decoded_scalar.
Qed.

Lemma run_hook_eq id hook d r :
  instances d !! id = Some r ->
  InstanceDao.run_hook id hook d
  = (match snd (hook (Record.instance r)) with
     | Some e => Throw e
     | None => Ok tt
     end,
     set_instances
       (alter (fun r0 => with_fields r0 (fst (hook (Record.instance r)))) id) d).
Proof.
  intros Hr. unfold InstanceDao.run_hook.
  erewrite bind_step by (rewrite getInstance_eq, Hr; reflexivity).
  unfold InstanceDao.set_fields. erewrite bind_step by reflexivity.
  destruct (snd (hook (Record.instance r))); reflexivity.
Qed.

Lemma create_scalars env fuel template html (vars : obj) id version d fields0 :
  Template.htmlCode template = Some html ->
  NoDup (map fst vars) ->
  Forall (fun kv : string * value => scalar (snd kv) = true) vars ->
  createInstance env (trace d ++ [ImportModule (Template.component template)])
    template = Ok fields0 ->
  let cid := getComponentId (Template.component template) id in
  let assigned :=
    fold_left (fun f (kv : string * value) => <[fst kv := snd kv]> f)
              vars fields0 in
  let hooked := hydrate env cid assigned in
  let after := InstanceDao.create env fuel template (Some vars) id version d in
  fst after = match snd hooked with
              | Some e => Throw e
              | None => Ok (VComp cid)
              end
  /\ trace (snd after)
     = trace d ++ [ImportModule (Template.component template); Hydrate cid]
  /\ instances (snd after)
     = <[cid := Record.mk
                  (Date_now env
                     (trace d ++ [ImportModule (Template.component template)]))
                  (fst hooked) (Template.component template) id
                  (Object_keys vars)
                  (filter (fun key =>
                             Text.matches_rune (openTag env) key html = true)
                          (Object_keys vars))
                  version]> (instances d).
Proof.
  intros Hhtml Hkeys Hscalar Hload cid assigned hooked after.
  unfold after, InstanceDao.create, InstanceDao.create_with.
  rewrite Hhtml. fold cid.
  erewrite bind_step by reflexivity.
  erewrite bind_step by reflexivity.
  erewrite bind_step by reflexivity.
  erewrite bind_step by (unfold lift; simpl; rewrite Hload; reflexivity).
  match goal with
  | |- context [bind (match Object_keys vars with [] => ?a | _ :: _ => ?b end)] =>
      assert (Hrunes : forall s,
                (match Object_keys vars with [] => a | _ :: _ => b end) s
                = (Ok (filter (fun key =>
                                 Text.matches_rune (openTag env) key html = true)
                              (Object_keys vars)), s))
        by (destruct (Object_keys vars); reflexivity)
  end.
  erewrite bind_step by apply Hrunes.
  erewrite bind_step
    by (apply hydrating_scalars;
        [intros k v Hin; apply obj_get_in; assumption | exact Hscalar]).
  fold assigned.
  erewrite bind_step by reflexivity.
  erewrite bind_step by reflexivity.
  erewrite bind_step by reflexivity.
  match goal with
  | |- context [bind _ _ ?s] => set (d3 := s)
  end.
  assert (Hr3 : instances d3 !! cid
                = Some (Record.mk
                          (Date_now env
                             (trace d ++ [ImportModule (Template.component template)]))
                          assigned (Template.component template) id
                          (Object_keys vars)
                          (filter (fun key =>
                                     Text.matches_rune (openTag env) key html = true)
                                  (Object_keys vars))
                          version))
    by (unfold d3; simpl; apply lookup_insert_eq).
  pose proof (run_hook_eq cid (hydrate env cid) d3 _ Hr3) as Hhook.
  cbn [Record.instance] in Hhook. fold hooked in Hhook.
  destruct (snd hooked) as [e|].
  - rewrite (bind_throw _ _ _ _ _ Hhook). cbn [fst snd].
    split; [reflexivity|]. split; [simpl; rewrite <- app_assoc; reflexivity|].
    simpl. erewrite alter_lookup_insert by apply lookup_insert_eq.
    rewrite insert_insert_eq. reflexivity.
  - erewrite bind_step by exact Hhook. cbn [fst snd ret].
    split; [reflexivity|]. split; [simpl; rewrite <- app_assoc; reflexivity|].
    simpl. erewrite alter_lookup_insert by apply lookup_insert_eq.
    rewrite insert_insert_eq. reflexivity.
Qed.

(** X5. [create(template, vars, id, version)] with distinct keys holding
    booleans, numbers or strings, a class that loads and a [hydrate] hook
    that leaves the instance as it is: the instance is registered under
    [getComponentId(template.component, id)], replacing whatever was there;
    [extractVars] then returns [vars], [getComponentNameAndId] the
    component and id, and the other records are the ones before. *)
Theorem create_then_extractVars (env : Env) (fuel : nat)
    (template : Template.t) (html : string) (vars : obj)
    (id version : option string) (d : dstate) (fields0 : gmap string value) :
  Template.htmlCode template = Some html ->
  NoDup (map fst vars) ->
  Forall (fun kv : string * value => scalar (snd kv) = true) vars ->
  createInstance env (trace d ++ [ImportModule (Template.component template)])
    template = Ok fields0 ->
  let cid := getComponentId (Template.component template) id in
  let assigned :=
    fold_left (fun f (kv : string * value) => <[fst kv := snd kv]> f)
              vars fields0 in
  hydrate env cid assigned = (assigned, None) ->
  let after := InstanceDao.create env fuel template (Some vars) id version d in
  fst after = Ok (VComp cid)
  /\ InstanceDao.extractVars cid (snd after) = (Ok vars, snd after)
  /\ InstanceDao.getComponentNameAndId cid (snd after)
     = (Ok (Template.component template, id), snd after)
  /\ (forall c, c <> cid -> instances (snd after) !! c = instances d !! c).
Proof.
  intros Hhtml Hkeys Hscalar Hload cid assigned Hhydrate after.
  destruct (create_scalars env fuel template html vars id version d fields0
              Hhtml Hkeys Hscalar Hload) as (Hres & _ & Hinst).
  fold cid assigned after in Hres, Hinst.
  rewrite Hhydrate in Hres, Hinst. cbn [fst snd] in Hres, Hinst.
  split; [exact Hres|].
  rewrite extractVars_eq, getComponentNameAndId_eq, Hinst, lookup_insert_eq.
  split; [|split; [reflexivity|]].
  - unfold assigned. rewrite <- fold_insert_scalars by exact Hscalar.
    rewrite record_vars_created by exact Hkeys.
    now rewrite map_decoded_scalars.
  - intros c Hc. apply lookup_insert_ne. congruence.
Qed.

Lemma create_then_extractVars_witness :
  let vars := [("count", VNum 0); ("label", VStr "hits")] in
  let after :=
    InstanceDao.create (Scenario.env "v1") 1 (Scenario.counter_stored "v1")
      (Some vars) (Some "7") (Some "v1") Scenario.empty in
  NoDup (map fst vars)
  /\ fst after = Ok (VComp "counter_7")
  /\ InstanceDao.extractVars "counter_7" (snd after) = (Ok vars, snd after).
Proof.
  intros vars after.
  assert (Hkeys : NoDup (map fst vars))
    by (apply (bool_decide_unpack _); vm_compute; exact I).
  assert (Hscalar : Forall (fun kv : string * value => scalar (snd kv) = true)
                           vars) by (repeat constructor).
  pose proof (create_then_extractVars (Scenario.env "v1") 1
                (Scenario.counter_stored "v1") "<b>(({$count}))</b>" vars
                (Some "7") (Some "v1") Scenario.empty ∅
                eq_refl Hkeys Hscalar eq_refl eq_refl)
    as (Hres & Hvars & _).
  split; [exact Hkeys|]. split; [exact Hres | exact Hvars].
Defined.

(** X6. the two ways [create] fails around the instance.  When the class
    cannot be loaded or instantiated, the error is raised and the registry
    is as before.  When the [hydrate] hook raises, its error is the result,
    but the record was stored before the hook ran: the instance stays
    registered, with the properties the hook left. *)
Theorem create_failure_modes (env : Env) (fuel : nat) (template : Template.t)
    (vars : obj) (id version : option string) (d : dstate) :
  let cid := getComponentId (Template.component template) id in
  let after := InstanceDao.create env fuel template (Some vars) id version d in
  (forall e,
     createInstance env (trace d ++ [ImportModule (Template.component template)])
       template = Throw e ->
     fst after = Throw e /\ instances (snd after) = instances d)
  /\ (forall html fields0 e,
        Template.htmlCode template = Some html ->
        NoDup (map fst vars) ->
        Forall (fun kv : string * value => scalar (snd kv) = true) vars ->
        createInstance env
          (trace d ++ [ImportModule (Template.component template)]) template
        = Ok fields0 ->
        let assigned :=
          fold_left (fun f (kv : string * value) => <[fst kv := snd kv]> f)
                    vars fields0 in
        snd (hydrate env cid assigned) = Some e ->
        fst after = Throw e
        /\ exists r,
             instances (snd after) !! cid = Some r
             /\ Record.instance r = fst (hydrate env cid assigned)
             /\ Record.serverVarKeys r = Object_keys vars).
Proof.
  intros cid after. split.
  - intros e Hload. unfold after, InstanceDao.create, InstanceDao.create_with.
    erewrite bind_step by reflexivity.
    erewrite bind_step by reflexivity.
    erewrite bind_step by reflexivity.
    erewrite bind_throw by (unfold lift; simpl; rewrite Hload; reflexivity).
    split; reflexivity.
  - intros html fields0 e Hhtml Hkeys Hscalar Hload assigned Hhook.
    destruct (create_scalars env fuel template html vars id version d fields0
                Hhtml Hkeys Hscalar Hload) as (Hres & _ & Hinst).
    fold cid assigned after in Hres, Hinst. rewrite Hhook in Hres.
    split; [exact Hres|]. eexists. rewrite Hinst, lookup_insert_eq.
    split; [reflexivity|]. split; reflexivity.
Qed.

(** ** instance.js: decoding an envelope of a tracked instance *)




(** ** instance.js: [encodeVars] *)

Lemma fold_obj_set_pairs (rest acc : obj) :
  NoDup (map fst acc ++ map fst rest) ->
  fold_left (fun a (kv : string * value) => obj_set a (fst kv) (snd kv)) rest acc
  = acc ++ rest.
Proof.
  revert acc. induction rest as [|[k v] rest IH]; intros acc Hnd; simpl.
  - now rewrite app_nil_r.
  - rewrite obj_set_fresh.
    + rewrite IH; [now rewrite <- app_assoc|].
      rewrite map_app. simpl. now rewrite <- app_assoc.
    + intros Hin. apply NoDup_app in Hnd. destruct Hnd as (_ & Hd & _).
      apply (Hd k); [apply list_elem_of_In, Hin | left].
Qed.

Lemma encode_each_app_plain encode (before rest acc : obj) d :
  Forall (fun kv : string * value => plain (snd kv) = true) before ->
  InstanceDao.encode_each encode (before ++ rest) acc d
  = InstanceDao.encode_each encode rest
      (fold_left (fun a (kv : string * value) => obj_set a (fst kv) (snd kv))
                 before acc) d.
Proof.
  intros H. revert acc.
  induction H as [|[k v] before Hv Hbefore IH]; intros acc; [reflexivity|].
  simpl. unfold plain in Hv. simpl in Hv.
  destruct (component_of v); [discriminate|]. apply IH.
Qed.

Lemma encode_each_no_instance encode (rest acc out : obj) d d' :
  (forall c d0 v d1, encode c d0 = (Ok v, d1) -> plain v = true) ->
  Forall (fun kv : string * value => plain (snd kv) = true) acc ->
  InstanceDao.encode_each encode rest acc d = (Ok out, d') ->
  Forall (fun kv : string * value => plain (snd kv) = true) out.
Proof.
  intros Henc. revert acc d.
  induction rest as [|[k v] rest IH]; intros acc d Hacc H; simpl in H.
  - injection H as <- _. exact Hacc.
  - destruct (component_of v) as [c|] eqn:Hc.
    + apply bind_Ok in H. destruct H as (envelope & d1 & He & H).
      eapply IH; [|exact H].
      apply (obj_set_Forall (fun x => plain x = true)); [exact Hacc|].
      eapply Henc, He.
    + eapply IH; [|exact H].
      apply (obj_set_Forall (fun x => plain x = true)); [exact Hacc|].
      unfold plain. now rewrite Hc.
Qed.

Lemma encodeVars_plain fuel (vars : obj) mode d :
  Forall (fun kv : string * value => plain (snd kv) = true) vars ->
  NoDup (map fst vars) ->
  InstanceDao.encodeVars fuel vars mode d = (Ok vars, d).
Proof.
  intros Hplain Hnd. rewrite encodeVars_encode_at.
  rewrite encode_each_plain by exact Hplain.
  now rewrite fold_obj_set_pairs.
Qed.

(** X8. [encodeVars(vars, mode)] reads the registry and changes nothing.
    Variables that hold no instance, under distinct keys, come back as they
    are.  A variable that holds an instance the registry does not track
    makes the call raise component-not-found.  And a result never holds an
    instance: every instance was replaced by an envelope. *)
Theorem encodeVars_edges (env : Env) (fuel : nat) (vars : obj)
    (mode : option string) (d : dstate) :
  snd (InstanceDao.encodeVars fuel vars mode d) = d
  /\ (Forall (fun kv : string * value => plain (snd kv) = true) vars ->
      NoDup (map fst vars) ->
      InstanceDao.encodeVars fuel vars mode d = (Ok vars, d))
  /\ (forall before key c rest,
        vars = before ++ (key, VComp c) :: rest ->
        Forall (fun kv : string * value => plain (snd kv) = true) before ->
        instances d !! c = None ->
        InstanceDao.encodeVars (S fuel) vars mode d
        = (Throw (FuseWireComponentNotFound c), d))
  /\ (forall out d',
        InstanceDao.encodeVars fuel vars mode d = (Ok out, d') ->
        Forall (fun kv : string * value => plain (snd kv) = true) out).
Proof.
  split; [apply encodeVars_pure|]. split; [|split].
  - apply encodeVars_plain.
  - intros before key c rest -> Hplain Hc.
    rewrite encodeVars_encode_at, encode_each_app_plain by exact Hplain.
    cbn [InstanceDao.encode_each component_of].
    apply bind_throw. unfold encode_at, InstanceDao.encode_component.
    apply bind_throw. now rewrite getComponentNameAndId_eq, Hc.
  - intros out d' H. rewrite encodeVars_encode_at in H.
    eapply encode_each_no_instance; [|constructor|exact H].
    intros c d0 v d1. unfold encode_at, InstanceDao.encode_component.
    destruct fuel; [discriminate|]. intros He.
    apply bind_Ok in He. destruct He as (nameAndId & d2 & _ & He).
    apply bind_Ok in He. destruct He as (inner & d3 & _ & He).
    apply bind_Ok in He. destruct He as (encoded & d4 & _ & He).
    injection He as <- _. reflexivity.
Qed.

(** ** instance.js: [render] *)

Lemma json_plain v : json v = true -> plain v = true.
Proof. destruct v; intros H; try discriminate H; reflexivity. Qed.

Lemma obj_set_keys_in (o : obj) key v y :
  In y (map fst (obj_set o key v)) -> y = key \/ In y (map fst o).
Proof.
  induction o as [|[k x] o IH]; simpl.
  - intros [<-|[]]. now left.
  - destruct (String.eqb k key); simpl; intros [<-|H]; auto.
    destruct (IH H); auto.
Qed.

Lemma obj_set_NoDup (o : obj) key v :
  NoDup (map fst o) -> NoDup (map fst (obj_set o key v)).
Proof.
  induction o as [|[k x] o IH]; simpl; intros H.
  - apply NoDup_singleton.
  - apply NoDup_cons in H. destruct H as [Hk H].
    destruct (String.eqb_spec k key) as [->|Hne]; simpl;
      apply NoDup_cons; split; auto.
    intros Hin. apply list_elem_of_In in Hin.
    destruct (obj_set_keys_in _ _ _ _ Hin) as [->|Hin']; [congruence|].
    apply Hk, list_elem_of_In, Hin'.
Qed.

Lemma record_vars_NoDup r : NoDup (map fst (InstanceDao.record_vars r)).
Proof.
  unfold InstanceDao.record_vars.
  assert (H : forall keys (acc : obj), NoDup (map fst acc) ->
    NoDup (map fst (fold_left
      (fun vars key =>
         obj_set vars key (InstanceDao.field (Record.instance r) key))
      keys acc))).
  { induction keys as [|key keys IH]; intros acc Hacc; simpl; [exact Hacc|].
    apply IH, obj_set_NoDup, Hacc. }
  apply H. constructor.
Qed.

Lemma patch_loop_stores env c (vars : obj) keys d o d' :
  for_each keys (InstanceDao.patch env c vars) d = (o, d') ->
  instances d' = instances d /\ storedVars d' = storedVars d.
Proof.
  revert d. induction keys as [|key keys IH]; intros d H; simpl in H.
  - injection H as _ <-. auto.
  - unfold bind at 1 in H. unfold InstanceDao.patch at 1 in H.
    destruct (plain (obj_get vars key)); [|apply IH in H; exact H].
    unfold bind at 1 in H. unfold gets at 1 in H.
    destruct (getRunes env (trace d) c key).
    + cbn [bind emit modify] in H. apply IH in H. exact H.
    + injection H as _ <-. auto.
Qed.

Lemma render_leaf_snapshot env n container c isNew template d r d1 :
  instances d !! c = Some r ->
  (forall key, In key (Record.serverVarKeys r) ->
     json (InstanceDao.field (Record.instance r) key) = true) ->
  InstanceDao.render env (S n) (Some container) c isNew template d = (Ok tt, d1) ->
  instances d1 = instances d
  /\ storedVars d1
     = <[c := VObj [("lastUpdated", VNum (Date_now env (trace d)));
                    ("vars", VObj (InstanceDao.record_vars r))]]> (storedVars d).
Proof.
  intros Hr Hjson H.
  pose proof (record_vars_Forall (fun v => json v = true) r Hjson) as Hvars.
  assert (Hplain : Forall (fun kv : string * value => plain (snd kv) = true)
                          (InstanceDao.record_vars r)).
  { eapply Forall_impl; [exact Hvars|]. intros kv. apply json_plain. }
  cbn [InstanceDao.render] in H.
  erewrite bind_step in H by (rewrite extractVars_eq, Hr; reflexivity).
  erewrite bind_step in H by reflexivity.
  erewrite bind_step in H by reflexivity.
  erewrite bind_step in H
    by (apply encodeVars_plain; [exact Hplain | apply record_vars_NoDup]).
  assert (Htext :
    JSON_stringify (VObj [("lastUpdated", VNum (Date_now env (trace d)));
                          ("vars", VObj (InstanceDao.record_vars r))])
    = Ok (Some (VObj [("lastUpdated", VNum (Date_now env (trace d)));
                      ("vars", VObj (InstanceDao.record_vars r))]))).
  { apply JSON_stringify_json. simpl. rewrite andb_true_r.
    apply forallb_forall. intros kv Hkv.
    rewrite List.Forall_forall in Hvars. apply Hvars, Hkv. }
  rewrite Htext in H.
  erewrite bind_step in H by reflexivity.
  erewrite bind_step in H by reflexivity.
  apply bind_Ok in H. destruct H as (changedVarsKeys & d2 & Hchanged & H).
  assert (d2 = set_storedVars
                 (fun db => <[c := VObj [("lastUpdated", VNum (Date_now env (trace d)));
                                         ("vars", VObj (InstanceDao.record_vars r))]]> db)
                 d) as ->.
  { unfold lift in Hchanged. now injection Hchanged as _ <-. }
  erewrite bind_step in H
    by (rewrite getRuneKeys_eq; simpl; rewrite Hr; reflexivity).
  erewrite bind_step in H
    by (rewrite getInstance_eq; simpl; rewrite Hr; reflexivity).
  apply bind_Ok in H. destruct H as ([] & d3 & Hstrategy & H).
  erewrite bind_step in H by (apply nested_none_completes, Hplain).
  assert (Hd3 : instances d3 = instances d
                /\ storedVars d3
                   = <[c := VObj [("lastUpdated", VNum (Date_now env (trace d)));
                                  ("vars", VObj (InstanceDao.record_vars r))]]>
                       (storedVars d)).
  { destruct (isNew || _) in Hstrategy.
    - injection Hstrategy as <-. split; reflexivity.
    - apply patch_loop_stores in Hstrategy. exact Hstrategy. }
  destruct (isNew || _) in H; injection H as <-; exact Hd3.
Qed.

(** X9. rendering again with nothing changed touches nothing.  For a
    tracked instance whose server-owned variables are values [JSON.parse]
    can return (so none is an instance): once a call of [render] has
    completed, a second call with [isNew = false] completes too, and makes no
    rendering effect at all; the registry is as it was. *)
Theorem render_again_is_silent (env : Env) (n m : nat)
    (container container' c : string) (isNew : bool)
    (template template' : Template.t) (d d1 : dstate) (r : Record.t) :
  instances d !! c = Some r ->
  (forall key, In key (Record.serverVarKeys r) ->
     json (InstanceDao.field (Record.instance r) key) = true) ->
  InstanceDao.render env (S n) (Some container) c isNew template d = (Ok tt, d1) ->
  exists d2,
    InstanceDao.render env (S m) (Some container') c false template' d1
    = (Ok tt, d2)
    /\ trace d2 = trace d1
    /\ instances d2 = instances d1.
Proof.
  intros Hr Hjson H.
  destruct (render_leaf_snapshot _ _ _ _ _ _ _ _ _ Hr Hjson H) as [Hi1 Hs1].
  pose proof (record_vars_Forall (fun v => json v = true) r Hjson) as Hvars.
  assert (Hplain : Forall (fun kv : string * value => plain (snd kv) = true)
                          (InstanceDao.record_vars r)).
  { eapply Forall_impl; [exact Hvars|]. intros kv. apply json_plain. }
  assert (Hr1 : instances d1 !! c = Some r) by (rewrite Hi1; exact Hr).
  cbn [InstanceDao.render].
  erewrite bind_step by (rewrite extractVars_eq, Hr1; reflexivity).
  erewrite bind_step by reflexivity.
  erewrite bind_step by reflexivity.
  erewrite bind_step
    by (apply encodeVars_plain; [exact Hplain | apply record_vars_NoDup]).
  assert (Htext :
    JSON_stringify (VObj [("lastUpdated", VNum (Date_now env (trace d1)));
                          ("vars", VObj (InstanceDao.record_vars r))])
    = Ok (Some (VObj [("lastUpdated", VNum (Date_now env (trace d1)));
                      ("vars", VObj (InstanceDao.record_vars r))]))).
  { apply JSON_stringify_json. simpl. rewrite andb_true_r.
    apply forallb_forall. intros kv Hkv.
    rewrite List.Forall_forall in Hvars. apply Hvars, Hkv. }
  rewrite Htext.
  erewrite bind_step by reflexivity.
  erewrite bind_step by reflexivity.
  rewrite Hs1, lookup_insert_eq. cbn [InstanceDao.oldState_vars obj_get].
  rewrite (proj2 (String.eqb_neq "lastUpdated" "vars")) by discriminate.
  rewrite String.eqb_refl.
  unfold calculateChangedVars.
  rewrite (changed_keys_same (InstanceDao.record_vars r)
             (InstanceDao.record_vars r)).
  2:{ intros key Hkey. split; [|reflexivity].
      apply (obj_get_Forall (fun v => json v = true)); assumption. }
  erewrite bind_step by reflexivity.
  erewrite bind_step by (rewrite getRuneKeys_eq; simpl; rewrite Hr1; reflexivity).
  erewrite bind_step by (rewrite getInstance_eq; simpl; rewrite Hr1; reflexivity).
  cbn [orb forallb negb for_each].
  erewrite bind_step by reflexivity.
  erewrite bind_step by (apply nested_none_completes, Hplain).
  eexists. split; [reflexivity|]. split; [reflexivity|]. simpl. reflexivity.
Qed.

Lemma render_again_is_silent_witness :
  let first :=
    InstanceDao.render (Scenario.env "v1") 1 (Some "counter") "counter" false
      (Scenario.counter_stored "v1") Scenario.counter_updated in
  let second :=
    InstanceDao.render (Scenario.env "v1") 1 (Some "counter") "counter" false
      (Scenario.counter_stored "v1") (snd first) in
  fst first = Ok tt
  /\ fst second = Ok tt
  /\ trace (snd second) = trace (snd first).
Proof.
  intros first second.
  assert (Hfirst : first = (Ok tt, snd first)) by (vm_compute; reflexivity).
  destruct (render_again_is_silent (Scenario.env "v1") 0 0 "counter" "counter"
              "counter" false (Scenario.counter_stored "v1")
              (Scenario.counter_stored "v1") Scenario.counter_updated
              (snd first)
              (default (Scenario.instance_of "counter" None "v1" [])
                       (instances Scenario.counter_updated !! "counter")))
    as (d2 & Hsecond & Htrace & _).
  - vm_compute. reflexivity.
  - intros key Hkey. vm_compute in Hkey.
    destruct Hkey as [<-|[]]. vm_compute. reflexivity.
  - exact Hfirst.
  - split; [rewrite Hfirst; reflexivity|].
    unfold second. rewrite Hsecond. split; [reflexivity | exact Htrace].
Defined.

(** ** template.js: the template cache *)


(** X11. a template survives the durable store.  [JSON.stringify] of a
    template (through its [toJSON]) gives the text of an object that
    [Template.fromJSON] reads back as the same template, present and absent
    fields alike; and the text [{}], which stands for a missing entry, reads
    as the template with no field. *)
Theorem template_json_round_trip (t : Template.t) :
  (exists props,
     JSON_stringify (toJSON t) = Ok (Some (VObj props))
     /\ fromJSON props = Some t)
  /\ fromJSON [] = Some Template.empty.
Proof.
  split; [|reflexivity].
  destruct t as [[component|] [jsCode|] [cssCode|] [htmlCode|] [version|]
                 [lastUpdated|]].
  all: eexists; split; [vm_compute; reflexivity | reflexivity].
Qed.

(** ** config.js: component ids *)

Lemma append_assoc (a b c : string) : (a +:+ b) +:+ c = a +:+ (b +:+ c).
Proof.
  induction a as [|x a IH]; [reflexivity|].
  change (String x ((a +:+ b) +:+ c) = String x (a +:+ (b +:+ c))).
  now rewrite IH.
Qed.

Lemma append_empty_r (s : string) : s +:+ "" = s.
Proof.
  induction s as [|x s IH]; [reflexivity|].
  change (String x (s +:+ "") = String x s). now rewrite IH.
Qed.

Lemma append_nonempty (a b : string) : a <> "" -> a +:+ b <> "".
Proof. destruct a; [congruence | discriminate]. Qed.

(** X12. [getComponentId] does not tell every pair apart.  An absent id
    and the empty id give the component name itself; and when the id holds
    an underscore, the pair shares its componentId, hence its registry
    record and in-flight counter, with the pair whose name takes the part
    before the underscore. *)
Theorem getComponentId_not_injective (name : string) :
  getComponentId (Some name) None = name
  /\ getComponentId (Some name) (Some "") = name
  /\ (forall id rest, id <> "" -> rest <> "" ->
        getComponentId (Some name) (Some (id +:+ "_" +:+ rest))
        = getComponentId (Some (name +:+ "_" +:+ id)) (Some rest)).
Proof.
  unfold getComponentId, truthy, js_String, default. cbn [negb String.eqb].
  split; [apply append_empty_r|]. split; [apply append_empty_r|].
  intros id rest Hid Hrest.
  rewrite (proj2 (String.eqb_neq rest "")) by exact Hrest.
  assert (Hne : id +:+ "_" +:+ rest <> "")
    by (apply append_nonempty, Hid).
  rewrite (proj2 (String.eqb_neq _ "")) by exact Hne. cbn [negb].
  unfold Datatypes.id. now rewrite !append_assoc.
Qed.

(** ** reactor.js: the in-flight table *)


(** ** Which code issues component exchanges *)

Lemma no_exchange_ret {A} (a : A) : no_exchange (ret a).
Proof. intros d. reflexivity. Qed.

Lemma no_exchange_throw {A} e : no_exchange (@throw A e).
Proof. intros d. reflexivity. Qed.

Lemma no_exchange_out_of_fuel {A} : no_exchange (@out_of_fuel A).
Proof. intros d. reflexivity. Qed.

Lemma no_exchange_gets {A} (f : dstate -> A) : no_exchange (gets f).
Proof. intros d. reflexivity. Qed.

Lemma no_exchange_lift {A} (o : outcome A) : no_exchange (lift o).
Proof. intros d. reflexivity. Qed.

Lemma no_exchange_modify f :
  (forall s, trace (f s) = trace s) -> no_exchange (modify f).
Proof. intros H d. simpl. now rewrite H. Qed.

Lemma no_exchange_emit e :
  match e with FetchComponents _ => False | _ => True end ->
  no_exchange (emit e).
Proof.
  intros He d. unfold emit, modify, Scenario.exchanges. simpl.
  rewrite flat_map_app. simpl. destruct e; try contradiction;
    now rewrite app_nil_r.
Qed.

Lemma no_exchange_bind {A B} (m : M A) (k : A -> M B) :
  no_exchange m -> (forall a, no_exchange (k a)) -> no_exchange (bind m k).
Proof.
  intros Hm Hk d. unfold bind. specialize (Hm d).
  destruct (m d) as [[a| |] d1]; simpl in *; [|exact Hm|exact Hm].
  now rewrite Hk.
Qed.

Lemma no_exchange_detached {A} (m : M A) :
  no_exchange m -> no_exchange (detached m).
Proof.
  intros Hm d. unfold detached. specialize (Hm d).
  destruct (m d) as [[a| |] d1]; exact Hm.
Qed.

Lemma no_exchange_try_finally {A} (m : M A) (f : M unit) :
  no_exchange m -> no_exchange f -> no_exchange (try_finally m f).
Proof.
  intros Hm Hf d. unfold try_finally. specialize (Hm d).
  destruct (m d) as [r d1]. specialize (Hf d1).
  destruct (f d1) as [[[]| |] d2]; simpl in *; congruence.
Qed.

Lemma no_exchange_for_each {A} (l : list A) (body : A -> M unit) :
  (forall x, no_exchange (body x)) -> no_exchange (for_each l body).
Proof.
  intros H. induction l as [|x l IH]; simpl; [apply no_exchange_ret|].
  apply no_exchange_bind; auto.
Qed.

Lemma no_exchange_pure {A} (m : M A) :
  (forall d, snd (m d) = d) -> no_exchange m.
Proof. intros H d. now rewrite H. Qed.

Create HintDb no_exchange.

Ltac quiet :=
  repeat first
    [ assumption
    | solve [auto 2 with no_exchange nocore]
    | apply no_exchange_ret | apply no_exchange_throw
    | apply no_exchange_out_of_fuel | apply no_exchange_gets
    | apply no_exchange_lift
    | apply no_exchange_emit; exact I
    | apply no_exchange_modify; intros; reflexivity
    | apply no_exchange_detached
    | apply no_exchange_for_each; intros
    | apply no_exchange_bind; [|intros] ].

Lemma no_exchange_setFromTemplateResponse env r :
  no_exchange (TemplateDao.setFromTemplateResponse env r).
Proof. unfold TemplateDao.setFromTemplateResponse. quiet. Qed.
#[local] Hint Resolve no_exchange_setFromTemplateResponse : no_exchange.

Lemma no_exchange_getOrFetch env name version mode :
  no_exchange (TemplateDao.getOrFetch env name version mode).
Proof.
  assert (Hfetch : forall version stored,
            no_exchange (TemplateDao.fetch_and_install env name version stored)).
  { intros v stored. unfold TemplateDao.fetch_and_install. quiet.
    destruct a1; [quiet | apply no_exchange_setFromTemplateResponse]. }
  unfold TemplateDao.getOrFetch, TemplateDao.storedTemplate. quiet.
  destruct (match version with Some _ => _ | None => _ end); [|apply Hfetch].
  destruct (_ && _); [quiet | apply Hfetch].
Qed.
#[local] Hint Resolve no_exchange_getOrFetch : no_exchange.

Lemma no_exchange_record id : no_exchange (InstanceDao.record id).
Proof.
  apply no_exchange_pure. intros d. rewrite record_eq.
  destruct (instances d !! id); reflexivity.
Qed.
#[local] Hint Resolve no_exchange_record : no_exchange.

Lemma no_exchange_getInstance id : no_exchange (InstanceDao.getInstance id).
Proof. unfold InstanceDao.getInstance. quiet. Qed.
#[local] Hint Resolve no_exchange_getInstance : no_exchange.

Lemma no_exchange_run_hook id hook : no_exchange (InstanceDao.run_hook id hook).
Proof.
  unfold InstanceDao.run_hook, InstanceDao.set_fields. quiet.
  destruct (snd (hook a)); quiet.
Qed.
#[local] Hint Resolve no_exchange_run_hook : no_exchange.

Lemma no_exchange_remove env id : no_exchange (InstanceDao.remove env id).
Proof.
  unfold InstanceDao.remove. quiet. destruct a; [|quiet].
  apply no_exchange_try_finally; quiet.
Qed.
#[local] Hint Resolve no_exchange_remove : no_exchange.

Lemma no_exchange_hydrating (convert : value -> M value) component vars keys
    fields :
  (forall v, no_exchange (convert v)) ->
  no_exchange (InstanceDao.hydrating convert component vars keys fields).
Proof.
  intros Hc. revert fields.
  induction keys as [|key keys IH]; intros fields; simpl; [quiet|].
  destruct (typeof (obj_get vars key)); quiet.
Qed.
#[local] Hint Resolve no_exchange_hydrating : no_exchange.

Lemma no_exchange_create_with env (convert : value -> M value) template vars id
    version :
  (forall v, no_exchange (convert v)) ->
  no_exchange (InstanceDao.create_with env convert template vars id version).
Proof.
  intros Hc. unfold InstanceDao.create_with. quiet.
  - destruct vars; quiet.
  - destruct (Object_keys a); [quiet|]. destruct (Template.htmlCode template); quiet.
Qed.
#[local] Hint Resolve no_exchange_create_with : no_exchange.

Lemma no_exchange_update_each (convert : value -> M value) c newVars keys oldVars :
  (forall v, no_exchange (convert v)) ->
  no_exchange (InstanceDao.update_each convert c newVars keys oldVars).
Proof.
  intros Hc. revert oldVars.
  induction keys as [|key keys IH]; intros oldVars; simpl; [quiet|].
  unfold InstanceDao.set_fields. quiet.
Qed.
#[local] Hint Resolve no_exchange_update_each : no_exchange.

Lemma no_exchange_update_with env (convert : value -> M value) c newVars
    newVersion :
  (forall v, no_exchange (convert v)) ->
  no_exchange (InstanceDao.update_with env convert c newVars newVersion).
Proof.
  intros Hc. unfold InstanceDao.update_with, InstanceDao.set_version,
    InstanceDao.getServerVarsKeys. quiet.
Qed.
#[local] Hint Resolve no_exchange_update_with : no_exchange.

Lemma no_exchange_convert env fuel v :
  no_exchange (InstanceDao.convertToComponentIfNeeded env fuel v).
Proof.
  revert v. induction fuel as [|fuel IH]; intros v.
  - destruct v; simpl; quiet.
  - destruct v; cbn [InstanceDao.convertToComponentIfNeeded]; quiet.
    unfold InstanceDao.exists_. quiet. destruct a; quiet.
Qed.
#[local] Hint Resolve no_exchange_convert : no_exchange.

Lemma no_exchange_patch env c vars key :
  no_exchange (InstanceDao.patch env c vars key).
Proof.
  unfold InstanceDao.patch. destruct (plain (obj_get vars key)); quiet.
  destruct a; quiet.
Qed.
#[local] Hint Resolve no_exchange_patch : no_exchange.

Lemma no_exchange_getRuneKeys id : no_exchange (InstanceDao.getRuneKeys id).
Proof. unfold InstanceDao.getRuneKeys. quiet. Qed.
#[local] Hint Resolve no_exchange_getRuneKeys : no_exchange.

Lemma no_exchange_getComponentNameAndId id :
  no_exchange (InstanceDao.getComponentNameAndId id).
Proof. unfold InstanceDao.getComponentNameAndId. quiet. Qed.
#[local] Hint Resolve no_exchange_getComponentNameAndId : no_exchange.

Lemma no_exchange_extractVars id : no_exchange (InstanceDao.extractVars id).
Proof.
  apply no_exchange_pure. intros d. rewrite extractVars_eq.
  destruct (instances d !! id); reflexivity.
Qed.
#[local] Hint Resolve no_exchange_extractVars : no_exchange.

Lemma no_exchange_encodeVars fuel vars mode :
  no_exchange (InstanceDao.encodeVars fuel vars mode).
Proof. apply no_exchange_pure, encodeVars_pure. Qed.
#[local] Hint Resolve no_exchange_encodeVars : no_exchange.

Lemma no_exchange_get name : no_exchange (TemplateDao.get name).
Proof. unfold TemplateDao.get. quiet. destruct a; quiet. Qed.
#[local] Hint Resolve no_exchange_get : no_exchange.

Lemma no_exchange_render env fuel container c isNew template :
  no_exchange (InstanceDao.render env fuel container c isNew template).
Proof.
  revert container c isNew template.
  induction fuel as [|fuel IH]; intros container c isNew template;
    cbn [InstanceDao.render]; [quiet|].
  destruct container; [|quiet].
  quiet.
  - destruct (isNew || _); quiet.
  - destruct (component_of (snd x)); quiet.
  - destruct (isNew || _); quiet.
Qed.
#[local] Hint Resolve no_exchange_render : no_exchange.

Lemma exchanged_refl d : exchanged d d [].
Proof. split; [now rewrite app_nil_r | constructor]. Qed.

Lemma exchanged_trans d d1 d2 a b :
  exchanged d d1 a -> exchanged d1 d2 b -> exchanged d d2 (a ++ b).
Proof.
  intros [Ha Pa] [Hb Pb]. split.
  - now rewrite Hb, Ha, app_assoc.
  - apply Forall_app. auto.
Qed.

Lemma no_exchange_remote_only {A} (m : M A) : no_exchange m -> remote_only m.
Proof.
  intros H d. exists []. split; [now rewrite H, app_nil_r | constructor].
Qed.

Lemma remote_only_bind {A B} (m : M A) (k : A -> M B) :
  remote_only m -> (forall a, remote_only (k a)) -> remote_only (bind m k).
Proof.
  intros Hm Hk d. unfold bind. destruct (Hm d) as [a Ha].
  destruct (m d) as [[x| |] d1]; simpl in *; eauto.
  destruct (Hk x d1) as [b Hb]. exists (a ++ b).
  eapply exchanged_trans; eauto.
Qed.

Lemma remote_only_step_refl w : remote_only_step w w.
Proof. exists []. apply exchanged_refl. Qed.

Lemma remote_only_step_trans w w1 w2 :
  remote_only_step w w1 -> remote_only_step w1 w2 -> remote_only_step w w2.
Proof.
  intros [a Ha] [b Hb]. exists (a ++ b). eapply exchanged_trans; eauto.
Qed.

Lemma remote_only_run_getOrFetch env l vars version id :
  remote_only (Reactor.run_getOrFetch env l vars version id).
Proof.
  intros d. exists []. unfold Reactor.run_getOrFetch. cbn [snd].
  split; [|constructor].
  now rewrite (no_exchange_getOrFetch env _ _ _ d), app_nil_r.
Qed.

Lemma no_exchange_InstanceDao_getVersion component id :
  no_exchange (InstanceDao.getVersion component id).
Proof.
  unfold InstanceDao.getVersion, TemplateDao.getVersion,
    TemplateDao.storedTemplate. quiet. destruct a; quiet.
Qed.

Lemma remote_only_run_begin env fuel c component id mode initVars :
  remote_only (Reactor.run_begin env fuel c component id mode initVars).
Proof.
  unfold Reactor.run_begin.
  apply remote_only_bind;
    [apply no_exchange_remote_only; unfold InstanceDao.exists_; quiet|].
  intros found. apply remote_only_bind.
  { apply no_exchange_remote_only. destruct (negb found); quiet. }
  intros vars. apply remote_only_bind;
    [apply no_exchange_remote_only, no_exchange_InstanceDao_getVersion|].
  intros version. destruct (Reactor.remote mode) eqn:Hmode;
    [|apply remote_only_run_getOrFetch].
  apply remote_only_bind; [apply no_exchange_remote_only; quiet|].
  intros encoded. apply remote_only_bind.
  { apply no_exchange_remote_only. unfold TemplateDao.getVersion,
      TemplateDao.storedTemplate. quiet. }
  intros templateVersion. apply remote_only_bind;
    [|intros; apply no_exchange_remote_only; quiet].
  intros d. eexists [_]. unfold emit, modify, exchanged, Scenario.exchanges.
  simpl.
  split; [rewrite flat_map_app; reflexivity|].
  constructor; [exact Hmode | constructor].
Qed.

Lemma no_exchange_run_getOrFetch env l vars version id :
  no_exchange (Reactor.run_getOrFetch env l vars version id).
Proof.
  intros d. unfold Reactor.run_getOrFetch. cbn [snd].
  apply no_exchange_getOrFetch.
Qed.
#[local] Hint Resolve no_exchange_run_getOrFetch : no_exchange.

Lemma no_exchange_run_render env fuel l template :
  no_exchange (Reactor.run_render env fuel l template).
Proof. unfold Reactor.run_render. quiet. Qed.
#[local] Hint Resolve no_exchange_run_render : no_exchange.

Lemma no_exchange_run_resume env fuel point counters :
  no_exchange (Reactor.run_resume env fuel point counters).
Proof.
  destruct point as [l request|l answer vars version id|l answer template|answer];
    cbn [Reactor.run_resume].
  - unfold InstanceDao.exists_. quiet.
    + destruct (fst a0); quiet.
    + destruct (Reactor.run_isNew l && a3); quiet.
  - quiet. destruct (Reactor.run_isNew l).
    + intros d. cbn [snd].
      apply (no_exchange_create_with env _ a vars id version
               (no_exchange_convert env fuel)).
    + destruct (bool_decide _); [|quiet].
      intros d. cbn [snd].
      apply (no_exchange_update_with env _ (Reactor.run_componentId l)
               (default [] vars) version (no_exchange_convert env fuel)).
  - quiet.
  - quiet.
Qed.

Lemma settle_snd (m : M Reactor.run_point) d :
  snd (Reactor.settle m d) = snd (m d).
Proof. unfold Reactor.settle. destruct (m d) as [[p| |] d1]; reflexivity. Qed.

Lemma remote_only_react_enter env fuel c name id mode rm w :
  remote_only_step w (snd (Reactor.react_enter env fuel c name id mode rm w)).
Proof.
  unfold Reactor.react_enter. cbn [snd Reactor.dao Reactor.set_dao
    Reactor.set_inFlight].
  rewrite settle_snd. apply remote_only_run_begin.
Qed.

Lemma remote_only_react env fuel depth c mode w :
  remote_only_step w (snd (Reactor.react env fuel depth c mode w)).
Proof.
  revert c mode w. induction depth as [|depth IH]; intros c mode w;
    cbn [Reactor.react]; [apply remote_only_step_refl|].
  destruct (negb (Reactor.hasInstanceDao w)); [apply remote_only_step_refl|].
  destruct (InstanceDao.getComponentNameAndId c (Reactor.dao w))
    as [[[name id]| |] d1]; try apply remote_only_step_refl.
  destruct (getReactorMode env mode) as [rm| |];
    try apply remote_only_step_refl.
  destruct (_ && _); [exists []; apply exchanged_refl|].
  destruct (String.eqb rm ReactorModes.SERVER); cbn [snd].
  - apply IH.
  - apply remote_only_react_enter.
Qed.

Lemma remote_only_start env fuel component id vars mode w :
  remote_only_step w (snd (Reactor.start env fuel component id vars mode w)).
Proof.
  assert (Hstep : forall d1 (w' : Reactor.world),
    Scenario.exchanges (trace d1) = Scenario.exchanges (trace (Reactor.dao w)) ->
    (exists new, exchanged d1 (Reactor.dao w') new) ->
    remote_only_step w w').
  { intros d1 w' H1 [new [Hnew Hall]]. exists new. split; [|exact Hall].
    now rewrite Hnew, H1. }
  assert (Happend : forall d : dstate,
    Scenario.exchanges
      (trace d ++ [AppendChild (getComponentId (Some component) id)])
    = Scenario.exchanges (trace d)).
  { intros d. unfold Scenario.exchanges. rewrite flat_map_app. simpl.
    now rewrite app_nil_r. }
  unfold Reactor.start. cbn [Reactor.hasInstanceDao].
  destruct (Reactor.hasInstanceDao w);
    destruct (getReactorMode env mode) as [rm| |]; cbn [snd].
  all: try (exists []; split; [|constructor]; simpl;
            now rewrite Happend, app_nil_r).
  all: cbn [Reactor.dao Reactor.set_dao]; rewrite settle_snd.
  all: eapply Hstep; [|apply remote_only_run_begin]; simpl; apply Happend.
Qed.

Lemma remote_only_resume env fuel t w :
  remote_only_step w (snd (Reactor.resume env fuel t w)).
Proof.
  assert (Hrun : forall point,
    remote_only_step w
      (Reactor.set_dao
         (snd (Reactor.settle
                 (Reactor.run_resume env fuel point (Reactor.inFlight w))
                 (Reactor.dao w))) w)).
  { intros point. cbn [Reactor.dao Reactor.set_dao]. rewrite settle_snd.
    apply no_exchange_remote_only, no_exchange_run_resume. }
  assert (Hset : forall m, remote_only_step w (Reactor.set_inFlight m w))
    by (intros m; exists []; apply exchanged_refl).
  destruct t as [[|[point|c name id mode rm|c mode rm serial point|pending] below]
                |answer [|[point|c name id mode rm|c mode rm serial point|pending] below]];
    cbn [Reactor.resume]; try apply remote_only_step_refl.
  all: try (destruct answer as [[]|e|]; cbv beta iota; cbn [snd];
            first [apply remote_only_step_refl | apply remote_only_react_enter]).
  - destruct point; cbn [snd]; try apply Hrun. apply remote_only_step_refl.
  - destruct point; cbn [snd]; try apply Hrun.
    unfold Reactor.react_finally.
    destruct (serial =? 1)%Z; cbn [fst snd]; [|apply remote_only_step_refl].
    destruct (_ && _); cbn [snd].
    + eapply remote_only_step_trans; [apply Hset | apply remote_only_react].
    + apply Hset.
Qed.

Lemma remote_only_exec env fuel a w :
  remote_only_step w (Reactor.exec env fuel a w).
Proof.
  assert (Hquiet : forall (m : M unit),
            no_exchange m ->
            remote_only_step w (Reactor.set_dao (snd (m (Reactor.dao w))) w)).
  { intros m Hm. exists []. cbn [Reactor.dao Reactor.set_dao].
    split; [now rewrite Hm, app_nil_r | constructor]. }
  destruct a as [component id vars mode|c mode|c|c key v| |i];
    cbn [Reactor.exec].
  - eapply remote_only_step_trans; [apply remote_only_start|].
    exists []. apply exchanged_refl.
  - eapply remote_only_step_trans; [apply remote_only_react|].
    exists []. apply exchanged_refl.
  - apply Hquiet, no_exchange_remove.
  - apply Hquiet. unfold InstanceDao.set_fields. quiet.
  - destruct (flushScheduled (Reactor.dao w)); [|apply remote_only_step_refl].
    apply Hquiet. unfold TemplateDao.flush. quiet.
  - destruct (Reactor.tasks w !! i) as [t|]; [|apply remote_only_step_refl].
    eapply remote_only_step_trans; [apply remote_only_resume|].
    exists []. apply exchanged_refl.
Qed.

Lemma remote_only_run env fuel schedule w :
  remote_only_step w (Reactor.run env fuel schedule w).
Proof.
  revert w. induction schedule as [|a schedule IH]; intros w; simpl.
  - apply remote_only_step_refl.
  - eapply remote_only_step_trans; [apply remote_only_exec | apply IH].
Qed.

(** X14. component exchanges are issued in remote modes only.  Whatever
    the application and the event loop do, from any state of the reactor,
    every request sent to the server for a component carries a mode that is
    neither CSR nor CSR_ONLY: the registry, the template cache, the hooks'
    bookkeeping and the renderer issue none, and a unit of work in a local
    mode issues none. *)
Theorem exchanges_only_in_remote_modes (env : Env) (fuel : nat)
    (schedule : list Reactor.action) (w : Reactor.world) :
  exists new,
    Scenario.exchanges (trace (Reactor.dao (Reactor.run env fuel schedule w)))
    = Scenario.exchanges (trace (Reactor.dao w)) ++ new
    /\ Forall (fun request =>
                 rq_mode request <> ReactorModes.CSR
                 /\ rq_mode request <> ReactorModes.CSR_ONLY) new.
Proof.
  destruct (remote_only_run env fuel schedule w) as [new [Hnew Hall]].
  exists new. split; [exact Hnew|].
  eapply Forall_impl; [exact Hall|]. intros request Hr.
  unfold Reactor.remote in Hr. apply andb_true_iff in Hr.
  destruct Hr as [H1 H2].
  apply negb_true_iff in H1, H2.
  apply String.eqb_neq in H1, H2. auto.
Qed.

(** X15. the registry and the template cache never talk to the server
    about components: [create], [update], [render], [remove], decoding an
    envelope and [getOrFetch] leave the list of component requests in the
    trace as it was, whatever their outcome. *)
Theorem registry_issues_no_exchange (env : Env) (fuel : nat) (d : dstate) :
  (forall template vars id version,
     Scenario.exchanges
       (trace (snd (InstanceDao.create env fuel template vars id version d)))
     = Scenario.exchanges (trace d))
  /\ (forall c newVars newVersion,
        Scenario.exchanges
          (trace (snd (InstanceDao.update env fuel c newVars newVersion d)))
        = Scenario.exchanges (trace d))
  /\ (forall container c isNew template,
        Scenario.exchanges
          (trace (snd (InstanceDao.render env fuel container c isNew template d)))
        = Scenario.exchanges (trace d))
  /\ (forall c,
        Scenario.exchanges (trace (snd (InstanceDao.remove env c d)))
        = Scenario.exchanges (trace d))
  /\ (forall v,
        Scenario.exchanges
          (trace (snd (InstanceDao.convertToComponentIfNeeded env fuel v d)))
        = Scenario.exchanges (trace d))
  /\ (forall name version mode,
        Scenario.exchanges
          (trace (snd (TemplateDao.getOrFetch env name version mode d)))
        = Scenario.exchanges (trace d)).
Proof.
  split; [|split; [|split; [|split; [|split]]]]; intros.
  - apply (no_exchange_create_with env _ template vars id version
             (no_exchange_convert env fuel)).
  - apply (no_exchange_update_with env _ c newVars newVersion
             (no_exchange_convert env fuel)).
  - apply no_exchange_render.
  - apply no_exchange_remove.
  - apply no_exchange_convert.
  - apply no_exchange_getOrFetch.
Qed.

(** ** reactor.js: what [start] and [react] send *)

Lemma InstanceDao_getVersion_pure component id d :
  exists version, InstanceDao.getVersion component id d = (Ok version, d).
Proof.
  unfold InstanceDao.getVersion, TemplateDao.getVersion,
    TemplateDao.storedTemplate. run_monad.
  destruct (instances d !! js_String component); eauto.
Qed.

Lemma TemplateDao_getVersion_pure name d :
  exists version, TemplateDao.getVersion name d = (Ok version, d).
Proof.
  unfold TemplateDao.getVersion, TemplateDao.storedTemplate. run_monad. eauto.
Qed.

Lemma run_begin_new env fuel c component id mode d :
  instances d !! c = None ->
  Reactor.remote mode = true ->
  exists templateVersion,
    let l := {| Reactor.run_componentId := c; Reactor.run_component := component;
                Reactor.run_mode := mode; Reactor.run_isNew := true |} in
    let request :=
      {| rq_mode := mode; rq_component := component;
         rq_id := if truthy id then js_String id else "";
         rq_vars := []; rq_templateVersion := templateVersion |} in
    Reactor.run_begin env fuel c component id mode (Some []) d
    = (Ok (Reactor.AwaitFetch l request),
       set_trace (fun t => t ++ [FetchComponents request]) d).
Proof.
  intros Hc Hmode.
  destruct (InstanceDao_getVersion_pure component id d) as [version Hversion].
  destruct (TemplateDao_getVersion_pure component d) as [tv Htv].
  exists tv. cbv zeta. unfold Reactor.run_begin.
  erewrite bind_step
    by (unfold InstanceDao.exists_, gets; rewrite Hc; reflexivity).
  rewrite bool_decide_eq_false_2 by (intros [r Hr]; discriminate Hr).
  cbn [negb]. erewrite bind_step by reflexivity.
  erewrite bind_step by exact Hversion.
  rewrite Hmode.
  erewrite bind_step by (destruct fuel; reflexivity).
  erewrite bind_step by exact Htv.
  erewrite bind_step by reflexivity. reflexivity.
Qed.

(** X16. [start] never sends the variables it is given.  It calls [_run]
    with [false] where [_run] expects the initial variables, so for a
    component that is not tracked yet and a remote mode, the request sent to
    the server carries no variable, whatever [vars] is; the call then waits
    for the answer, having appended the root container and done nothing
    else. *)
Theorem start_sends_no_variables (env : Env) (fuel : nat) (component : string)
    (id : option string) (vars : option obj) (mode : option string)
    (w : Reactor.world) (reactorMode : string) :
  getReactorMode env mode = Ok reactorMode ->
  Reactor.remote reactorMode = true ->
  (Reactor.hasInstanceDao w = true ->
   instances (Reactor.dao w) !! getComponentId (Some component) id = None) ->
  let called := Reactor.start env fuel component id vars mode w in
  exists l templateVersion,
    let request :=
      {| rq_mode := reactorMode; rq_component := Some component;
         rq_id := if truthy id then js_String id else "";
         rq_vars := []; rq_templateVersion := templateVersion |} in
    fst called = Reactor.Running [Reactor.InStart (Reactor.AwaitFetch l request)]
    /\ trace (Reactor.dao (snd called))
       = trace (Reactor.dao w)
         ++ [AppendChild (getComponentId (Some component) id);
             FetchComponents request].
Proof.
  intros Hmode Hremote Hnew called. unfold called, Reactor.start.
  rewrite Hmode. cbn [Reactor.hasInstanceDao].
  destruct (Reactor.hasInstanceDao w) eqn:Hdao.
  - cbn [Reactor.dao].
    destruct (run_begin_new env fuel (getComponentId (Some component) id)
                (Some component) id reactorMode
                (set_trace (fun t => t ++ [AppendChild (getComponentId (Some component) id)])
                   (Reactor.dao w)))
      as [tv Hrun]; [simpl; auto | exact Hremote |].
    cbv zeta in Hrun. unfold Reactor.settle. rewrite Hrun.
    eexists _, tv. split; [reflexivity|]. simpl.
    now rewrite <- app_assoc.
  - cbn [Reactor.dao].
    match goal with
    | |- context [Reactor.settle _ ?s] => set (d1 := s)
    end.
    destruct (run_begin_new env fuel (getComponentId (Some component) id)
                (Some component) id reactorMode d1)
      as [tv Hrun]; [simpl; apply lookup_empty | exact Hremote |].
    cbv zeta in Hrun. unfold Reactor.settle. rewrite Hrun.
    eexists _, tv. split; [reflexivity|]. simpl.
    now rewrite <- app_assoc.
Qed.

Lemma start_sends_no_variables_witness :
  let called :=
    Reactor.start (Scenario.env "v1") 2 "counter" None
      (Some [("count", VNum 41)]) (Some "SERVER") Scenario.fresh in
  getReactorMode (Scenario.env "v1") (Some "SERVER") = Ok "SERVER"
  /\ exists l templateVersion,
       let request :=
         {| rq_mode := "SERVER"; rq_component := Some "counter";
            rq_id := ""; rq_vars := []; rq_templateVersion := templateVersion |} in
       fst called
       = Reactor.Running [Reactor.InStart (Reactor.AwaitFetch l request)]
       /\ trace (Reactor.dao (snd called))
          = trace (Reactor.dao Scenario.fresh)
            ++ [AppendChild "counter"; FetchComponents request].
Proof.
  intros called. split; [reflexivity|].
  apply (start_sends_no_variables (Scenario.env "v1") 2 "counter" None
           (Some [("count", VNum 41)]) (Some "SERVER") Scenario.fresh "SERVER").
  - reflexivity.
  - reflexivity.
  - intros H. discriminate H.
Defined.

Lemma run_begin_tracked env fuel c component id mode initVars d r :
  instances d !! c = Some r ->
  Forall (fun kv : string * value => plain (snd kv) = true)
         (InstanceDao.record_vars r) ->
  Reactor.remote mode = true ->
  exists templateVersion,
    let l := {| Reactor.run_componentId := c; Reactor.run_component := component;
                Reactor.run_mode := mode; Reactor.run_isNew := false |} in
    let request :=
      {| rq_mode := mode; rq_component := component;
         rq_id := if truthy id then js_String id else "";
         rq_vars := InstanceDao.record_vars r;
         rq_templateVersion := templateVersion |} in
    Reactor.run_begin env fuel c component id mode initVars d
    = (Ok (Reactor.AwaitFetch l request),
       set_trace (fun t => t ++ [FetchComponents request]) d).
Proof.
  intros Hc Hplain Hmode.
  destruct (InstanceDao_getVersion_pure component id d) as [version Hversion].
  destruct (TemplateDao_getVersion_pure component d) as [tv Htv].
  exists tv. cbv zeta. unfold Reactor.run_begin.
  erewrite bind_step
    by (unfold InstanceDao.exists_, gets; rewrite Hc; reflexivity).
  rewrite bool_decide_eq_true_2 by eauto.
  cbn [negb].
  erewrite bind_step
    by (erewrite bind_step by (rewrite extractVars_eq, Hc; reflexivity);
        reflexivity).
  erewrite bind_step by exact Hversion.
  rewrite Hmode. cbn [default from_option].
  erewrite bind_step
    by (apply encodeVars_plain; [exact Hplain | apply record_vars_NoDup]).
  erewrite bind_step by exact Htv.
  erewrite bind_step by reflexivity. reflexivity.
Qed.

(** X17. [react] in a remote mode other than SERVER, on a tracked instance
    with no call in flight and no instance among its server-owned variables:
    the call takes serial number 1, sends one request that carries the
    mode, the component, the id (or the empty string) and the current
    server-owned variables, and waits for the answer; nothing is rendered
    before it arrives. *)
Theorem react_waiting_sends_current_vars (env : Env) (fuel depth : nat)
    (c : string) (mode : option string) (w : Reactor.world) (r : Record.t)
    (reactorMode : string) :
  Reactor.hasInstanceDao w = true ->
  instances (Reactor.dao w) !! c = Some r ->
  Forall (fun kv : string * value => plain (snd kv) = true)
         (InstanceDao.record_vars r) ->
  getReactorMode env mode = Ok reactorMode ->
  Reactor.remote reactorMode = true ->
  reactorMode <> ReactorModes.SERVER ->
  Reactor.inFlight w !! c = None ->
  let called := Reactor.react env fuel (S depth) c mode w in
  exists l templateVersion,
    let request :=
      {| rq_mode := reactorMode; rq_component := Record.component r;
         rq_id := if truthy (Record.id r) then js_String (Record.id r) else "";
         rq_vars := InstanceDao.record_vars r;
         rq_templateVersion := templateVersion |} in
    fst called
    = Reactor.Running
        [Reactor.InRun c mode reactorMode 1 (Reactor.AwaitFetch l request)]
    /\ trace (Reactor.dao (snd called))
       = trace (Reactor.dao w) ++ [FetchComponents request]
    /\ Reactor.inFlight (snd called) !! c = Some 1%Z.
Proof.
  intros Hdao Hr Hplain Hmode Hremote Hserver Hnone called.
  unfold called. cbn [Reactor.react]. rewrite Hdao. cbn [negb].
  rewrite getComponentNameAndId_eq, Hr, Hmode, Hnone.
  rewrite bool_decide_eq_false_2 by (intros [x Hx]; discriminate Hx).
  cbn [andb].
  rewrite (proj2 (String.eqb_neq reactorMode ReactorModes.SERVER)) by exact Hserver.
  unfold Reactor.react_enter. rewrite Hnone. cbn [default from_option].
  change (0 + 1)%Z with 1%Z. cbn [Z.ltb Z.compare Pos.compare andb].
  cbn [Reactor.dao Reactor.set_inFlight fst snd].
  destruct (run_begin_tracked env fuel c (Record.component r) (Record.id r)
              reactorMode None (Reactor.dao w) r Hr Hplain Hremote)
    as [tv Hrun].
  cbv zeta in Hrun. unfold Reactor.settle.
  change (1 <? 1)%Z with false. cbn [andb]. rewrite Hrun.
  eexists _, tv. cbn [fst snd Reactor.dao Reactor.set_dao Reactor.inFlight].
  split; [reflexivity|]. split; [reflexivity|]. apply lookup_insert_eq.
Qed.

Lemma react_waiting_sends_current_vars_witness :
  let called :=
    Reactor.react (Scenario.env "v1") 2 2 "counter" (Some "SERVER_WAIT")
      Scenario.started in
  Reactor.inFlight Scenario.started !! "counter" = None
  /\ exists l templateVersion,
       fst called
       = Reactor.Running
           [Reactor.InRun "counter" (Some "SERVER_WAIT") "SERVER_WAIT" 1
              (Reactor.AwaitFetch l
                 {| rq_mode := "SERVER_WAIT"; rq_component := Some "counter";
                    rq_id := ""; rq_vars := [("count", VNum 0)];
                    rq_templateVersion := templateVersion |})].
Proof.
  intros called.
  assert (Hnone : Reactor.inFlight Scenario.started !! "counter" = None)
    by (vm_compute; reflexivity).
  split; [exact Hnone|].
  destruct (react_waiting_sends_current_vars (Scenario.env "v1") 2 1 "counter"
              (Some "SERVER_WAIT") Scenario.started
              (default (Scenario.instance_of "counter" None "v1" [])
                 (instances (Reactor.dao Scenario.started) !! "counter"))
              "SERVER_WAIT")
    as (l & tv & Hcall & _).
  - vm_compute. reflexivity.
  - vm_compute. reflexivity.
  - vm_compute. repeat constructor.
  - reflexivity.
  - reflexivity.
  - discriminate.
  - exact Hnone.
  - exists l, tv. exact Hcall.
Defined.

(** ** reactor.js: the unit of work *)

Lemma setFromTemplateResponse_Ok env t d :
  exists template d',
    TemplateDao.setFromTemplateResponse env t d = (Ok template, d')
    /\ instances d' = instances d /\ trace d' = trace d.
Proof.
  eexists _, _.
  split; [unfold TemplateDao.setFromTemplateResponse, bind, gets, modify, ret;
          reflexivity|].
  split; reflexivity.
Qed.

Lemma install_templates env (templates : list TemplateResponse) d :
  exists d',
    for_each templates (fun templateResponse =>
      TemplateDao.setFromTemplateResponse env templateResponse ;; ret tt) d
    = (Ok tt, d')
    /\ instances d' = instances d /\ trace d' = trace d.
Proof.
  revert d. induction templates as [|t templates IH]; intros d; simpl; [eauto|].
  destruct (setFromTemplateResponse_Ok env t d) as (template & d1 & H1 & Hi1 & Ht1).
  erewrite bind_step by (erewrite bind_step by exact H1; reflexivity).
  destruct (IH d1) as (d' & Hrun & Hi & Ht).
  exists d'. split; [exact Hrun|]. rewrite Hi, Ht. auto.
Qed.

(** X18. the creation race guard of [_run].  When a unit of work found
    its component untracked, asked the server, and finds the component
    tracked when the answer arrives, it installs the templates of the answer
    and stops there: its call settles successfully, the registry is as it
    was, and nothing is created, updated or rendered. *)
Theorem run_skips_when_created_during_fetch (env : Env) (fuel : nat)
    (l : Reactor.run_locals) (request : ComponentRequest)
    (counters : gmap string Z) (d : dstate) (r : Record.t)
    (first : ComponentResponse) (templates : list TemplateResponse) :
  Reactor.run_isNew l = true ->
  instances d !! Reactor.run_componentId l = Some r ->
  fetchComponents env (trace d) request = Ok (Some first, templates) ->
  let resumed :=
    Reactor.run_resume env fuel (Reactor.AwaitFetch l request) counters d in
  fst resumed = Ok (Reactor.Settled (Ok tt))
  /\ instances (snd resumed) = instances d
  /\ trace (snd resumed) = trace d.
Proof.
  intros Hnew Hr Hanswer resumed. unfold resumed. cbn [Reactor.run_resume].
  erewrite bind_step by reflexivity. rewrite Hanswer.
  erewrite bind_step by reflexivity. cbn [fst snd].
  destruct (install_templates env templates d) as (d' & Hrun & Hi & Ht).
  erewrite bind_step by exact Hrun.
  erewrite bind_step by reflexivity.
  erewrite bind_step
    by (unfold InstanceDao.exists_, gets; rewrite Hi, Hr; reflexivity).
  rewrite Hnew, bool_decide_eq_true_2 by eauto.
  cbn [andb fst snd ret]. auto.
Qed.

Lemma run_skips_when_created_during_fetch_witness :
  let l := {| Reactor.run_componentId := "counter";
              Reactor.run_component := Some "counter";
              Reactor.run_mode := "SERVER"; Reactor.run_isNew := true |} in
  let request := {| rq_mode := "SERVER"; rq_component := Some "counter";
                    rq_id := ""; rq_vars := []; rq_templateVersion := "" |} in
  let resumed :=
    Reactor.run_resume (Scenario.env "v1") 2 (Reactor.AwaitFetch l request) ∅
      counter_named in
  fst resumed = Ok (Reactor.Settled (Ok tt))
  /\ trace (snd resumed) = trace counter_named.
Proof.
  intros l request resumed.
  destruct (run_skips_when_created_during_fetch (Scenario.env "v1") 2 l request
              ∅ counter_named
              (Scenario.instance_of "counter" None "v1"
                 [("count", VNum 0); ("name", VStr "a")])
              {| cr_vars := [("count", VNum 0)]; cr_version := Some "v1";
                 cr_id := None |} [] eq_refl eq_refl eq_refl)
    as (Hres & _ & Htrace).
  split; [exact Hres | exact Htrace].
Defined.

(** ** server.js: the transport *)

Lemma is_marker_spec v : Server.is_marker v = true <-> v = VStr "response".
Proof.
  destruct v as [| | | |s| | | |]; simpl; try (split; discriminate).
  rewrite String.eqb_eq. split; congruence.
Qed.

(** X19. [fetchJson] resolves exactly when the response is [ok], its
    status is between 200 and 300, its body parses, and the parsed value
    carries the marker ['fusewire-type': 'response']; it then resolves to
    that value.  Every other case rejects with a [FuseWireServerError] and
    never with another error: a response that is not [ok] gives its status
    as the status code.  [fetchComponents] resolves whenever [fetchJson]
    does, handing over the fields [components] and [templates] unchecked,
    absent or not. *)
Theorem fetchJson_resolves_iff (eng : Server.engine)
    (fetched : Server.response + string) :
  (forall data,
     Server.fetchJson eng fetched = Server.Resolved data
     <-> exists response,
           fetched = inl response
           /\ Server.ok response = true
           /\ (200 <= Server.status response <= 300)%Z
           /\ Server.json response = inl data
           /\ Server.tag data = VStr "response")
  /\ (forall f,
        Server.fetchJson eng fetched = Server.Rejected f ->
        exists message statusCode,
          f = Server.FuseWireServerError message statusCode)
  /\ (forall response,
        fetched = inl response -> Server.ok response = false ->
        exists message,
          Server.fetchJson eng fetched
          = Server.Rejected
              (Server.FuseWireServerError message
                 (Server.Status (Server.status response))))
  /\ (forall data,
        Server.fetchJson eng fetched = Server.Resolved data ->
        Server.fetchComponents eng fetched
        = Server.Resolved (Server.property data "components",
                           Server.property data "templates")).
Proof.
  split; [|split; [|split]].
  - intros data. split.
    + unfold Server.fetchJson. destruct fetched as [response|message];
        [|discriminate].
      destruct (Server.ok response) eqn:Hok; [|discriminate]. cbn [negb].
      destruct ((Server.status response <? 200)%Z
                || (300 <? Server.status response)%Z) eqn:Hstatus;
        [discriminate|].
      apply orb_false_iff in Hstatus. destruct Hstatus as [H1 H2].
      apply Z.ltb_ge in H1, H2.
      destruct (Server.json response) as [parsed|message] eqn:Hjson;
        [|discriminate].
      intros H. exists response.
      destruct (Server.is_marker (Server.tag parsed)) eqn:Htag;
        [|destruct parsed; discriminate H].
      apply is_marker_spec in Htag.
      assert (parsed = data) as -> by (destruct parsed; congruence).
      repeat split; auto.
    + intros (response & -> & Hok & [H1 H2] & Hjson & Htag).
      unfold Server.fetchJson. rewrite Hok, Hjson. cbn [negb].
      rewrite (proj2 (Z.ltb_ge _ _) H1), (proj2 (Z.ltb_ge _ _) H2). cbn [orb].
      rewrite (proj2 (is_marker_spec _) Htag).
      destruct data; try discriminate Htag; reflexivity.
  - intros f. unfold Server.fetchJson, Server.wrapped.
    destruct fetched as [response|message]; [|intros H; injection H as <-; eauto].
    destruct (negb (Server.ok response)); [intros H; injection H as <-; eauto|].
    destruct (_ || _); [intros H; injection H as <-; eauto|].
    destruct (Server.json response) as [parsed|message];
      [|intros H; injection H as <-; eauto].
    destruct (Server.is_marker (Server.tag parsed));
      destruct parsed; intros H; try discriminate H; injection H as <-; eauto.
  - intros response -> Hok. unfold Server.fetchJson. rewrite Hok. eauto.
  - intros data H. unfold Server.fetchComponents. now rewrite H.
Qed.

(** X20. [fetchTemplates] in CSR_ONLY mode is rejected with the plain
    [Error] of [fetchFiles], whatever the server would answer; in any other
    mode it resolves exactly when [fetchJson] resolves to data whose
    [templates] is an array, to that array, and data with anything else
    there is rejected with a [FuseWireServerError] that carries no status
    code. *)
Theorem fetchTemplates_outcomes (eng : Server.engine)
    (fetched : Server.response + string) (mode : string) :
  Server.fetchTemplates eng fetched ReactorModes.CSR_ONLY
  = Server.Rejected (Server.Error "CRS_ONLY not implemented yet")
  /\ (mode <> ReactorModes.CSR_ONLY ->
      forall templates,
        Server.fetchTemplates eng fetched mode = Server.Resolved templates
        <-> exists data,
              Server.fetchJson eng fetched = Server.Resolved data
              /\ Server.property data "templates" = VArr templates)
  /\ (mode <> ReactorModes.CSR_ONLY ->
      forall data,
        Server.fetchJson eng fetched = Server.Resolved data ->
        (forall templates, Server.property data "templates" <> VArr templates) ->
        Server.fetchTemplates eng fetched mode
        = Server.Rejected
            (Server.FuseWireServerError
               "Error detected on the server: no templates data found on response"
               Server.NoStatus)).
Proof.
  split; [reflexivity|].
  assert (mode <> ReactorModes.CSR_ONLY ->
          String.eqb mode ReactorModes.CSR_ONLY = false) as Hmode
    by (intros H; now apply String.eqb_neq).
  split; intros Hne; unfold Server.fetchTemplates; rewrite (Hmode Hne).
  - intros templates. split.
    + destruct (Server.fetchJson eng fetched) as [data|f]; [|discriminate].
      destruct (Server.property data "templates") eqn:Hp; try discriminate.
      intros H. injection H as <-. eauto.
    + intros (data & -> & ->). reflexivity.
  - intros data -> Hnot.
    destruct (Server.property data "templates") as [| | | | |templates| | |]
      eqn:Hp; try reflexivity.
    now destruct (Hnot templates).
Qed.


(** ** template.js and instance.js: runes *)

Lemma append_cons (c : ascii) (a b : string) :
  String c a +:+ b = String c (a +:+ b).
Proof. reflexivity. Qed.

Lemma length_append (a b : string) :
  String.length (a +:+ b) = String.length a + String.length b.
Proof.
  induction a as [|c a IH]; [reflexivity|].
  rewrite append_cons. simpl. now rewrite IH.
Qed.

Lemma strip_prefix_append (p q : string) : Text.strip_prefix p (p +:+ q) = Some q.
Proof.
  induction p as [|c p IH]; [now destruct q|].
  rewrite append_cons. simpl. now rewrite Ascii.eqb_refl.
Qed.

Lemma drop_while_append f (p q : string) :
  Text.drop_while f q = q ->
  Text.drop_while f (p +:+ q) = Text.drop_while f p +:+ q.
Proof.
  intros Hq. induction p as [|c p IH]; [exact Hq|].
  rewrite append_cons. simpl. destruct (f c); [exact IH | reflexivity].
Qed.

Lemma drop_while_every f (p q : string) :
  every f p = true -> Text.drop_while f (p +:+ q) = Text.drop_while f q.
Proof.
  induction p as [|c p IH]; [reflexivity|].
  rewrite append_cons. simpl. intros [-> Hp]%andb_true_iff. auto.
Qed.

Lemma take_while_append f (p : string) c q :
  f c = false ->
  Text.take_while f (p +:+ String c q) = Text.take_while f p.
Proof.
  intros Hc. induction p as [|x p IH]; [simpl; now rewrite Hc|].
  rewrite append_cons. simpl. destruct (f x); [now rewrite IH | reflexivity].
Qed.

Lemma take_while_every f (p : string) c q :
  every f p = true -> f c = false ->
  Text.take_while f (p +:+ String c q) = p
  /\ Text.drop_while f (p +:+ String c q) = String c q.
Proof.
  intros Hp Hc. induction p as [|x p IH]; [simpl; now rewrite Hc|].
  apply andb_true_iff in Hp as [Hx Hp]. rewrite append_cons. simpl.
  rewrite Hx. destruct (IH Hp) as [-> ->]. auto.
Qed.

Lemma drop_while_length f (s : string) :
  String.length (Text.drop_while f s) <= String.length s.
Proof.
  induction s as [|c s IH]; simpl; [lia|]. destruct (f c); simpl; lia.
Qed.

Lemma last_char_every f (s : string) d :
  s <> "" -> every f s = true -> f (Text.last_char s d) = true.
Proof.
  revert d. induction s as [|c s IH]; [congruence|].
  intros d _ [Hc Hs]%andb_true_iff. simpl.
  destruct s as [|c' s]; [exact Hc|]. now apply IH.
Qed.

Lemma append_nil_l (s : string) : "" +:+ s = s.
Proof. reflexivity. Qed.

Lemma strip_prefix_1 a (s r : string) :
  Text.strip_prefix (String a "") s = Some r -> s = String a r.
Proof.
  destruct s as [|x s]; [discriminate|]. cbn [Text.strip_prefix].
  destruct (Ascii.eqb_spec a x) as [<-|]; [|discriminate].
  destruct s; congruence.
Qed.

Lemma strip_prefix_2 a b (s r : string) :
  Text.strip_prefix (String a (String b "")) s = Some r ->
  s = String a (String b r).
Proof.
  destruct s as [|x s]; [discriminate|]. cbn [Text.strip_prefix].
  destruct (Ascii.eqb_spec a x) as [<-|]; [|discriminate].
  intros ->%strip_prefix_1. reflexivity.
Qed.

Lemma match_simple_rune_inv (s name rest : string) :
  Text.match_simple_rune s = Some (name, rest) ->
  exists s1 s2,
    Text.strip_prefix "((" s = Some s1
    /\ Text.strip_prefix "$" (Text.drop_while Text.is_space s1) = Some s2
    /\ Text.strip_prefix "))"
         (Text.drop_while Text.is_space (Text.drop_while Text.is_word s2))
       = Some rest.
Proof.
  unfold Text.match_simple_rune.
  destruct (Text.strip_prefix "((" s) as [s1|]; [|discriminate].
  cbn [mbind option_bind].
  destruct (Text.strip_prefix "$" _) as [s2|] eqn:H2; [|discriminate].
  cbn [mbind option_bind].
  destruct (String.eqb _ _); [discriminate|].
  destruct (Text.strip_prefix "))" _) as [r|] eqn:H3; [|discriminate].
  cbn [mbind option_bind]. intros H. injection H as _ <-. eauto.
Qed.

(** A match of the short rune lies where it starts: when it starts before
    another [((], it ends before it too. *)
Lemma match_simple_rune_before (p Z name rest : string) :
  p <> "" ->
  Text.match_simple_rune (p +:+ String "(" (String "(" Z)) = Some (name, rest) ->
  exists p',
    rest = p' +:+ String "(" (String "(" Z)
    /\ String.length p' < String.length p.
Proof.
  intros Hp (s1 & s2 & H1 & H2 & H3)%match_simple_rune_inv.
  apply strip_prefix_2 in H1.
  destruct p as [|c1 [|c2 p3]]; [congruence| |].
  - rewrite append_cons, append_nil_l in H1. injection H1 as _ <-.
    apply strip_prefix_1 in H2. discriminate H2.
  - rewrite !append_cons in H1. injection H1 as _ _ <-.
    rewrite drop_while_append in H2 by reflexivity.
    pose proof (drop_while_length Text.is_space p3) as L3.
    destruct (Text.drop_while Text.is_space p3) as [|c p5];
      apply strip_prefix_1 in H2; [discriminate H2|].
    rewrite append_cons in H2. injection H2 as _ <-.
    rewrite !drop_while_append in H3 by reflexivity.
    pose proof (drop_while_length Text.is_word p5) as L5.
    pose proof (drop_while_length Text.is_space
                  (Text.drop_while Text.is_word p5)) as L6.
    destruct (Text.drop_while Text.is_space (Text.drop_while Text.is_word p5))
      as [|a [|b p7]]; apply strip_prefix_2 in H3.
    + discriminate H3.
    + rewrite append_cons, append_nil_l in H3. discriminate H3.
    + rewrite !append_cons in H3. injection H3 as _ _ <-.
      exists p7. split; [reflexivity|]. simpl in *. lia.
Qed.

Lemma space_not_word c : Text.is_space c = true -> Text.is_word c = false.
Proof.
  unfold Text.is_space, Text.is_word.
  destruct c as [[] [] [] [] [] [] [] []]; intros H; try discriminate H;
    reflexivity.
Qed.

Lemma match_simple_rune_short (before name after post : string) :
  name <> "" -> every Text.is_word name = true ->
  every Text.is_space before = true -> every Text.is_space after = true ->
  Text.match_simple_rune (short_rune before name after +:+ post)
  = Some (name, post).
Proof.
  intros Hname Hword Hb Ha. unfold Text.match_simple_rune, short_rune.
  rewrite !append_assoc, strip_prefix_append. cbn [mbind option_bind].
  rewrite drop_while_every by exact Hb.
  change (Text.drop_while Text.is_space ("$" +:+ ?x)) with ("$" +:+ x).
  rewrite strip_prefix_append. cbn [mbind option_bind].
  assert (exists c q, after +:+ "))" +:+ post = String c q
                      /\ Text.is_word c = false) as (c & q & Hq & Hc).
  { destruct after as [|x after]; [exists ")"%char; eexists; split; reflexivity|].
    apply andb_true_iff in Ha as [Hx _]. exists x. eexists.
    split; [reflexivity | now apply space_not_word]. }
  rewrite Hq. destruct (take_while_every Text.is_word name c q Hword Hc) as [-> ->].
  destruct (String.eqb_spec name ""); [contradiction|]. rewrite <- Hq.
  rewrite drop_while_every by exact Ha.
  change (Text.drop_while Text.is_space ("))" +:+ post)) with ("))" +:+ post).
  now rewrite strip_prefix_append.
Qed.

(** Whatever precedes a short rune, and whatever [fixRunes] does to it,
    the rune comes out in its braced form. *)
Lemma fixRunes_from_short (before name after post : string) :
  name <> "" -> every Text.is_word name = true ->
  every Text.is_space before = true -> every Text.is_space after = true ->
  forall n pre fuel,
    String.length pre <= n ->
    String.length (pre +:+ short_rune before name after +:+ post) < fuel ->
    exists pre' post',
      Text.fixRunes_from fuel (pre +:+ short_rune before name after +:+ post)
      = pre' +:+ "(({$" +:+ name +:+ "}))" +:+ post'.
Proof.
  intros Hname Hword Hb Ha.
  assert (exists Z, short_rune before name after +:+ post
                    = String "(" (String "(" Z)) as [Z HZ].
  { unfold short_rune. rewrite append_assoc. eexists. reflexivity. }
  induction n as [|n IH]; intros pre fuel Hn Hfuel.
  - destruct pre; [|simpl in Hn; lia].
    destruct fuel as [|fuel]; [lia|].
    rewrite append_nil_l. cbn [Text.fixRunes_from].
    rewrite match_simple_rune_short by assumption.
    exists "", (Text.fixRunes_from fuel post). reflexivity.
  - destruct pre as [|c pre]; [apply IH; [simpl; lia | exact Hfuel]|].
    destruct fuel as [|fuel]; [lia|].
    rewrite length_append in Hfuel. cbn [String.length] in Hfuel, Hn.
    cbn [Text.fixRunes_from].
    destruct (Text.match_simple_rune _) as [[name' rest]|] eqn:Hm.
    + rewrite HZ in Hm.
      apply match_simple_rune_before in Hm as (p' & -> & Hlen);
        [|discriminate].
      cbn [String.length] in Hlen. rewrite <- HZ.
      destruct (IH p' fuel) as (pre' & post' & ->).
      { lia. }
      { rewrite length_append. lia. }
      exists ("(({$" +:+ name' +:+ "}))" +:+ pre'), post'.
      now rewrite !append_assoc.
    + rewrite append_cons.
      destruct (IH pre fuel) as (pre' & post' & ->).
      { lia. }
      { rewrite length_append. lia. }
      exists (String c pre'), post'. reflexivity.
Qed.

Lemma matches_rune_here (openTag key s : string) :
  Text.match_rune_at openTag key s = true ->
  Text.matches_rune openTag key s = true.
Proof. destruct s; cbn [Text.matches_rune]; now intros ->. Qed.

Lemma matches_rune_later (openTag key : string) c (s : string) :
  Text.matches_rune openTag key s = true ->
  Text.matches_rune openTag key (String c s) = true.
Proof. cbn [Text.matches_rune]. intros ->. apply orb_true_r. Qed.

Lemma matches_rune_braced (pre name post : string) :
  name <> "" -> every Text.is_word name = true ->
  Text.matches_rune "((" name (pre +:+ "(({$" +:+ name +:+ "}))" +:+ post)
  = true.
Proof.
  intros Hname Hword. induction pre as [|c pre IH].
  - rewrite append_nil_l. apply matches_rune_here.
    unfold Text.match_rune_at.
    change ("((" +:+ "{") with "(({".
    change ("(({$" +:+ name +:+ "}))" +:+ post)
      with ("(({" +:+ String "$" (name +:+ "}))" +:+ post)).
    rewrite strip_prefix_append.
    change (Text.drop_while Text.is_space (String "$" ?x)) with (String "$" x).
    change (String "$" (name +:+ "}))" +:+ post))
      with (("$" +:+ name) +:+ "}))" +:+ post).
    rewrite strip_prefix_append.
    rewrite (last_char_every Text.is_word name "$" Hname Hword).
    reflexivity.
  - rewrite append_cons. now apply matches_rune_later.
Qed.

(** X21. A short rune [(( $name ))] anywhere in the markup a server sends
    is rewritten by [fixRunes] so that, with the default tags, the test
    [create] applies to each server key finds a rune for [name]: the
    variable is recorded as reactive. *)
Theorem short_rune_becomes_reactive (pre before name after post : string) :
  name <> "" ->
  every Text.is_word name = true ->
  every Text.is_space before = true ->
  every Text.is_space after = true ->
  Text.matches_rune "((" name
    (Text.fixRunes (pre +:+ short_rune before name after +:+ post)) = true.
Proof.
  intros Hname Hword Hb Ha. unfold Text.fixRunes.
  destruct (fixRunes_from_short before name after post Hname Hword Hb Ha
              (String.length pre) pre
              (S (String.length (pre +:+ short_rune before name after +:+ post))))
    as (pre' & post' & ->); [lia | lia |].
  now apply matches_rune_braced.
Qed.

Lemma short_rune_becomes_reactive_witness :
  Text.matches_rune "((" "count"
    (Text.fixRunes ("<b>" +:+ short_rune " " "count" "" +:+ "</b>")) = true.
Proof.
  apply (short_rune_becomes_reactive "<b>" " " "count" "" "</b>");
    [discriminate | reflexivity | reflexivity | reflexivity].
Defined.
